(** * DeskEscape: the game-room client of "Never Have I Ever"

    A shallow embedding of [components/game/GameRoom.js] and
    [components/game/Timer.js]: the room snapshot kept by the [GameRoom]
    component, the way poll responses and socket events are folded into it,
    the timing feedback shown on submission, and the polling schedule.

    Conventions of the embedding.
    - A React state variable read inside a callback is the value of the
      render the callback closes over; it is read from the snapshot [cap]
      passed to the handler.  [useRef] cells and functional updaters
      ([setRoom(prev => ...)]) see the live state threaded by the monad [M].
    - An [async] function is cut at its [await]: one definition runs up to
      the request, one runs when the promise resolves, one when it rejects.
    - Times are integer milliseconds ([Date.now()]); quotients such as
      [(now - questionStartTime) / 1000] are exact rationals. *)

From Stdlib Require Import ZArith QArith Qminmax Qpower Bool List String.
From Stdlib Require Import DecimalString Lia Lqa.
Import ListNotations.
Local Open Scope string_scope.
Local Open Scope Z_scope.
Local Open Scope list_scope.

(** ** Data carried by the room *)

Definition Id := string.

Module User.
Record t := mk { _id : Id; name : string }.
End User.

Module Question.
Record t := mk { _id : Id; text : string }.
End Question.

Module Player.
Record t := mk { user : User.t; points : Z }.
End Player.

Module Answer.
Record t := mk {
  user : Id;
  question : Id;
  round : Z;
  answer : bool;
  timeToAnswer : option Q
}.
End Answer.

Inductive Status := waiting | playing | completed.
Inductive RoomType := public | private.

Definition Status_eqb (a b : Status) : bool :=
  match a, b with
  | waiting, waiting | playing, playing | completed, completed => true
  | _, _ => false
  end.

Definition RoomType_eqb (a b : RoomType) : bool :=
  match a, b with
  | public, public | private, private => true
  | _, _ => false
  end.

(** The room object held in [room]; [None] in an optional field stands for
    a null or missing value (both are falsy, and [?.] treats them alike). *)
Record Room := mkRoom {
  name : string;
  status : Status;
  type : RoomType;
  host : option User.t;
  players : list Player.t;
  maxPlayers : nat;
  maxRounds : Z;
  currentRound : Z;
  currentQuestion : option Question.t;
  answers : option (list Answer.t)
}.

(** The body of a [GET /rooms/:id] response.  The keys the component reads
    unguarded are taken to be present.  A falsy [currentQuestion] is either
    a key that is present with value null, which overrides the previous
    value under object spread, or a key that is missing, which does not:
    [omitsCurrentQuestion] tells them apart.  A null and a missing
    [answers] behave alike under [||] and [?.]. *)
Record RoomData := mkRoomData {
  fields :> Room;
  omitsCurrentQuestion : bool
}.

Record RoundResults := mkRoundResults {
  yesCount : nat;
  noCount : nat;
  question : option string
}.

(** ** Timing tiers (handleAnswer, Timer.js) *)

(** JavaScript [x < y] on numbers. *)
Definition Qltb (x y : Q) : bool := negb (Qle_bool y x).

Inductive Tier := TooQuickly | SpeedBonus3 | SpeedBonus1 | TooSlowly.

(** The branch taken by the feedback cascade at the end of [handleAnswer]. *)
Definition tier (timeToAnswer : Q) : Tier :=
  if Qltb timeToAnswer (3#1) then TooQuickly
  else if Qle_bool timeToAnswer (5#1) then SpeedBonus3
  else if Qle_bool timeToAnswer (15#1) then SpeedBonus1
  else TooSlowly.

(** The speed bonus each branch announces: "Base points only" is no bonus. *)
Definition bonus (t : Tier) : Z :=
  match t with
  | TooQuickly => 0
  | SpeedBonus3 => 3
  | SpeedBonus1 => 1
  | TooSlowly => 0
  end.

(** [(now - startTime) / 1000]; a null start time coerces to 0. *)
Definition elapsedSeconds (now : Z) (startTime : option Z) : Q :=
  Qmake (now - match startTime with Some t => t | None => 0 end) 1000.

(** Timer.js: the colour set by the interval callback. *)
Definition timerColor (elapsed : Q) : string :=
  if Qltb elapsed (3#1) then "text-orange-500"
  else if Qle_bool elapsed (5#1) then "text-green-600"
  else if Qle_bool elapsed (15#1) then "text-blue-600"
  else "text-gray-600".

(** Timer.js: the badge next to the clock. *)
Definition bonusText (canAnswer : bool) (elapsedTime : Q) : string :=
  if negb canAnswer then "Reading period"
  else if Qle_bool elapsedTime (5#1) then "+3 bonus"
  else if Qle_bool elapsedTime (15#1) then "+1 bonus"
  else "No time bonus".

(** ** Effects a handler can request from its environment *)

Inductive PostBody :=
| JoinBody (userId : Id) (passcode : option string)
| UserBody (userId : Id)
| AnswerBody (userId : Id) (answer : bool) (timeToAnswer : Q).

Inductive SocketCall :=
| joinRoom (roomId userId : Id)
| leaveRoom (roomId userId : Id)
| startGame (roomId : Id)
| submitAnswer (roomId userId : Id) (answer : bool) (timeToAnswer : Q)
| nextRound (roomId : Id).

(** The callbacks handed to [setTimeout]. *)
Inductive TimerCallback :=
| EnableAnswer
| FinishTransitionAndFetch
| FinishTransition
| ShowRoundResults (r : RoundResults)
| ScheduledFetch
| GoToLeaderboard.

Inductive Effect :=
| ApiGet (path : string)
| ApiPost (path : string) (body : PostBody)
| Socket (call : SocketCall)
| ToastInfo (msg : string)
| ToastSuccess (msg : string)
| ToastError (msg : string)
| SetTimeout (cb : TimerCallback) (delay : Z)
| ClearTimeout
| Navigate (path : string)
| ConsoleError (msg : string)
| ConsoleLog (msg : string).

(** The message of the feedback toast of each tier. *)
Definition tierToast (t : Tier) : Effect :=
  match t with
  | TooQuickly => ToastInfo "Base points only - answered too quickly!"
  | SpeedBonus3 => ToastSuccess "Speed bonus: +3 points!"
  | SpeedBonus1 => ToastSuccess "Speed bonus: +1 point!"
  | TooSlowly => ToastInfo "Base points only - answered too slowly"
  end.

(** ** Component state: the [useState] variables and the two refs *)

Record State := mkState {
  room : option Room;
  isLoading : bool;
  error : option string;
  isJoining : bool;
  passcode : string;
  roundResults : option RoundResults;
  hasAnswered : bool;
  questionStartTime : option Z;
  answerTime : option Q;
  canAnswer : bool;
  lastUpdated : Z;
  lastPollingUpdate : Z;
  isRefreshing : bool;
  isTransitioning : bool;
  fetchTimeoutRef : bool;
  fetchInProgressRef : bool
}.

Definition withRoom (v : option Room) (s : State) : State :=
  mkState v (isLoading s) (error s) (isJoining s) (passcode s)
    (roundResults s) (hasAnswered s) (questionStartTime s) (answerTime s)
    (canAnswer s) (lastUpdated s) (lastPollingUpdate s) (isRefreshing s)
    (isTransitioning s) (fetchTimeoutRef s) (fetchInProgressRef s).

Definition withIsLoading (v : bool) (s : State) : State :=
  mkState (room s) v (error s) (isJoining s) (passcode s) (roundResults s)
    (hasAnswered s) (questionStartTime s) (answerTime s) (canAnswer s)
    (lastUpdated s) (lastPollingUpdate s) (isRefreshing s)
    (isTransitioning s) (fetchTimeoutRef s) (fetchInProgressRef s).

Definition withError (v : option string) (s : State) : State :=
  mkState (room s) (isLoading s) v (isJoining s) (passcode s)
    (roundResults s) (hasAnswered s) (questionStartTime s) (answerTime s)
    (canAnswer s) (lastUpdated s) (lastPollingUpdate s) (isRefreshing s)
    (isTransitioning s) (fetchTimeoutRef s) (fetchInProgressRef s).

Definition withIsJoining (v : bool) (s : State) : State :=
  mkState (room s) (isLoading s) (error s) v (passcode s) (roundResults s)
    (hasAnswered s) (questionStartTime s) (answerTime s) (canAnswer s)
    (lastUpdated s) (lastPollingUpdate s) (isRefreshing s)
    (isTransitioning s) (fetchTimeoutRef s) (fetchInProgressRef s).

Definition withPasscode (v : string) (s : State) : State :=
  mkState (room s) (isLoading s) (error s) (isJoining s) v (roundResults s)
    (hasAnswered s) (questionStartTime s) (answerTime s) (canAnswer s)
    (lastUpdated s) (lastPollingUpdate s) (isRefreshing s)
    (isTransitioning s) (fetchTimeoutRef s) (fetchInProgressRef s).

Definition withRoundResults (v : option RoundResults) (s : State) : State :=
  mkState (room s) (isLoading s) (error s) (isJoining s) (passcode s) v
    (hasAnswered s) (questionStartTime s) (answerTime s) (canAnswer s)
    (lastUpdated s) (lastPollingUpdate s) (isRefreshing s)
    (isTransitioning s) (fetchTimeoutRef s) (fetchInProgressRef s).

Definition withHasAnswered (v : bool) (s : State) : State :=
  mkState (room s) (isLoading s) (error s) (isJoining s) (passcode s)
    (roundResults s) v (questionStartTime s) (answerTime s) (canAnswer s)
    (lastUpdated s) (lastPollingUpdate s) (isRefreshing s)
    (isTransitioning s) (fetchTimeoutRef s) (fetchInProgressRef s).

Definition withQuestionStartTime (v : option Z) (s : State) : State :=
  mkState (room s) (isLoading s) (error s) (isJoining s) (passcode s)
    (roundResults s) (hasAnswered s) v (answerTime s) (canAnswer s)
    (lastUpdated s) (lastPollingUpdate s) (isRefreshing s)
    (isTransitioning s) (fetchTimeoutRef s) (fetchInProgressRef s).

Definition withAnswerTime (v : option Q) (s : State) : State :=
  mkState (room s) (isLoading s) (error s) (isJoining s) (passcode s)
    (roundResults s) (hasAnswered s) (questionStartTime s) v (canAnswer s)
    (lastUpdated s) (lastPollingUpdate s) (isRefreshing s)
    (isTransitioning s) (fetchTimeoutRef s) (fetchInProgressRef s).

Definition withCanAnswer (v : bool) (s : State) : State :=
  mkState (room s) (isLoading s) (error s) (isJoining s) (passcode s)
    (roundResults s) (hasAnswered s) (questionStartTime s) (answerTime s) v
    (lastUpdated s) (lastPollingUpdate s) (isRefreshing s)
    (isTransitioning s) (fetchTimeoutRef s) (fetchInProgressRef s).

Definition withLastUpdated (v : Z) (s : State) : State :=
  mkState (room s) (isLoading s) (error s) (isJoining s) (passcode s)
    (roundResults s) (hasAnswered s) (questionStartTime s) (answerTime s)
    (canAnswer s) v (lastPollingUpdate s) (isRefreshing s)
    (isTransitioning s) (fetchTimeoutRef s) (fetchInProgressRef s).

Definition withLastPollingUpdate (v : Z) (s : State) : State :=
  mkState (room s) (isLoading s) (error s) (isJoining s) (passcode s)
    (roundResults s) (hasAnswered s) (questionStartTime s) (answerTime s)
    (canAnswer s) (lastUpdated s) v (isRefreshing s) (isTransitioning s)
    (fetchTimeoutRef s) (fetchInProgressRef s).

Definition withIsRefreshing (v : bool) (s : State) : State :=
  mkState (room s) (isLoading s) (error s) (isJoining s) (passcode s)
    (roundResults s) (hasAnswered s) (questionStartTime s) (answerTime s)
    (canAnswer s) (lastUpdated s) (lastPollingUpdate s) v
    (isTransitioning s) (fetchTimeoutRef s) (fetchInProgressRef s).

Definition withIsTransitioning (v : bool) (s : State) : State :=
  mkState (room s) (isLoading s) (error s) (isJoining s) (passcode s)
    (roundResults s) (hasAnswered s) (questionStartTime s) (answerTime s)
    (canAnswer s) (lastUpdated s) (lastPollingUpdate s) (isRefreshing s) v
    (fetchTimeoutRef s) (fetchInProgressRef s).

Definition withFetchTimeoutRef (v : bool) (s : State) : State :=
  mkState (room s) (isLoading s) (error s) (isJoining s) (passcode s)
    (roundResults s) (hasAnswered s) (questionStartTime s) (answerTime s)
    (canAnswer s) (lastUpdated s) (lastPollingUpdate s) (isRefreshing s)
    (isTransitioning s) v (fetchInProgressRef s).

Definition withFetchInProgressRef (v : bool) (s : State) : State :=
  mkState (room s) (isLoading s) (error s) (isJoining s) (passcode s)
    (roundResults s) (hasAnswered s) (questionStartTime s) (answerTime s)
    (canAnswer s) (lastUpdated s) (lastPollingUpdate s) (isRefreshing s)
    (isTransitioning s) (fetchTimeoutRef s) v.


Definition withAnswers (v : option (list Answer.t)) (r : Room) : Room :=
  mkRoom (name r) (status r) (type r) (host r) (players r) (maxPlayers r)
    (maxRounds r) (currentRound r) (currentQuestion r) v.

Definition withCurrentRound (v : Z) (r : Room) : Room :=
  mkRoom (name r) (status r) (type r) (host r) (players r) (maxPlayers r)
    (maxRounds r) v (currentQuestion r) (answers r).

Definition withCurrentQuestion (v : option Question.t) (r : Room) : Room :=
  mkRoom (name r) (status r) (type r) (host r) (players r) (maxPlayers r)
    (maxRounds r) (currentRound r) v (answers r).

Definition withStatus (v : Status) (r : Room) : Room :=
  mkRoom (name r) v (type r) (host r) (players r) (maxPlayers r)
    (maxRounds r) (currentRound r) (currentQuestion r) (answers r).

(** ** The handler monad

    A handler transforms the live state, requests effects in order, and
    either returns or dies on an uncaught TypeError. *)

Inductive Outcome (A : Type) :=
| Returned (a : A)
| Threw.
Arguments Returned {A} a.
Arguments Threw {A}.

Definition M (A : Type) : Type := State -> Outcome A * State * list Effect.

Definition ret {A} (a : A) : M A := fun s => (Returned a, s, []).

Definition bind {A B} (m : M A) (k : A -> M B) : M B :=
  fun s =>
    match m s with
    | (Returned a, s1, es1) =>
        let '(o, s2, es2) := k a s1 in (o, s2, es1 ++ es2)
    | (Threw, s1, es1) => (Threw, s1, es1)
    end.

Notation "x <- c1 ;; c2" := (bind c1 (fun x => c2))
  (at level 61, c1 at next level, right associativity).
Notation "c1 ;; c2" := (bind c1 (fun _ => c2))
  (at level 61, right associativity).

Definition emit (e : Effect) : M unit := fun s => (Returned tt, s, [e]).
Definition modify (f : State -> State) : M unit :=
  fun s => (Returned tt, f s, []).
Definition readRef {A} (ref : State -> A) : M A :=
  fun s => (Returned (ref s), s, []).
Definition when (b : bool) (m : M unit) : M unit :=
  if b then m else ret tt.

Definition outcomeOf {A} (m : M A) (s : State) : Outcome A := fst (fst (m s)).
Definition stateAfter {A} (m : M A) (s : State) : State := snd (fst (m s)).
Definition effectsOf {A} (m : M A) (s : State) : list Effect := snd (m s).

(** [setRoom(prev => ...)] for updaters that dereference [prev]: a null
    [prev], or an updater that reads a field of a null [currentQuestion],
    ends in a TypeError.  The updater may also request effects (the
    [setTimeout] inside the player-answered updater). *)
Definition setRoomWith (f : Room -> option (Room * list Effect)) : M unit :=
  fun s =>
    match room s with
    | Some prev =>
        match f prev with
        | Some (r, es) => (Returned tt, withRoom (Some r) s, es)
        | None => (Threw, s, [])
        end
    | None => (Threw, s, [])
    end.

Definition setRoom (f : option Room -> option Room) : M unit :=
  modify (fun s => withRoom (f (room s)) s).
Definition setIsLoading v := modify (withIsLoading v).
Definition setError v := modify (withError v).
Definition setIsJoining v := modify (withIsJoining v).
Definition setRoundResults v := modify (withRoundResults v).
Definition setHasAnswered v := modify (withHasAnswered v).
Definition setQuestionStartTime v := modify (withQuestionStartTime v).
Definition setAnswerTime v := modify (withAnswerTime v).
Definition setCanAnswer v := modify (withCanAnswer v).
Definition setLastUpdated v := modify (withLastUpdated v).
Definition setLastPollingUpdate v := modify (withLastPollingUpdate v).
Definition setIsRefreshing v := modify (withIsRefreshing v).
Definition setIsTransitioning v := modify (withIsTransitioning v).

(** ** Answer facts *)

(** [a.user === u && a.question === q && a.round === r] *)
Definition sameFact (u q : Id) (r : Z) (a : Answer.t) : bool :=
  String.eqb (Answer.user a) u
  && String.eqb (Answer.question a) q
  && Z.eqb (Answer.round a) r.

(** [a.question === q && a.round === r] *)
Definition forQuestion (q : Id) (r : Z) (a : Answer.t) : bool :=
  String.eqb (Answer.question a) q && Z.eqb (Answer.round a) r.

Definition countFor (l : list Answer.t) (q : Id) (r : Z) : nat :=
  List.length (filter (forQuestion q r) l).

Definition yesCountFor (l : list Answer.t) (q : Id) (r : Z) : nat :=
  List.length (filter (fun a => forQuestion q r a && Answer.answer a) l).

(** [answerCount] and [allPlayersAnswered] as the render computes them:
    a missing [answers] counts 0, and with no current question the
    comparison against [undefined] matches nothing. *)
Definition answerCount (r : Room) : nat :=
  match answers r, currentQuestion r with
  | Some l, Some q => countFor l (Question._id q) (currentRound r)
  | _, _ => 0%nat
  end.

Definition allPlayersAnswered (r : Room) : bool :=
  Nat.eqb (answerCount r) (List.length (players r))
  && Nat.ltb 0 (List.length (players r)).

Definition truthy (s : string) : bool := negb (String.eqb s "").

Definition orDefault (message : option string) (default : string) : string :=
  match message with
  | Some m => if truthy m then m else default
  | None => default
  end.

(** [{...prev, ...response.data,
      answers: response.data.answers || prev.answers}] *)
Definition mergeRoom (prev : Room) (data : RoomData) : Room :=
  mkRoom (name data) (status data) (type data) (host data) (players data)
    (maxPlayers data) (maxRounds data) (currentRound data)
    (match currentQuestion data with
     | Some q => Some q
     | None =>
         if omitsCurrentQuestion data then currentQuestion prev else None
     end)
    (match answers data with
     | Some l => Some l
     | None => answers prev
     end).

(** ** The polling interval (the setInterval callback) *)

Definition baseInterval (r : option Room) : Z :=
  match r with
  | Some r' => if Status_eqb (status r') playing then 15000 else 30000
  | None => 30000
  end.

Definition maxInterval : Z := 60000.

(** [0.8 + Math.random() * 0.4] *)
Definition jitter (random : Q) : Q := (8#10) + random * (4#10).

(** [Math.floor(timeSinceLastUpdate / baseInterval)] *)
Definition backoffExponent (r : option Room) (timeSinceLastUpdate : Z) : Z :=
  timeSinceLastUpdate / baseInterval r.

Definition cappedInterval (r : option Room) (timeSinceLastUpdate : Z) : Q :=
  Qmin (inject_Z (baseInterval r)
        * Qpower (3#2) (backoffExponent r timeSinceLastUpdate))
       (inject_Z maxInterval).

Definition nextInterval (r : option Room) (timeSinceLastUpdate : Z)
    (random : Q) : Q :=
  cappedInterval r timeSinceLastUpdate * jitter random.

(** ** Event payloads *)

Record HostChanged := mkHostChanged {
  newHostId : Id;
  newHost : option User.t
}.

Record RoundStarted := mkRoundStarted {
  rs_currentRound : Z;
  rs_currentQuestion : option Question.t
}.

Record PlayerAnswered := mkPlayerAnswered {
  userId : Id;
  pa_answer : bool
}.

(** The body of a [POST /rooms/:id/next-round] response. *)
Record NextRoundData := mkNextRoundData {
  nr_status : Status;
  nr_currentRound : Z;
  nr_currentQuestion : option Question.t
}.

(** Template literal [${n}] for an integer. *)
Definition showZ (n : Z) : string := NilZero.string_of_int (Z.to_int n).

(** ** The GameRoom component *)

Section GameRoom.

Variable roomId : Id.
Variable currentUser : User.t.

Definition roomPath (suffix : string) : string :=
  ("/rooms/" ++ roomId ++ suffix)%string.

(** [room?.host?._id === currentUser?._id] *)
Definition isUserHost (cap : State) : bool :=
  match room cap with
  | Some r =>
      match host r with
      | Some h => String.eqb (User._id h) (User._id currentUser)
      | None => false
      end
  | None => false
  end.

(** [room?.players?.some(player => player.user._id === currentUser?._id)] *)
Definition isUserInRoom (cap : State) : bool :=
  match room cap with
  | Some r =>
      existsb (fun player =>
                 String.eqb (User._id (Player.user player))
                            (User._id currentUser))
              (players r)
  | None => false
  end.

(** *** fetchRoomDetails *)

(** The call itself, up to [await api.get]. *)
Definition fetchRoomDetails (cap : State) (force : bool) (now : Z)
    : M unit :=
  pending <- readRef fetchTimeoutRef ;;
  when pending (emit ClearTimeout ;; modify (withFetchTimeoutRef false)) ;;
  inProgress <- readRef fetchInProgressRef ;;
  if inProgress && negb force then ret tt
  else if isTransitioning cap && negb force then ret tt
  else if negb force && (now - lastUpdated cap <? 3000) then ret tt
  else
    modify (withFetchInProgressRef true) ;;
    setIsRefreshing true ;;
    when (match room cap with None => true | Some _ => false end)
         (setIsLoading true) ;;
    emit (ApiGet (roomPath "")).

(** The [finally] block. *)
Definition fetchRoomDetails_finally (now : Z) : M unit :=
  setIsLoading false ;;
  setIsRefreshing false ;;
  modify (withFetchInProgressRef false) ;;
  setLastUpdated now ;;
  setLastPollingUpdate now.

(** [prevRoom.currentQuestion?._id !== q._id
     || prevRoom.currentRound !== data.currentRound], or no [prevRoom]. *)
Definition questionChanged (prevRoom : option Room) (q : Question.t)
    (data : RoomData) : bool :=
  match prevRoom with
  | None => true
  | Some p =>
      negb (match currentQuestion p with
            | Some pq => String.eqb (Question._id pq) (Question._id q)
            | None => false
            end)
      || negb (Z.eqb (currentRound p) (currentRound data))
  end.

(** The body of [if (response.data) { ... }].  [prevRoom] is the room of the
    closure, [prev] inside the updater the live one.  With no [answers] in
    the response, [answers?.some(...)] is undefined and [hasAnswered] reads
    as false.  The whole continuation runs in one turn, at time [now]. *)
Definition applyRoomData (cap : State) (data : RoomData) (now : Z)
    : M unit :=
  let prevRoom := room cap in
  setRoom (fun prev =>
             match prev with
             | None => Some (fields data)
             | Some p => Some (mergeRoom p data)
             end) ;;
  match status data, currentQuestion data with
  | playing, Some q =>
      setHasAnswered
        (match answers data with
         | Some l =>
             existsb (sameFact (User._id currentUser) (Question._id q)
                               (currentRound data)) l
         | None => false
         end) ;;
      when (questionChanged prevRoom q data && negb (isTransitioning cap))
           (setQuestionStartTime (Some now) ;;
            setCanAnswer false ;;
            setRoundResults None ;;
            emit (SetTimeout EnableAnswer 3000)) ;;
      when (negb (isTransitioning cap))
           (let l := match answers data with Some l => l | None => [] end in
            let answerCount :=
              countFor l (Question._id q) (currentRound data) in
            let allAnswered :=
              Nat.eqb answerCount (List.length (players data))
              && Nat.ltb 0 (List.length (players data)) in
            when (allAnswered
                  && match roundResults cap with
                     | None => true
                     | Some _ => false
                     end)
                 (let yesAnswers :=
                    yesCountFor l (Question._id q) (currentRound data) in
                  let noAnswers := (answerCount - yesAnswers)%nat in
                  setRoundResults
                    (Some (mkRoundResults yesAnswers noAnswers
                                          (Some (Question.text q))))))
  | _, _ => ret tt
  end.

(** The promise resolved: [response.data] is [None] when falsy. *)
Definition fetchRoomDetails_resolved (cap : State)
    (response_data : option RoomData) (now : Z) : M unit :=
  match response_data with
  | Some data => applyRoomData cap data now
  | None => ret tt
  end ;;
  fetchRoomDetails_finally now.

(** The promise rejected: the [catch] block, then [finally]. *)
Definition fetchRoomDetails_rejected (cap : State) (now : Z) : M unit :=
  emit (ConsoleError "Error fetching room details:") ;;
  match room cap with
  | None => setError (Some "Failed to load room details")
  | Some _ =>
      when (negb (isTransitioning cap))
           (emit (ToastError
                    "Failed to refresh room data. Will retry shortly."))
  end ;;
  fetchRoomDetails_finally now.

(** *** scheduleNextFetch and the polling effect *)

Definition scheduleNextFetch (delay : Z) : M unit :=
  pending <- readRef fetchTimeoutRef ;;
  when pending (emit ClearTimeout) ;;
  emit (SetTimeout ScheduledFetch delay) ;;
  modify (withFetchTimeoutRef true).

(** The body of the polling effect, run after a render. *)
Definition pollingEffect (cap : State) (now : Z) : M unit :=
  when (match room cap with Some _ => true | None => false end
        && negb (isRefreshing cap)
        && negb (isTransitioning cap)
        && (30000 <? now - lastPollingUpdate cap))
       (scheduleNextFetch 5000).

(** One tick of the 5-second [setInterval].  [cap] is the render the
    effect closes over, [fetchCap] the one [fetchRoomDetails] closes
    over. *)
Definition pollingTick (cap fetchCap : State) (now : Z) (random : Q)
    : M unit :=
  let timeSinceLastUpdate := now - lastPollingUpdate cap in
  when (negb (isRefreshing cap) && negb (isTransitioning cap))
       (when (Qltb (nextInterval (room cap) timeSinceLastUpdate random)
                   (inject_Z timeSinceLastUpdate))
             (emit (ConsoleLog "Scheduled polling update...") ;;
              fetchRoomDetails fetchCap false now)).

(** *** Timer callbacks *)

Definition runTimer (cap fetchCap : State) (cb : TimerCallback) (now : Z)
    : M unit :=
  match cb with
  | EnableAnswer => setCanAnswer true
  | FinishTransitionAndFetch =>
      setCanAnswer true ;;
      setIsTransitioning false ;;
      fetchRoomDetails fetchCap true now
  | FinishTransition =>
      setCanAnswer true ;;
      setIsTransitioning false
  | ShowRoundResults r => setRoundResults (Some r)
  | ScheduledFetch =>
      inProgress <- readRef fetchInProgressRef ;;
      when (negb (isTransitioning cap) && negb inProgress)
           (fetchRoomDetails fetchCap false now)
  | GoToLeaderboard => emit (Navigate "/leaderboard")
  end.

(** *** Socket event handlers *)

Definition on_player_joined (fetchCap : State) (user : User.t) (now : Z)
    : M unit :=
  emit (ToastInfo (User.name user ++ " joined the room")%string) ;;
  fetchRoomDetails fetchCap true now.

Definition on_player_left (fetchCap : State) (user : option User.t)
    (now : Z) : M unit :=
  match user with
  | Some u => emit (ToastInfo (User.name u ++ " left the room")%string)
  | None => ret tt
  end ;;
  fetchRoomDetails fetchCap true now.

Definition on_host_changed (fetchCap : State) (data : HostChanged)
    (now : Z) : M unit :=
  (if String.eqb (newHostId data) (User._id currentUser)
   then emit (ToastSuccess "You are now the host of this room")
   else match newHost data with
        | Some h =>
            when (truthy (User.name h))
                 (emit (ToastInfo (User.name h ++ " is now the host")%string))
        | None => ret tt
        end) ;;
  fetchRoomDetails fetchCap true now.

(** [{...prev, status: 'playing', currentRound: 1, currentQuestion}].
    Spreading a null [prev] leaves an object without [players], on which
    the next render dies; [setRoomWith] reports that as a throw. *)
Definition on_game_started (currentQuestion' : option Question.t)
    (now : Z) : M unit :=
  emit (ToastInfo "Game started!") ;;
  setIsTransitioning true ;;
  setHasAnswered false ;;
  setRoundResults None ;;
  setCanAnswer false ;;
  setQuestionStartTime (Some now) ;;
  setRoomWith (fun prev =>
    Some (withCurrentQuestion currentQuestion'
            (withCurrentRound 1 (withStatus playing prev)), [])) ;;
  emit (SetTimeout FinishTransitionAndFetch 3000).

(** The updater passed to [setRoom] by the player-answered handler.
    Every path reads [prev.currentQuestion._id]: either inside [some], on
    an answer of the same user, or when the new answer is built. *)
Definition recordPlayerAnswer (cap : State) (data : PlayerAnswered)
    (prev : Room) : option (Room * list Effect) :=
  match currentQuestion prev with
  | None => None
  | Some q =>
      let answerExists :=
        match answers prev with
        | Some l =>
            existsb (sameFact (userId data) (Question._id q)
                              (currentRound prev)) l
        | None => false
        end in
      if answerExists then Some (prev, [])
      else
        let updatedAnswers :=
          match answers prev with Some l => l | None => [] end
          ++ [Answer.mk (userId data) (Question._id q) (currentRound prev)
                        (pa_answer data) None] in
        let answerCount :=
          countFor updatedAnswers (Question._id q) (currentRound prev) in
        let timers :=
          if Nat.eqb answerCount (List.length (players prev))
             && Nat.ltb 0 (List.length (players prev))
             && match roundResults cap with
                | None => true
                | Some _ => false
                end
          then
            let yesAnswers :=
              yesCountFor updatedAnswers (Question._id q)
                          (currentRound prev) in
            let noAnswers := (answerCount - yesAnswers)%nat in
            [SetTimeout
               (ShowRoundResults
                  (mkRoundResults yesAnswers noAnswers
                                  (Some (Question.text q))))
               500]
          else [] in
        Some (withAnswers (Some updatedAnswers) prev, timers)
  end.

Definition on_player_answered (cap : State) (data : option PlayerAnswered)
    : M unit :=
  match room cap, data with
  | Some _, Some d =>
      when (truthy (userId d)) (setRoomWith (recordPlayerAnswer cap d))
  | _, _ => ret tt
  end.

Definition on_all_players_answered (cap : State)
    (data : option RoundResults) : M unit :=
  match data with
  | Some d => setRoundResults (Some d)
  | None => ret tt
  end ;;
  when (isUserHost cap)
       (emit (ToastInfo
          "All players answered! You can proceed to the next round.")).

Definition on_round_started (data : RoundStarted) (now : Z) : M unit :=
  setIsTransitioning true ;;
  emit (ToastInfo
          ("Round " ++ showZ (rs_currentRound data) ++ " started!")%string) ;;
  setRoundResults None ;;
  setHasAnswered false ;;
  setCanAnswer false ;;
  setRoomWith (fun prev =>
    Some (withCurrentQuestion (rs_currentQuestion data)
            (withCurrentRound (rs_currentRound data) prev), [])) ;;
  setQuestionStartTime (Some now) ;;
  emit (SetTimeout FinishTransitionAndFetch 3000).

Definition on_game_ended : M unit :=
  emit (ToastSuccess "Game ended!") ;; emit (Navigate "/leaderboard").

Definition on_room_closed : M unit :=
  emit (ToastInfo "Room was closed") ;; emit (Navigate "/rooms").

Definition on_error (message : string) : M unit :=
  emit (ToastError message).

(** *** handleJoinRoom *)

(** Up to [await api.post]; reading [room.type] of a null room lands in
    the [catch] block, whose error carries no response. *)
Definition handleJoinRoom (cap : State) : M unit :=
  setIsJoining true ;;
  match room cap with
  | Some r =>
      emit (ApiPost (roomPath "/join")
              (JoinBody (User._id currentUser)
                 (if RoomType_eqb (type r) private
                  then Some (passcode cap) else None)))
  | None =>
      emit (ConsoleError "Error joining room:") ;;
      emit (ToastError "Failed to join room") ;;
      setIsJoining false
  end.

Definition handleJoinRoom_resolved (fetchCap : State) (now : Z) : M unit :=
  emit (Socket (joinRoom roomId (User._id currentUser))) ;;
  emit (ToastSuccess "Joined room successfully") ;;
  fetchRoomDetails fetchCap true now ;;
  setIsJoining false.

Definition handleJoinRoom_rejected (message : option string) : M unit :=
  emit (ConsoleError "Error joining room:") ;;
  emit (ToastError (orDefault message "Failed to join room")) ;;
  setIsJoining false.

(** The two buttons bound to [handleJoinRoom]: the header's "Join Room"
    and the passcode panel's "Enter Room" (shown for a private room the
    user is not in). *)
Definition joinButton_disabled (cap : State) (r : Room) : bool :=
  isJoining cap
  || negb (Status_eqb (status r) waiting)
  || Nat.leb (maxPlayers r) (List.length (players r)).

Definition enterRoomButton_disabled (cap : State) : bool :=
  isJoining cap || negb (truthy (passcode cap)).

(** *** handleAnswer *)

Definition handleAnswer (cap : State) (answer : bool) (now : Z) : M unit :=
  let timeToAnswer := elapsedSeconds now (questionStartTime cap) in
  setAnswerTime (Some timeToAnswer) ;;
  setHasAnswered true ;;
  emit (ApiPost (roomPath "/answers")
          (AnswerBody (User._id currentUser) answer timeToAnswer)).

(** The updater appending the user's own answer. *)
Definition recordOwnAnswer (answer : bool) (timeToAnswer : Q) (prev : Room)
    : option (Room * list Effect) :=
  match currentQuestion prev with
  | None => None
  | Some q =>
      Some (withAnswers
              (Some (match answers prev with Some l => l | None => [] end
                     ++ [Answer.mk (User._id currentUser) (Question._id q)
                                   (currentRound prev) answer
                                   (Some timeToAnswer)]))
              prev, [])
  end.

(** After the POST resolved; [now] is the instant captured on submission. *)
Definition handleAnswer_resolved (cap : State) (answer : bool) (now : Z)
    : M unit :=
  let timeToAnswer := elapsedSeconds now (questionStartTime cap) in
  emit (Socket
          (submitAnswer roomId (User._id currentUser) answer timeToAnswer)) ;;
  when (match room cap with Some _ => true | None => false end)
       (setRoomWith (recordOwnAnswer answer timeToAnswer)) ;;
  emit (tierToast (tier timeToAnswer)).

Definition handleAnswer_rejected : M unit :=
  emit (ConsoleError "Error submitting answer:") ;;
  emit (ToastError "Failed to submit answer") ;;
  setHasAnswered false.

(** [disabled] of the Question card. *)
Definition question_disabled (cap : State) : bool :=
  negb (isUserInRoom cap) || hasAnswered cap || negb (canAnswer cap)
  || isTransitioning cap.

(** *** handleStartGame *)

Definition handleStartGame (cap : State) : M unit :=
  if negb (isUserHost cap)
  then emit (ToastError "Only the host can start the game")
  else
    setIsTransitioning true ;;
    emit (ApiPost (roomPath "/start") (UserBody (User._id currentUser))).

Definition handleStartGame_resolved (currentQuestion' : option Question.t)
    (now : Z) : M unit :=
  emit (Socket (startGame roomId)) ;;
  setRoomWith (fun prev =>
    Some (withCurrentQuestion currentQuestion'
            (withCurrentRound 1 (withStatus playing prev)), [])) ;;
  setHasAnswered false ;;
  setRoundResults None ;;
  setQuestionStartTime (Some now) ;;
  emit (SetTimeout FinishTransition 3000).

Definition handleStartGame_rejected (message : option string) : M unit :=
  emit (ConsoleError "Error starting game:") ;;
  emit (ToastError (orDefault message "Failed to start game")) ;;
  setIsTransitioning false.

(** *** handleNextRound *)

Definition handleNextRound_rejected (message : option string) : M unit :=
  emit (ConsoleError "Error advancing to next round:") ;;
  emit (ToastError (orDefault message "Failed to advance to next round")) ;;
  setIsTransitioning false.

Definition handleNextRound (cap : State) : M unit :=
  if negb (isUserHost cap)
  then emit (ToastError "Only the host can advance to the next round")
  else
    setIsTransitioning true ;;
    setRoundResults None ;;
    setHasAnswered false ;;
    match room cap with
    | None => handleNextRound_rejected None
    | Some r =>
        let nextRoundNumber :=
          if maxRounds r <=? currentRound r then maxRounds r
          else currentRound r + 1 in
        setRoomWith (fun prev =>
          Some (withCurrentRound nextRoundNumber prev, [])) ;;
        emit (ApiPost (roomPath "/next-round")
                (UserBody (User._id currentUser)))
    end.

Definition handleNextRound_resolved (data : option NextRoundData)
    (now : Z) : M unit :=
  emit (Socket (nextRound roomId)) ;;
  match data with
  | None => ret tt
  | Some d =>
      if Status_eqb (nr_status d) completed
      then
        emit (ToastSuccess "Game completed!") ;;
        emit (SetTimeout GoToLeaderboard 1000)
      else
        setRoomWith (fun prev =>
          Some (withAnswers
                  (Some (match answers prev with
                         | Some l =>
                             filter (fun a =>
                                       negb (Z.eqb (Answer.round a)
                                                   (nr_currentRound d))) l
                         | None => []
                         end))
                  (withStatus (nr_status d)
                     (withCurrentQuestion (nr_currentQuestion d)
                        (withCurrentRound (nr_currentRound d) prev))),
                [])) ;;
        setQuestionStartTime (Some now) ;;
        emit (SetTimeout FinishTransition 3000)
  end.

End GameRoom.

(** ** The polling interval as the specification words it

    [min(base * 1.5^k, 60s)] scaled by the jitter factor, with [k] the
    number of consecutive polling ticks since the last fetch.  Kept apart
    from [nextInterval], which is what the interval callback computes. *)
Definition spec_nextInterval (r : option Room) (ticks : Z) (factor : Q) : Q :=
  Qmin (inject_Z (baseInterval r) * Qpower (3#2) ticks)
       (inject_Z maxInterval)
  * factor.

(** The period of the polling [setInterval]. *)
Definition tickPeriod : Z := 5000.

(** ** Sample data used by the examples *)

Definition alice : User.t := User.mk "u-alice" "Alice".
Definition bob : User.t := User.mk "u-bob" "Bob".

Definition q1 : Question.t := Question.mk "q-1" "sung in public".
Definition q2 : Question.t := Question.mk "q-2" "missed a flight".

(** A private room waiting for players, hosted by Alice. *)
Definition lobby : Room :=
  mkRoom "Friday" waiting private (Some alice)
    [Player.mk alice 0] 4%nat 3 0 None (Some []).

(** Alice and Bob in round 1, nobody has answered. *)
Definition round1 : Room :=
  mkRoom "Friday" playing private (Some alice)
    [Player.mk alice 0; Player.mk bob 0] 4%nat 3 1 (Some q1) (Some []).

(** Round 2 of the same game. *)
Definition round2 : Room :=
  mkRoom "Friday" playing private (Some alice)
    [Player.mk alice 0; Player.mk bob 0] 4%nat 3 2 (Some q2) (Some []).

(** A settled component showing [r], last refreshed at time 0. *)
Definition showing (r : option Room) : State :=
  mkState r false None false "" None false (Some 0%Z) None true 0 0
    false false false false.

(** The toast of a failed refresh. *)
Definition refreshWarning : Effect :=
  ToastError "Failed to refresh room data. Will retry shortly.".

(** How many facts of [l] carry the key [(u, q, r)]. *)
Definition timesRecorded (l : list Answer.t) (u q : Id) (r : Z) : nat :=
  List.length (filter (sameFact u q r) l).

(** Alice's answer to question 1 as the push handler records it, and Bob's
    as the server reports it. *)
Definition aliceYes : Answer.t := Answer.mk "u-alice" "q-1" 1 true None.
Definition bobYes : Answer.t := Answer.mk "u-bob" "q-1" 1 true (Some (4#1)).

(** A response carrying every key of [r]. *)
Definition fullResponse (r : Room) : RoomData := mkRoomData r false.

(** No timer that would show a round summary is among [es]. *)
Definition noSummaryTimer (es : list Effect) : Prop :=
  forall r delay, ~ In (SetTimeout (ShowRoundResults r) delay) es.

(** Alice and Bob waiting for the host to start. *)
Definition ready : Room :=
  mkRoom "Friday" waiting private (Some alice)
    [Player.mk alice 0; Player.mk bob 0] 4%nat 3 0 None (Some []).

From Stdlib Require Import Permutation Sorted.

(** * The rest of the game room, the player list and the room cards *)

(** ** GameRoom.js: mounting, leaving, and what the render shows *)

Section GameRoomRest.

Variable roomId : Id.
Variable currentUser : User.t.

(** The first effect: a forced fetch, then the socket join when a socket
    exists.  [socket] tells whether [useSocket] returned one. *)
Definition mountEffect (fetchCap : State) (socket : bool) (now : Z)
    : M unit :=
  fetchRoomDetails roomId fetchCap true now ;;
  when (socket && truthy roomId)
       (emit (Socket (joinRoom roomId (User._id currentUser)))).

(** Its cleanup. *)
Definition unmountCleanup (socket : bool) : M unit :=
  pending <- readRef fetchTimeoutRef ;;
  when pending (emit ClearTimeout) ;;
  when (socket && truthy roomId)
       (emit (Socket (leaveRoom roomId (User._id currentUser)))).

(** [handleLeaveRoom] up to [await api.post]; [confirmLeave] is the answer
    the host gives to [window.confirm], which is asked of the host only. *)
Definition handleLeaveRoom (cap : State) (confirmLeave : bool) : M unit :=
  if isUserHost currentUser cap && negb confirmLeave then ret tt
  else emit (ApiPost (roomPath roomId "/leave")
               (UserBody (User._id currentUser))).

Definition handleLeaveRoom_resolved : M unit :=
  emit (Socket (leaveRoom roomId (User._id currentUser))) ;;
  emit (ToastInfo "Left room successfully") ;;
  emit (Navigate "/rooms").

Definition handleLeaveRoom_rejected : M unit :=
  emit (ConsoleError "Error leaving room:") ;;
  emit (ToastError "Failed to leave room").

End GameRoomRest.

(** The three early returns of the render and the room view. *)
Inductive Screen :=
| LoadingSkeleton
| ErrorScreen (message : string)
| RoomNotFound
| RoomView (r : Room).

Definition screen (st : State) : Screen :=
  match room st with
  | Some r => RoomView r
  | None =>
      if isLoading st then LoadingSkeleton
      else match error st with
           | Some message =>
               if truthy message then ErrorScreen message else RoomNotFound
           | None => RoomNotFound
           end
  end.

(** What the playing panel puts below the round badge. *)
Inductive PlayPanel :=
| QuestionCard (q : Question.t)
| ResultsCard (results : RoundResults)
| WaitingForQuestion.

Definition playPanel (st : State) (r : Room) : PlayPanel :=
  match currentQuestion r, roundResults st with
  | Some q, None => QuestionCard q
  | _, Some results => ResultsCard results
  | None, None => WaitingForQuestion
  end.

(** [!roundResults && room.currentQuestion && !hasAnswered] *)
Definition showsTimer (st : State) (r : Room) : bool :=
  match roundResults st, currentQuestion r with
  | None, Some _ => negb (hasAnswered st)
  | _, _ => false
  end.

(** [allPlayersAnswered && !roundResults]: the "All players have
    answered!" banner. *)
Definition showsAllAnsweredBanner (st : State) (r : Room) : bool :=
  allPlayersAnswered r
  && match roundResults st with None => true | Some _ => false end.

(** The [hasAnswered] flag given to each row of the player list; against a
    missing question the comparison with [undefined] matches nothing. *)
Definition playerHasAnswered (r : Room) (player : Player.t) : bool :=
  match answers r, currentQuestion r with
  | Some l, Some q =>
      existsb (sameFact (User._id (Player.user player)) (Question._id q)
                        (currentRound r)) l
  | _, _ => false
  end.

(** ** Question.js *)

(** "Take a moment to read the question..." *)
Definition showsReadingHint (hasAnswered canAnswer : bool) : bool :=
  negb canAnswer && negb hasAnswered.

(** "Your answer has been submitted!" *)
Definition showsSubmitted (hasAnswered : bool) : bool := hasAnswered.

(** ** PlayerList.js *)

(** A row: the player with the [hasAnswered] flag spread into it. *)
Definition Row : Type := Player.t * bool.

Definition rowId (row : Row) : Id := User._id (Player.user (fst row)).

(** [a.user._id === currentUser?._id] *)
Definition isCurrentUser (currentUser : option User.t) (row : Row) : bool :=
  match currentUser with
  | Some u => String.eqb (rowId row) (User._id u)
  | None => false
  end.

(** The comparator passed to [sort]. *)
Definition comparePlayers (host : User.t) (currentUser : option User.t)
    (a b : Row) : Z :=
  if String.eqb (rowId a) (User._id host) then -1
  else if String.eqb (rowId b) (User._id host) then 1
  else if isCurrentUser currentUser a then -1
  else if isCurrentUser currentUser b then 1
  else Player.points (fst b) - Player.points (fst a).

(** [Array.prototype.sort] is stable, and with a consistent comparator its
    result is that of any stable sort; this one inserts from the right. *)
Fixpoint insertRow (cmp : Row -> Row -> Z) (x : Row) (l : list Row)
    : list Row :=
  match l with
  | [] => [x]
  | y :: rest =>
      if cmp x y <=? 0 then x :: y :: rest else y :: insertRow cmp x rest
  end.

Fixpoint sortRows (cmp : Row -> Row -> Z) (l : list Row) : list Row :=
  match l with
  | [] => []
  | x :: rest => insertRow cmp x (sortRows cmp rest)
  end.

(** [[...players].sort(...)] *)
Definition sortedPlayers (host : User.t) (currentUser : option User.t)
    (players : list Row) : list Row :=
  sortRows (comparePlayers host currentUser) players.

(** The rows GameRoom hands to the list. *)
Definition playerRows (r : Room) : list Row :=
  map (fun player => (player, playerHasAnswered r player)) (players r).

(** The order the comparator encodes: host, then the current user, then
    the others by points, highest first. *)
Definition sortKey (host : User.t) (currentUser : option User.t)
    (row : Row) : Z * Z :=
  if String.eqb (rowId row) (User._id host) then (0, 0)
  else if isCurrentUser currentUser row then (1, 0)
  else (2, - Player.points (fst row)).

Definition keyLe (k1 k2 : Z * Z) : Prop :=
  fst k1 < fst k2 \/ (fst k1 = fst k2 /\ snd k1 <= snd k2).

(** ** RoomList.js: the room cards *)

(** [x === y] on two values that are a string or undefined. *)
Definition sameOptId (x y : option Id) : bool :=
  match x, y with
  | Some a, Some b => String.eqb a b
  | None, None => true
  | _, _ => false
  end.

(** [room.players.some(p => p.user._id === currentUserId)] *)
Definition listedInRoom (r : Room) (currentUserId : option Id) : bool :=
  existsb (fun p => sameOptId (Some (User._id (Player.user p))) currentUserId)
          (players r).

(** The props RoomList computes for a card. *)
Definition card_isHost (r : Room) (currentUserId : option Id) : bool :=
  sameOptId (option_map User._id (host r)) currentUserId.

Definition card_canJoin (r : Room) (currentUserId : option Id) : bool :=
  Status_eqb (status r) waiting
  && Nat.ltb (List.length (players r)) (maxPlayers r)
  && negb (listedInRoom r currentUserId).

Inductive CardAction :=
| ManageLink
| JoinButton (label : string)
| RejoinLink
| ViewGameLink
| RoomFullButton.

(** The cascade at the bottom of RoomCard. *)
Definition cardAction (r : Room) (currentUserId : option Id)
    (isHost canJoin : bool) : CardAction :=
  let isUserInRoom := listedInRoom r currentUserId in
  let isRoomFull := Nat.leb (maxPlayers r) (List.length (players r)) in
  if isHost then ManageLink
  else if canJoin && Status_eqb (status r) waiting && negb isRoomFull
  then JoinButton (if RoomType_eqb (type r) private
                   then "Enter Passcode" else "Join Room")
  else if isUserInRoom then RejoinLink
  else if negb (Status_eqb (status r) waiting) then ViewGameLink
  else RoomFullButton.

(** The card as RoomList renders it. *)
Definition listedCardAction (r : Room) (currentUserId : option Id)
    : CardAction :=
  cardAction r currentUserId (card_isHost r currentUserId)
             (card_canJoin r currentUserId).

(** RoomCard's [handleJoinRoom] up to its [await]; [room_id] is
    [room._id]. *)
Definition card_handleJoinRoom (room_id : Id) (r : Room)
    (currentUserId : option Id) : list Effect :=
  match currentUserId with
  | Some uid =>
      if truthy uid then
        if RoomType_eqb (type r) private then [Navigate "/rooms/join"]
        else [ApiPost ("/rooms/" ++ room_id ++ "/join")%string
                (JoinBody uid None)]
      else [ToastError "You must be logged in to join a room";
            Navigate "/login"]
  | None =>
      [ToastError "You must be logged in to join a room"; Navigate "/login"]
  end.

Definition card_handleJoinRoom_resolved (room_id : Id) : list Effect :=
  [Navigate ("/rooms/" ++ room_id)%string].

Definition card_handleJoinRoom_rejected (message : option string)
    : list Effect :=
  [ConsoleError "Error joining room:";
   ToastError (orDefault message "Failed to join room")].

(** ** Measures used by the statements *)

(** How many GET requests are among [es]. *)
Definition countGets (es : list Effect) : nat :=
  List.length (filter (fun e => match e with ApiGet _ => true | _ => false end)
                      es).

(** No fact of [l] with the key [(u, q, r)] occurs twice, for any [u]. *)
Definition noDuplicateFacts (l : list Answer.t) (q : Id) (r : Z) : Prop :=
  forall u, (timesRecorded l u q r <= 1)%nat.

(** The answers of a room as a list. *)
Definition answerList (r : Room) : list Answer.t :=
  match answers r with Some l => l | None => [] end.

(** * A round, end to end *)

(** The game-started event opens the transition and locks answering; the
    timer it sets ends both and refreshes the room. *)
Example game_started_then_settled :
  let s0 := showing (Some ready) in
  let s1 := stateAfter (on_game_started (Some q1) 1000) s0 in
  let s2 := stateAfter (runTimer "r-1" s1 s1 FinishTransitionAndFetch 4000)
                       s1 in
  effectsOf (on_game_started (Some q1) 1000) s0
  = [ToastInfo "Game started!"; SetTimeout FinishTransitionAndFetch 3000]
  /\ room s1 = Some round1
  /\ (isTransitioning s1, canAnswer s1, questionStartTime s1)
     = (true, false, Some 1000)
  /\ (isTransitioning s2, canAnswer s2) = (false, true)
  /\ effectsOf (runTimer "r-1" s1 s1 FinishTransitionAndFetch 4000) s1
     = [ApiGet "/rooms/r-1"].
Proof. repeat split. Qed.

(** Two pushed answers: the second completes the round and schedules the
    summary, one yes and one no; the timer then shows it. *)
Example both_players_answer :
  let s0 := showing (Some round1) in
  let first := on_player_answered s0 (Some (mkPlayerAnswered "u-alice" true)) in
  let s1 := stateAfter first s0 in
  let second := on_player_answered s1 (Some (mkPlayerAnswered "u-bob" false)) in
  let s2 := stateAfter second s1 in
  let summary := mkRoundResults 1 1 (Some "sung in public") in
  effectsOf first s0 = []
  /\ option_map answerCount (room s1) = Some 1%nat
  /\ effectsOf second s1 = [SetTimeout (ShowRoundResults summary) 500]
  /\ option_map answerCount (room s2) = Some 2%nat
  /\ option_map allPlayersAnswered (room s2) = Some true
  /\ roundResults (stateAfter (runTimer "r-1" s2 s2 (ShowRoundResults summary)
                                        4600) s2)
     = Some summary.
Proof. repeat split. Qed.

(** A repeated push of the same answer is dropped. *)
Example repeated_push_ignored :
  let s0 := showing (Some round1) in
  let push := on_player_answered s0 (Some (mkPlayerAnswered "u-alice" true)) in
  let s1 := stateAfter push s0 in
  stateAfter (on_player_answered s1 (Some (mkPlayerAnswered "u-alice" true)))
             s1
  = s1.
Proof. reflexivity. Qed.

(** A player-answered event before any question is set dies on
    [prev.currentQuestion._id]. *)
Example push_without_question_throws :
  outcomeOf (on_player_answered (showing (Some ready))
               (Some (mkPlayerAnswered "u-alice" true)))
            (showing (Some ready))
  = Threw.
Proof. reflexivity. Qed.

(** The host advances from round 1: the round number is bumped at once,
    and the response installs the new question and keeps round-1 facts. *)
Example host_advances_round :
  let s0 := showing (Some (withAnswers (Some [aliceYes; bobYes]) round1)) in
  let s1 := stateAfter (handleNextRound "r-1" alice s0) s0 in
  let s2 :=
    stateAfter
      (handleNextRound_resolved "r-1"
         (Some (mkNextRoundData playing 2 (Some q2))) 9000) s1 in
  effectsOf (handleNextRound "r-1" alice s0) s0
  = [ApiPost "/rooms/r-1/next-round" (UserBody "u-alice")]
  /\ option_map currentRound (room s1) = Some 2
  /\ option_map currentQuestion (room s1) = Some (Some q1)
  /\ room s2 = Some (withAnswers (Some [aliceYes; bobYes]) round2)
  /\ option_map answerCount (room s2) = Some 0%nat
  /\ isTransitioning s2 = true
  /\ effectsOf (handleNextRound "r-1" bob s0) s0
     = [ToastError "Only the host can advance to the next round"].
Proof. repeat split. Qed.

(** * Properties *)

(** ** Comparisons on rationals *)

Lemma Qltb_lt (x y : Q) : Qltb x y = true <-> (x < y)%Q.
Proof.
  unfold Qltb. rewrite negb_true_iff. split.
  - intros H. apply Qnot_le_lt. intros Hle.
    apply Qle_bool_iff in Hle. congruence.
  - intros H. destruct (Qle_bool y x) eqn:E; [|reflexivity].
    apply Qle_bool_iff in E. exfalso. exact (Qlt_not_le _ _ H E).
Qed.

Lemma Qltb_ge (x y : Q) : Qltb x y = false <-> (y <= x)%Q.
Proof.
  unfold Qltb. rewrite negb_false_iff. apply Qle_bool_iff.
Qed.

Lemma Qle_bool_gt (x y : Q) : Qle_bool x y = false <-> (y < x)%Q.
Proof.
  split.
  - intros H. apply Qnot_le_lt. intros Hle.
    apply Qle_bool_iff in Hle. congruence.
  - intros H. destruct (Qle_bool x y) eqn:E; [|reflexivity].
    apply Qle_bool_iff in E. exfalso. exact (Qlt_not_le _ _ H E).
Qed.

(** ** Timing tiers *)

(** The cascade of [handleAnswer], case by case. *)
Lemma tier_cases (e : Q) :
  (tier e = TooQuickly /\ e < 3)%Q
  \/ (tier e = SpeedBonus3 /\ 3 <= e /\ e <= 5)%Q
  \/ (tier e = SpeedBonus1 /\ 5 < e /\ e <= 15)%Q
  \/ (tier e = TooSlowly /\ 15 < e)%Q.
Proof.
  unfold tier.
  destruct (Qltb e 3) eqn:E3.
  { left. split; [reflexivity | now apply Qltb_lt]. }
  apply Qltb_ge in E3.
  destruct (Qle_bool e 5) eqn:E5.
  { right; left. apply Qle_bool_iff in E5. auto. }
  apply Qle_bool_gt in E5.
  destruct (Qle_bool e 15) eqn:E15.
  { right; right; left. apply Qle_bool_iff in E15. auto. }
  apply Qle_bool_gt in E15. right; right; right. auto.
Qed.

(** Timer.js colours the clock by the same thresholds, and its badge agrees
    with the tier whenever [canAnswer] says that 3 seconds have passed. *)
Lemma timer_follows_tier (elapsed : Q) :
  timerColor elapsed
  = match tier elapsed with
    | TooQuickly => "text-orange-500"
    | SpeedBonus3 => "text-green-600"
    | SpeedBonus1 => "text-blue-600"
    | TooSlowly => "text-gray-600"
    end
  /\ bonusText (negb (Qltb elapsed (3#1))) elapsed
     = match tier elapsed with
       | TooQuickly => "Reading period"
       | SpeedBonus3 => "+3 bonus"
       | SpeedBonus1 => "+1 bonus"
       | TooSlowly => "No time bonus"
       end.
Proof.
  unfold timerColor, bonusText, tier.
  destruct (Qltb elapsed 3); cbn; [split; reflexivity|].
  destruct (Qle_bool elapsed 5); [split; reflexivity|].
  destruct (Qle_bool elapsed 15); split; reflexivity.
Qed.

(** The toast that closes a successful submission is the one of the tier of
    the measured time. *)
Lemma handleAnswer_feedback (roomId : Id) (currentUser : User.t)
    (cap st : State) (answer : bool) (now : Z) (r : Room) (q : Question.t) :
  room st = Some r -> currentQuestion r = Some q ->
  let timeToAnswer := elapsedSeconds now (questionStartTime cap) in
  effectsOf (handleAnswer_resolved roomId currentUser cap answer now) st
  = [Socket (submitAnswer roomId (User._id currentUser) answer timeToAnswer);
     tierToast (tier timeToAnswer)].
Proof.
  intros Hr Hq. unfold handleAnswer_resolved, effectsOf, bind, emit, when.
  destruct (room cap); cbn.
  - unfold setRoomWith, recordOwnAnswer. rewrite Hr, Hq. reflexivity.
  - reflexivity.
Qed.

(** ** The polling interval *)

Lemma baseInterval_cases (r : option Room) :
  baseInterval r = 15000 \/ baseInterval r = 30000.
Proof.
  unfold baseInterval. destruct r as [r'|]; [|now right].
  destruct (Status_eqb (status r') playing); auto.
Qed.

Lemma Status_eqb_eq (a b : Status) : Status_eqb a b = true <-> a = b.
Proof. destruct a, b; simpl; split; congruence. Qed.

Lemma jitter_bounds (random : Q) :
  (0 <= random)%Q -> (random < 1)%Q ->
  ((8#10) <= jitter random)%Q /\ (jitter random < (12#10))%Q.
Proof. unfold jitter. intros H0 H1. split; lra. Qed.

Lemma cappedInterval_bounds (r : option Room) (t : Z) :
  0 <= t ->
  (inject_Z (baseInterval r) <= cappedInterval r t)%Q
  /\ (cappedInterval r t <= 60000)%Q.
Proof.
  intros Ht. unfold cappedInterval, maxInterval. split.
  - apply Q.min_glb.
    + assert (Hk : 0 <= backoffExponent r t).
      { unfold backoffExponent.
        destruct (baseInterval_cases r) as [-> | ->];
          apply Z.div_pos; lia. }
      assert (Hp : (1 <= (3#2) ^ backoffExponent r t)%Q).
      { apply Qpower_1_le; [lra | exact Hk]. }
      assert (Hb : (0 <= inject_Z (baseInterval r))%Q).
      { destruct (baseInterval_cases r) as [-> | ->]; discriminate. }
      setoid_replace (inject_Z (baseInterval r))
        with (inject_Z (baseInterval r) * 1)%Q at 1 by ring.
      apply Qmult_le_compat_nonneg; split;
        solve [assumption | apply Qle_refl | discriminate].
    + destruct (baseInterval_cases r) as [-> | ->]; discriminate.
  - apply Q.le_min_r.
Qed.

Lemma nextInterval_upper (r : option Room) (t : Z) (random : Q) :
  0 <= t -> (0 <= random)%Q -> (random < 1)%Q ->
  (nextInterval r t random <= 72000)%Q.
Proof.
  intros Ht H0 H1. unfold nextInterval.
  destruct (cappedInterval_bounds r t Ht) as [Hlo Hhi].
  destruct (jitter_bounds random H0 H1) as [Jlo Jhi].
  assert (Hb : (0 <= inject_Z (baseInterval r))%Q)
    by (destruct (baseInterval_cases r) as [-> | ->]; discriminate).
  setoid_replace (72000 : Q) with (60000 * (12#10))%Q by reflexivity.
  apply Qmult_le_compat_nonneg; split; try assumption; lra.
Qed.

Lemma nextInterval_lower (r : option Room) (t : Z) (random : Q) :
  0 <= t -> (0 <= random)%Q -> (random < 1)%Q ->
  ((8#10) * inject_Z (baseInterval r) <= nextInterval r t random)%Q.
Proof.
  intros Ht H0 H1. unfold nextInterval.
  destruct (cappedInterval_bounds r t Ht) as [Hlo Hhi].
  destruct (jitter_bounds random H0 H1) as [Jlo Jhi].
  assert (Hb : (0 <= inject_Z (baseInterval r))%Q)
    by (destruct (baseInterval_cases r) as [-> | ->]; discriminate).
  rewrite (Qmult_comm (8#10)).
  apply Qmult_le_compat_nonneg; split; try assumption; lra.
Qed.


(** ** Running handlers *)

Arguments roomPath : simpl never.

Ltac unfold_monad :=
  unfold outcomeOf, stateAfter, effectsOf, bind, ret, emit, modify, readRef,
    when, setRoom, setIsLoading, setError, setIsJoining, setRoundResults,
    setHasAnswered, setQuestionStartTime, setAnswerTime, setCanAnswer,
    setLastUpdated, setLastPollingUpdate, setIsRefreshing,
    setIsTransitioning in *.

(** A non-forced call is skipped while a fetch is in flight, during a
    transition, and within 3 seconds of [lastUpdated]; a skipped call only
    drops the pending scheduled fetch. *)
Lemma fetchRoomDetails_skips (roomId : Id) (cap st : State) (now : Z) :
  fetchInProgressRef st = true \/ isTransitioning cap = true
  \/ now - lastUpdated cap < 3000 ->
  fetchRoomDetails roomId cap false now st
  = (Returned tt, withFetchTimeoutRef false st,
     if fetchTimeoutRef st then [ClearTimeout] else []).
Proof.
  intros H. unfold fetchRoomDetails. unfold_monad.
  destruct st as [a b c d e f g h i j k l m n pending inProgress]; cbn in *.
  destruct pending, inProgress; cbn; try reflexivity;
    destruct (isTransitioning cap); cbn; try reflexivity;
    destruct (Z.ltb_spec (now - lastUpdated cap) 3000); cbn;
    try reflexivity; exfalso; intuition (congruence || lia).
Qed.

(** A call that gets past the guards marks the fetch in flight and issues
    exactly one GET. *)
Lemma fetchRoomDetails_run (roomId : Id) (cap st : State) (force : bool)
    (now : Z) :
  force = true
  \/ (fetchInProgressRef st = false /\ isTransitioning cap = false
      /\ 3000 <= now - lastUpdated cap) ->
  fetchRoomDetails roomId cap force now st
  = (Returned tt,
     (match room cap with
      | None => withIsLoading true
      | Some _ => fun s => s
      end)
       (withIsRefreshing true
          (withFetchInProgressRef true (withFetchTimeoutRef false st))),
     (if fetchTimeoutRef st then [ClearTimeout] else [])
     ++ [ApiGet (roomPath roomId "")]).
Proof.
  intros H. unfold fetchRoomDetails. unfold_monad.
  destruct st as [a b c d e f g h i j k l m n pending inProgress]; cbn in *.
  destruct force.
  - destruct pending, inProgress, (isTransitioning cap); cbn;
      destruct (room cap); reflexivity.
  - destruct H as [H | (-> & Ht & Hl)]; [discriminate|].
    rewrite Ht. cbn.
    destruct (Z.ltb_spec (now - lastUpdated cap) 3000); [lia|].
    destruct pending; cbn; destruct (room cap); reflexivity.
Qed.

Lemma fetchRoomDetails_issues (roomId : Id) (cap st : State) (force : bool)
    (now : Z) :
  force = true
  \/ (fetchInProgressRef st = false /\ isTransitioning cap = false
      /\ 3000 <= now - lastUpdated cap) ->
  effectsOf (fetchRoomDetails roomId cap force now) st
  = (if fetchTimeoutRef st then [ClearTimeout] else [])
    ++ [ApiGet (roomPath roomId "")]
  /\ fetchInProgressRef (stateAfter (fetchRoomDetails roomId cap force now) st)
     = true
  /\ room (stateAfter (fetchRoomDetails roomId cap force now) st) = room st.
Proof.
  intros H. unfold effectsOf, stateAfter.
  rewrite (fetchRoomDetails_run roomId cap st force now H). cbn [fst snd].
  destruct st, (room cap); repeat split.
Qed.

(** A non-forced call that did issue a request was made outside a
    transition. *)
Lemma scheduled_fetch_outside_transition (roomId : Id) (cap st : State)
    (now : Z) (path : string) :
  In (ApiGet path) (effectsOf (fetchRoomDetails roomId cap false now) st) ->
  isTransitioning cap = false.
Proof.
  intros H. destruct (isTransitioning cap) eqn:E; [|reflexivity].
  unfold effectsOf in H.
  rewrite fetchRoomDetails_skips in H by auto.
  cbn in H. destruct (fetchTimeoutRef st); cbn in H;
    intuition discriminate.
Qed.



(** ** Failed fetches *)

Lemma fetchRoomDetails_rejected_run (cap st : State) (now : Z) :
  fetchRoomDetails_rejected cap now st
  = (Returned tt,
     withLastPollingUpdate now
       (withLastUpdated now
          (withFetchInProgressRef false
             (withIsRefreshing false
                (withIsLoading false
                   (match room cap with
                    | None =>
                        withError (Some "Failed to load room details") st
                    | Some _ => st
                    end))))),
     ConsoleError "Error fetching room details:"
     :: match room cap with
        | None => []
        | Some _ => if isTransitioning cap then [] else [refreshWarning]
        end).
Proof.
  unfold fetchRoomDetails_rejected, fetchRoomDetails_finally, refreshWarning.
  unfold_monad.
  destruct (room cap); cbn; [destruct (isTransitioning cap)|]; reflexivity.
Qed.

(** A tick of the polling interval issues the GET once the time since
    [lastPollingUpdate] exceeds 72 s, the largest possible interval. *)
Lemma pollingTick_fetches (roomId : Id) (cap fetchCap live : State)
    (now : Z) (random : Q) :
  isRefreshing cap = false -> isTransitioning cap = false ->
  isTransitioning fetchCap = false -> fetchInProgressRef live = false ->
  lastUpdated fetchCap <= lastPollingUpdate cap ->
  (0 <= random)%Q -> (random < 1)%Q ->
  72000 < now - lastPollingUpdate cap ->
  In (ApiGet (roomPath roomId ""))
     (effectsOf (pollingTick roomId cap fetchCap now random) live).
Proof.
  intros Hr Ht Hft Hin Hlu H0 H1 Hlate.
  unfold pollingTick, effectsOf. rewrite Hr, Ht. cbn [negb andb when].
  assert (Hq : Qltb (nextInterval (room cap) (now - lastPollingUpdate cap)
                       random)
                    (inject_Z (now - lastPollingUpdate cap)) = true).
  { apply Qltb_lt.
    apply Qle_lt_trans with (y := 72000%Q).
    - apply nextInterval_upper; [lia | assumption | assumption].
    - change (72000%Q) with (inject_Z 72000). rewrite <- Zlt_Qlt. exact Hlate. }
  rewrite Hq. cbn [when].
  destruct (fetchRoomDetails_issues roomId fetchCap live false now) as [He _].
  { right. repeat split; [assumption | assumption | lia]. }
  unfold effectsOf in He. unfold bind, emit.
  destruct (fetchRoomDetails roomId fetchCap false now live) as [[o s2] es2].
  cbn in *. subst es2. right. apply in_or_app. right. now left.
Qed.

(** Before the shortest possible interval has elapsed a tick does nothing. *)
Lemma pollingTick_waits (roomId : Id) (cap fetchCap live : State)
    (now : Z) (random : Q) :
  (0 <= random)%Q -> (random < 1)%Q ->
  0 <= now - lastPollingUpdate cap <= 12000 ->
  pollingTick roomId cap fetchCap now random live = (Returned tt, live, []).
Proof.
  intros H0 H1 Hsoon. unfold pollingTick.
  assert (Hq : Qltb (nextInterval (room cap) (now - lastPollingUpdate cap)
                       random)
                    (inject_Z (now - lastPollingUpdate cap)) = false).
  { apply Qltb_ge.
    apply Qle_trans with (y := ((8#10) * inject_Z (baseInterval (room cap)))%Q).
    - apply Qle_trans with (y := inject_Z 12000).
      + rewrite <- Zle_Qle. lia.
      + destruct (baseInterval_cases (room cap)) as [-> | ->]; discriminate.
    - apply nextInterval_lower; [lia | assumption | assumption]. }
  rewrite Hq. unfold when, ret.
  destruct (negb (isRefreshing cap) && negb (isTransitioning cap));
    reflexivity.
Qed.

(** ** Submitting an answer *)

Lemma handleAnswer_run (roomId : Id) (currentUser : User.t) (cap st : State)
    (answer : bool) (now : Z) :
  handleAnswer roomId currentUser cap answer now st
  = (Returned tt,
     withHasAnswered true
       (withAnswerTime (Some (elapsedSeconds now (questionStartTime cap))) st),
     [ApiPost (roomPath roomId "/answers")
        (AnswerBody (User._id currentUser) answer
           (elapsedSeconds now (questionStartTime cap)))]).
Proof. reflexivity. Qed.

Lemma handleAnswer_rejected_run (live : State) :
  handleAnswer_rejected live
  = (Returned tt, withHasAnswered false live,
     [ConsoleError "Error submitting answer:";
      ToastError "Failed to submit answer"]).
Proof. reflexivity. Qed.

(** The card is clickable only while [hasAnswered] is false. *)
Lemma question_enabled_not_answered (currentUser : User.t) (cap : State) :
  question_disabled currentUser cap = false -> hasAnswered cap = false.
Proof.
  unfold question_disabled. intros H.
  destruct (hasAnswered cap); [|reflexivity].
  rewrite orb_true_r in H. discriminate H.
Qed.

(** C9: submitting sets [hasAnswered] and issues the POST; when the POST
    fails the flag is set back to false, which is the value it had when the
    card was clickable, and nothing but the recorded [answerTime] differs
    from the state before the submission. *)
Theorem failed_answer_rolls_back (roomId : Id) (currentUser : User.t)
    (cap st : State) (answer : bool) (now : Z) :
  question_disabled currentUser cap = false ->
  hasAnswered st = hasAnswered cap ->
  let submit := handleAnswer roomId currentUser cap answer now in
  let submitted := stateAfter submit st in
  let rolledBack := stateAfter handleAnswer_rejected submitted in
  hasAnswered submitted = true
  /\ effectsOf submit st
     = [ApiPost (roomPath roomId "/answers")
          (AnswerBody (User._id currentUser) answer
             (elapsedSeconds now (questionStartTime cap)))]
  /\ hasAnswered rolledBack = false
  /\ hasAnswered rolledBack = hasAnswered st
  /\ room rolledBack = room st
  /\ rolledBack
     = withAnswerTime (Some (elapsedSeconds now (questionStartTime cap))) st
  /\ (forall live, hasAnswered (stateAfter handleAnswer_rejected live) = false).
Proof.
  intros Hen Hsame submit submitted rolledBack.
  subst submit submitted rolledBack.
  apply question_enabled_not_answered in Hen.
  unfold stateAfter, effectsOf.
  rewrite handleAnswer_run. cbn [fst snd].
  rewrite handleAnswer_rejected_run. cbn [fst snd].
  rewrite Hsame, Hen in *.
  destruct st as [a b c d e f g h i j k l m n o p]; cbn in *.
  subst g. repeat split.
Qed.

Lemma failed_answer_rolls_back_witness :
  hasAnswered
    (stateAfter handleAnswer_rejected
       (stateAfter (handleAnswer "r-1" bob (showing (Some round1)) true 4000)
                   (showing (Some round1))))
  = false.
Proof.
  refine (proj1 (proj2 (proj2
    (failed_answer_rolls_back "r-1" bob (showing (Some round1))
       (showing (Some round1)) true 4000 _ _)))).
  - reflexivity.
  - reflexivity.
Defined.

(** ** Joining a private room *)

(** With a room loaded, [handleJoinRoom] issues exactly one POST, whatever
    the passcode field holds. *)
Lemma handleJoinRoom_posts_once (roomId : Id) (currentUser : User.t)
    (cap st : State) (r : Room) :
  room cap = Some r ->
  effectsOf (handleJoinRoom roomId currentUser cap) st
  = [ApiPost (roomPath roomId "/join")
       (JoinBody (User._id currentUser)
          (if RoomType_eqb (type r) private
           then Some (passcode cap) else None))].
Proof.
  intros Hr. unfold handleJoinRoom, effectsOf. rewrite Hr. reflexivity.
Qed.

(** C8 on a failing input: Bob looks at a waiting private room with free
    seats and has typed no passcode.  The panel's "Enter Room" button is
    disabled, the header's "Join Room" button is not, and its handler sends
    the join request with an empty passcode. *)
Theorem join_without_passcode_is_sent :
  let view := showing (Some lobby) in
  type lobby = private
  /\ passcode view = ""
  /\ isUserInRoom bob view = false
  /\ enterRoomButton_disabled view = true
  /\ joinButton_disabled view lobby = false
  /\ effectsOf (handleJoinRoom "r-1" bob view) view
     = [ApiPost "/rooms/r-1/join" (JoinBody "u-bob" (Some ""))].
Proof. repeat split. Qed.

(** ** Recording answers *)

Lemma withRoom_same (st : State) : withRoom (room st) st = st.
Proof. destruct st; reflexivity. Qed.

(** The player-answered updater returns [prev] itself when the fact is
    already there. *)
Lemma recordPlayerAnswer_duplicate (cap : State) (data : PlayerAnswered)
    (prev : Room) (q : Question.t) (l : list Answer.t) :
  currentQuestion prev = Some q -> answers prev = Some l ->
  existsb (sameFact (userId data) (Question._id q) (currentRound prev)) l
  = true ->
  recordPlayerAnswer cap data prev = Some (prev, []).
Proof.
  intros Hq Hl Hex. unfold recordPlayerAnswer. rewrite Hq, Hl, Hex.
  reflexivity.
Qed.

(** A player-answered event for a fact the room already holds changes
    nothing: neither the room nor any other state, and no timer is set. *)
Lemma on_player_answered_duplicate (cap st : State)
    (data : PlayerAnswered) (prev : Room) (q : Question.t)
    (l : list Answer.t) :
  room st = Some prev ->
  currentQuestion prev = Some q -> answers prev = Some l ->
  existsb (sameFact (userId data) (Question._id q) (currentRound prev)) l
  = true ->
  on_player_answered cap (Some data) st = (Returned tt, st, []).
Proof.
  intros Hr Hq Hl Hex. unfold on_player_answered.
  destruct (room cap); [|reflexivity].
  unfold when. destruct (truthy (userId data)); [|reflexivity].
  unfold setRoomWith. rewrite Hr.
  rewrite (recordPlayerAnswer_duplicate cap data prev q l Hq Hl Hex).
  rewrite <- Hr, withRoom_same. reflexivity.
Qed.

(** A new fact from the push channel raises the count of its question and
    round by one. *)
Lemma countFor_app_one (l : list Answer.t) (a : Answer.t) (q : Id) (r : Z) :
  countFor (l ++ [a]) q r
  = (countFor l q r + if forQuestion q r a then 1 else 0)%nat.
Proof.
  unfold countFor. rewrite filter_app, length_app. cbn.
  destruct (forQuestion q r a); reflexivity.
Qed.

(** C4 on a failing input: Bob answers at 4.0 s; before the POST resolves,
    a refresh brings the server's record of that answer into the room; the
    resolved POST then appends the same fact again without looking.  The
    count for question 1, round 1 goes from 1 to 2 (and so does the yes
    count), and with two players in the room the round reads as fully
    answered although Alice has not answered. *)
Theorem own_answer_recorded_twice :
  let view := showing (Some round1) in
  let submitted := stateAfter (handleAnswer "r-1" bob view true 4000) view in
  let refreshed :=
    stateAfter
      (fetchRoomDetails_resolved bob view
         (Some (fullResponse (withAnswers (Some [bobYes]) round1))) 4100)
      submitted in
  let resolved :=
    stateAfter (handleAnswer_resolved "r-1" bob view true 4000) refreshed in
  exists before after,
    room refreshed = Some before
    /\ room resolved = Some after
    /\ answers before = Some [bobYes]
    /\ answers after
       = Some [bobYes; Answer.mk "u-bob" "q-1" 1 true (Some (4000#1000))]
    /\ sameFact "u-bob" "q-1" 1 bobYes = true
    /\ (forall l, answers before = Some l ->
        countFor l "q-1" 1 = 1%nat /\ yesCountFor l "q-1" 1 = 1%nat)
    /\ (forall l, answers after = Some l ->
        countFor l "q-1" 1 = 2%nat /\ yesCountFor l "q-1" 1 = 2%nat)
    /\ answerCount before = 1%nat
    /\ answerCount after = 2%nat
    /\ allPlayersAnswered before = false
    /\ allPlayersAnswered after = true.
Proof.
  cbv zeta. eexists. eexists.
  split; [vm_compute; reflexivity|].
  split; [vm_compute; reflexivity|].
  repeat match goal with |- _ /\ _ => split end; try reflexivity;
    intros l [= <-]; split; reflexivity.
Qed.

(** ** Merging a poll response *)

Ltac case_scrutinee :=
  match goal with
  | |- context [match ?x with _ => _ end] =>
      lazymatch x with
      | context [match _ with _ => _ end] => fail
      | _ => destruct x eqn:?
      end
  end.

(** Whatever else a resolved fetch does, the room becomes the response
    itself when there was none and the merge with the live room otherwise. *)
Lemma room_after_resolved (currentUser : User.t) (cap st : State)
    (data : RoomData) (now : Z) :
  room (stateAfter
          (fetchRoomDetails_resolved currentUser cap (Some data) now) st)
  = Some (match room st with
          | None => fields data
          | Some p => mergeRoom p data
          end).
Proof.
  unfold fetchRoomDetails_resolved, applyRoomData, fetchRoomDetails_finally.
  unfold_monad. cbn.
  destruct (status data), (currentQuestion data); cbn;
    repeat (case_scrutinee; cbn); reflexivity.
Qed.

Lemma resolved_returns (currentUser : User.t) (cap st : State)
    (response_data : option RoomData) (now : Z) :
  outcomeOf (fetchRoomDetails_resolved currentUser cap response_data now) st
  = Returned tt.
Proof.
  unfold fetchRoomDetails_resolved, applyRoomData, fetchRoomDetails_finally.
  unfold_monad. destruct response_data as [data|]; cbn; [|reflexivity].
  destruct (status data), (currentQuestion data); cbn;
    repeat (case_scrutinee; cbn); reflexivity.
Qed.

(** C1, as the specification words it, fails: Alice's answer arrives by
    push, then a poll response that was produced before the server stored
    it arrives with an empty [answers] array; the array is truthy, replaces
    the local one, and the pushed fact is gone. *)
Lemma stale_poll_drops_pushed_answer :
  let view := showing (Some round1) in
  let pushed :=
    stateAfter
      (on_player_answered view (Some (mkPlayerAnswered "u-alice" true)))
      view in
  let polled :=
    stateAfter
      (fetchRoomDetails_resolved bob view (Some (fullResponse round1)) 5000)
      pushed in
  exists before after,
    room pushed = Some before
    /\ room polled = Some after
    /\ answers before = Some [aliceYes]
    /\ answers (fullResponse round1) = Some []
    /\ answers after = Some []
    /\ (exists l, answers before = Some l /\ In aliceYes l)
    /\ (forall l, answers after = Some l -> ~ In aliceYes l)
    /\ answerCount before = 1%nat
    /\ answerCount after = 0%nat.
Proof.
  cbv zeta. eexists. eexists.
  split; [vm_compute; reflexivity|].
  split; [vm_compute; reflexivity|].
  repeat match goal with |- _ /\ _ => split end; try reflexivity.
  - exists [aliceYes]. split; [reflexivity | now left].
  - intros l [= <-] [].
Qed.

(** C1, amended: merging a poll response over an existing room keeps the
    local answers only when the response has no [answers] array; an array
    in the response, even an empty one, replaces the local list.  A fact
    pushed first is therefore counted as often as the response lists it,
    and a player-answered event for a fact the merged room already holds
    for its current question and round adds nothing. *)
Theorem poll_merge_answers (currentUser : User.t) (cap st : State)
    (data : RoomData) (now : Z) (prev : Room) :
  room st = Some prev ->
  let polled :=
    stateAfter (fetchRoomDetails_resolved currentUser cap (Some data) now)
               st in
  exists merged,
    room polled = Some merged
    /\ (answers data = None -> answers merged = answers prev)
    /\ (forall l, answers data = Some l ->
        answers merged = Some l
        /\ (forall q r,
            countFor (match answers merged with Some l' => l' | None => [] end)
                     q r
            = countFor l q r)
        /\ (forall u q r,
            timesRecorded l u q r = 1%nat ->
            timesRecorded
              (match answers merged with Some l' => l' | None => [] end)
              u q r = 1%nat))
    /\ (forall cap' push q l,
        currentQuestion merged = Some q ->
        answers merged = Some l ->
        existsb (sameFact (userId push) (Question._id q)
                          (currentRound merged)) l = true ->
        on_player_answered cap' (Some push) polled
        = (Returned tt, polled, [])).
Proof.
  intros Hprev polled.
  exists (mergeRoom prev data).
  assert (Hroom : room polled = Some (mergeRoom prev data)).
  { subst polled. rewrite room_after_resolved, Hprev. reflexivity. }
  split; [exact Hroom|].
  split; [intros Hnone; unfold mergeRoom; cbn; now rewrite Hnone|].
  split.
  - intros l Hl.
    assert (Hm : answers (mergeRoom prev data) = Some l)
      by (unfold mergeRoom; cbn; now rewrite Hl).
    rewrite Hm. split; [reflexivity|]. split; [reflexivity|].
    intros u q r Hone. exact Hone.
  - intros cap' push q l Hq Hl Hex.
    exact (on_player_answered_duplicate cap' polled push
             (mergeRoom prev data) q l Hroom Hq Hl Hex).
Qed.

Lemma poll_merge_answers_witness :
  exists merged,
    room (stateAfter
            (fetchRoomDetails_resolved bob (showing (Some round1))
               (Some (fullResponse (withAnswers (Some [aliceYes]) round1)))
               5000)
            (showing (Some round1)))
    = Some merged.
Proof.
  destruct (poll_merge_answers bob (showing (Some round1))
              (showing (Some round1))
              (fullResponse (withAnswers (Some [aliceYes]) round1))
              5000 round1 eq_refl) as [merged [H _]].
  exists merged. exact H.
Defined.

(** ** Polls and round transitions *)

(** C2, as the specification words it, fails: a poll is issued in round 1;
    the round-started event for round 2 arrives and opens the transition;
    the poll's response, still describing round 1, arrives during the
    transition and is merged at once, putting the room back on round 1 and
    its question. *)
Lemma poll_during_transition_changes_round :
  let view := showing (Some round1) in
  let inFlight := stateAfter (fetchRoomDetails "r-1" view false 4000) view in
  let transitioning :=
    stateAfter (on_round_started (mkRoundStarted 2 (Some q2)) 4500)
               inFlight in
  let polled :=
    stateAfter
      (fetchRoomDetails_resolved bob view (Some (fullResponse round1)) 5000)
      transitioning in
  In (ApiGet "/rooms/r-1")
     (effectsOf (fetchRoomDetails "r-1" view false 4000) view)
  /\ isTransitioning transitioning = true
  /\ option_map currentRound (room transitioning) = Some 2
  /\ option_map currentQuestion (room transitioning) = Some (Some q2)
  /\ isTransitioning polled = true
  /\ option_map currentRound (room polled) = Some 1
  /\ option_map currentQuestion (room polled) = Some (Some q1).
Proof.
  cbv zeta. split; [vm_compute; left; reflexivity|].
  repeat split.
Qed.

(** ** Round results *)

(** C3, as the specification words it, fails: with a locally computed
    summary of one yes and one no on screen, an all-players-answered event
    for the same round replaces it with the payload it carries. *)
Lemma server_summary_replaces_local_summary :
  let localSummary := mkRoundResults 1 1 (Some "sung in public") in
  let payload := mkRoundResults 2 0 (Some "sung in public") in
  let view := withRoundResults (Some localSummary) (showing (Some round1)) in
  let after :=
    stateAfter (on_all_players_answered bob view (Some payload)) view in
  roundResults view = Some localSummary
  /\ roundResults after = Some payload
  /\ localSummary <> payload
  /\ room after = room view.
Proof. cbv zeta. repeat split. discriminate. Qed.

(** C3, amended: once the closure sees a summary, a poll response for the
    same question and round leaves it alone, and a player-answered event
    neither changes it nor schedules a new one; an all-players-answered
    event that carries a payload always sets the summary to that payload. *)
Theorem summary_kept_except_by_server_event (currentUser : User.t)
    (cap st : State) :
  (forall summary,
      roundResults cap = Some summary ->
      (forall (data : RoomData) now,
          (forall q, status data = playing -> currentQuestion data = Some q ->
                     questionChanged (room cap) q data = false) ->
          roundResults
            (stateAfter
               (fetchRoomDetails_resolved currentUser cap (Some data) now) st)
          = roundResults st)
      /\ (forall push,
          roundResults (stateAfter (on_player_answered cap push) st)
          = roundResults st
          /\ noSummaryTimer (effectsOf (on_player_answered cap push) st)))
  /\ (forall payload,
      roundResults
        (stateAfter (on_all_players_answered currentUser cap (Some payload))
                    st)
      = Some payload).
Proof.
  split; [intros summary Hsum; split|].
  - intros data now Hsame.
    unfold fetchRoomDetails_resolved, applyRoomData, fetchRoomDetails_finally.
    unfold_monad. rewrite Hsum. cbn.
    destruct (status data) eqn:Hs, (currentQuestion data) as [q|] eqn:Hq;
      cbn; try reflexivity.
    rewrite (Hsame q eq_refl eq_refl). cbn.
    rewrite andb_false_r.
    destruct (isTransitioning cap); reflexivity.
  - intros push. unfold on_player_answered, noSummaryTimer.
    unfold stateAfter, effectsOf.
    destruct (room cap), push as [d|]; cbn; try (split; [reflexivity|tauto]).
    unfold when. destruct (truthy (userId d)); cbn;
      try (split; [reflexivity|tauto]).
    unfold setRoomWith. destruct (room st) as [prev|]; cbn;
      try (split; [reflexivity|tauto]).
    unfold recordPlayerAnswer. rewrite Hsum.
    destruct (currentQuestion prev) as [q|]; cbn;
      try (split; [reflexivity|tauto]).
    rewrite andb_false_r.
    destruct (match answers prev with
              | Some l =>
                  existsb (sameFact (userId d) (Question._id q)
                                    (currentRound prev)) l
              | None => false
              end); cbn; (split; [reflexivity|tauto]).
  - intros payload. unfold on_all_players_answered. unfold_monad. cbn.
    destruct (isUserHost currentUser cap); reflexivity.
Qed.

Lemma summary_kept_except_by_server_event_witness :
  roundResults
    (stateAfter
       (on_player_answered
          (withRoundResults (Some (mkRoundResults 1 1 None))
             (showing (Some round1)))
          (Some (mkPlayerAnswered "u-alice" true)))
       (withRoundResults (Some (mkRoundResults 1 1 None))
          (showing (Some round1))))
  = Some (mkRoundResults 1 1 None).
Proof.
  refine (proj1 (proj2 (proj1
    (summary_kept_except_by_server_event bob
       (withRoundResults (Some (mkRoundResults 1 1 None))
          (showing (Some round1)))
       (withRoundResults (Some (mkRoundResults 1 1 None))
          (showing (Some round1))))
    (mkRoundResults 1 1 None) _) _)).
  reflexivity.
Defined.

(** * Further properties of the game room *)

(** ** The answer list under player-answered events *)

Lemma existsb_false_filter_nil {A} (f : A -> bool) (l : list A) :
  existsb f l = false -> filter f l = [].
Proof.
  induction l as [|a l IH]; cbn; [reflexivity|].
  destruct (f a); cbn; [discriminate | exact IH].
Qed.

Lemma timesRecorded_app_one (l : list Answer.t) (a : Answer.t) (u q : Id)
    (r : Z) :
  timesRecorded (l ++ [a]) u q r
  = (timesRecorded l u q r + if sameFact u q r a then 1 else 0)%nat.
Proof.
  unfold timesRecorded. rewrite filter_app, length_app. cbn.
  destruct (sameFact u q r a); reflexivity.
Qed.

Lemma yesCountFor_app_one (l : list Answer.t) (a : Answer.t) (q : Id)
    (r : Z) :
  yesCountFor (l ++ [a]) q r
  = (yesCountFor l q r
     + if forQuestion q r a && Answer.answer a then 1 else 0)%nat.
Proof.
  unfold yesCountFor. rewrite filter_app, length_app. cbn.
  destruct (forQuestion q r a && Answer.answer a); reflexivity.
Qed.

Lemma yesCountFor_le_countFor (l : list Answer.t) (q : Id) (r : Z) :
  (yesCountFor l q r <= countFor l q r)%nat.
Proof.
  unfold yesCountFor, countFor.
  induction l as [|a l IH]; cbn; [lia|].
  destruct (forQuestion q r a); cbn; [|exact IH].
  destruct (Answer.answer a); cbn; lia.
Qed.

Lemma sameFact_forQuestion (u q : Id) (r : Z) (a : Answer.t) :
  sameFact u q r a = String.eqb (Answer.user a) u && forQuestion q r a.
Proof. unfold sameFact, forQuestion. now rewrite andb_assoc. Qed.

(** The fact the push handler builds for [data] in the room [prev]. *)
Lemma recordPlayerAnswer_new (cap : State) (data : PlayerAnswered)
    (prev : Room) (q : Question.t) :
  currentQuestion prev = Some q ->
  existsb (sameFact (userId data) (Question._id q) (currentRound prev))
          (answerList prev) = false ->
  exists timers,
    recordPlayerAnswer cap data prev
    = Some (withAnswers
              (Some (answerList prev
                     ++ [Answer.mk (userId data) (Question._id q)
                                   (currentRound prev) (pa_answer data)
                                   None]))
              prev, timers).
Proof.
  intros Hq Hex. unfold recordPlayerAnswer, answerList in *. rewrite Hq.
  destruct (answers prev) as [l|]; [rewrite Hex|]; eexists; reflexivity.
Qed.

(** What a player-answered event can do to a room: nothing, or append the
    one fact it reports. *)
Lemma on_player_answered_room (cap st : State) (push : option PlayerAnswered)
    (prev after : Room) :
  room st = Some prev ->
  outcomeOf (on_player_answered cap push) st = Returned tt ->
  room (stateAfter (on_player_answered cap push) st) = Some after ->
  after = prev
  \/ exists data q,
       push = Some data
       /\ currentQuestion prev = Some q
       /\ existsb (sameFact (userId data) (Question._id q)
                            (currentRound prev)) (answerList prev) = false
       /\ after
          = withAnswers
              (Some (answerList prev
                     ++ [Answer.mk (userId data) (Question._id q)
                                   (currentRound prev) (pa_answer data)
                                   None]))
              prev.
Proof.
  intros Hprev Hout Hafter.
  unfold on_player_answered, outcomeOf, stateAfter in *.
  destruct (room cap), push as [data|]; cbn in *;
    try (left; congruence).
  unfold when in *. destruct (truthy (userId data)); cbn in *;
    [|left; congruence].
  unfold setRoomWith in *. rewrite Hprev in *.
  destruct (currentQuestion prev) as [q|] eqn:Hq.
  - destruct (existsb (sameFact (userId data) (Question._id q)
                         (currentRound prev)) (answerList prev)) eqn:Hex.
    + left. unfold recordPlayerAnswer, answerList in *. rewrite Hq in *.
      destruct (answers prev) as [l|]; [|discriminate Hex].
      rewrite Hex in *. cbn in Hafter. congruence.
    + right. exists data, q.
      destruct (recordPlayerAnswer_new cap data prev q Hq Hex) as [t Ht].
      rewrite Ht in *. cbn in Hafter. repeat split; congruence.
  - unfold recordPlayerAnswer in *. rewrite Hq in *. cbn in Hout.
    discriminate Hout.
Qed.

(** X1: a player-answered event never removes or reorders answers: the old
    list is a prefix of the new one, at most one fact longer, and the
    players, status, round and question of the room are untouched. *)
Theorem push_only_appends (cap st : State) (push : option PlayerAnswered)
    (prev after : Room) :
  room st = Some prev ->
  outcomeOf (on_player_answered cap push) st = Returned tt ->
  room (stateAfter (on_player_answered cap push) st) = Some after ->
  (exists suffix,
      answerList after = answerList prev ++ suffix
      /\ (List.length suffix <= 1)%nat)
  /\ players after = players prev
  /\ status after = status prev
  /\ currentRound after = currentRound prev
  /\ currentQuestion after = currentQuestion prev.
Proof.
  intros Hprev Hout Hafter.
  destruct (on_player_answered_room cap st push prev after Hprev Hout Hafter)
    as [-> | (data & q & _ & _ & _ & ->)].
  - split; [|repeat split]. exists []. rewrite app_nil_r. split; [reflexivity|].
    cbn. lia.
  - split; [|repeat split]. eexists. split; [reflexivity|]. cbn. lia.
Qed.

Lemma push_only_appends_witness :
  exists suffix,
    answerList (withAnswers (Some [aliceYes]) round1)
    = answerList round1 ++ suffix
    /\ (List.length suffix <= 1)%nat.
Proof.
  refine (proj1
    (push_only_appends (showing (Some round1)) (showing (Some round1))
       (Some (mkPlayerAnswered "u-alice" true)) round1
       (withAnswers (Some [aliceYes]) round1) _ _ _));
    reflexivity.
Defined.

(** X2: if no user has two facts for a question and round, no
    player-answered event can make it so: the handler keeps the answer
    list free of duplicate keys. *)
Theorem push_keeps_facts_unique (cap st : State)
    (push : option PlayerAnswered) (prev after : Room) (q : Id) (r : Z) :
  room st = Some prev ->
  outcomeOf (on_player_answered cap push) st = Returned tt ->
  room (stateAfter (on_player_answered cap push) st) = Some after ->
  noDuplicateFacts (answerList prev) q r ->
  noDuplicateFacts (answerList after) q r.
Proof.
  intros Hprev Hout Hafter Hnd u.
  destruct (on_player_answered_room cap st push prev after Hprev Hout Hafter)
    as [-> | (data & cq & _ & Hq & Hex & ->)]; [apply Hnd|].
  unfold answerList at 1. cbn [answers withAnswers].
  rewrite timesRecorded_app_one.
  destruct (sameFact u q r _) eqn:Hsame; [|specialize (Hnd u); lia].
  unfold sameFact in Hsame. cbn in Hsame.
  apply andb_prop in Hsame. destruct Hsame as [Huq Hr].
  apply andb_prop in Huq. destruct Huq as [Hu Hqq].
  apply String.eqb_eq in Hu. apply String.eqb_eq in Hqq.
  apply Z.eqb_eq in Hr. subst u q r.
  unfold timesRecorded. rewrite (existsb_false_filter_nil _ _ Hex).
  cbn. lia.
Qed.

Lemma push_keeps_facts_unique_witness :
  noDuplicateFacts (answerList (withAnswers (Some [aliceYes]) round1))
                   "q-1" 1.
Proof.
  refine (push_keeps_facts_unique (showing (Some round1))
            (showing (Some round1)) (Some (mkPlayerAnswered "u-alice" true))
            round1 (withAnswers (Some [aliceYes]) round1) "q-1" 1 _ _ _ _);
    try reflexivity.
  intros u. cbn. lia.
Defined.

Lemma forQuestion_other_key (q q' : Id) (r r' : Z) (u : Id) (b : bool)
    (t : option Q) :
  (q', r') <> (q, r) ->
  forQuestion q' r' (Answer.mk u q r b t) = false.
Proof.
  intros Hne. unfold forQuestion. cbn.
  destruct (String.eqb_spec q q'); [|reflexivity].
  destruct (Z.eqb_spec r r'); [|reflexivity].
  subst. contradiction.
Qed.

Lemma forQuestion_same_key (q : Id) (r : Z) (u : Id) (b : bool)
    (t : option Q) :
  forQuestion q r (Answer.mk u q r b t) = true.
Proof.
  unfold forQuestion. cbn. now rewrite String.eqb_refl, Z.eqb_refl.
Qed.

(** X3: a player-answered event for a user without a fact for the current
    question and round raises the answer count by exactly one, the yes
    count by one exactly when the answer is yes, and leaves the counts of
    every other question or round alone. *)
Theorem push_counts_new_fact_once (cap st : State) (data : PlayerAnswered)
    (shown prev : Room) (q : Question.t) :
  room cap = Some shown ->
  truthy (userId data) = true ->
  room st = Some prev ->
  currentQuestion prev = Some q ->
  existsb (sameFact (userId data) (Question._id q) (currentRound prev))
          (answerList prev) = false ->
  exists after,
    room (stateAfter (on_player_answered cap (Some data)) st) = Some after
    /\ answerCount after = S (answerCount prev)
    /\ yesCountFor (answerList after) (Question._id q) (currentRound prev)
       = (yesCountFor (answerList prev) (Question._id q) (currentRound prev)
          + if pa_answer data then 1 else 0)%nat
    /\ (forall q' r',
        (q', r') <> (Question._id q, currentRound prev) ->
        countFor (answerList after) q' r'
        = countFor (answerList prev) q' r').
Proof.
  intros Hcap Hid Hprev Hq Hex.
  destruct (recordPlayerAnswer_new cap data prev q Hq Hex) as [timers Hrec].
  eexists. split.
  { unfold on_player_answered, stateAfter. rewrite Hcap, Hid. cbn.
    unfold setRoomWith. rewrite Hprev, Hrec. cbn. reflexivity. }
  split; [|split].
  - unfold answerCount. cbn [answers currentQuestion currentRound withAnswers].
    rewrite Hq, countFor_app_one, forQuestion_same_key.
    unfold answerList. destruct (answers prev); cbn; lia.
  - unfold answerList at 1. cbn [answers withAnswers].
    rewrite yesCountFor_app_one, forQuestion_same_key. reflexivity.
  - intros q' r' Hne. unfold answerList at 1. cbn [answers withAnswers].
    rewrite countFor_app_one, forQuestion_other_key by exact Hne. lia.
Qed.

Lemma push_counts_new_fact_once_witness :
  exists after,
    room (stateAfter
            (on_player_answered (showing (Some round1))
               (Some (mkPlayerAnswered "u-alice" true)))
            (showing (Some round1)))
    = Some after
    /\ answerCount after = S (answerCount round1).
Proof.
  destruct (push_counts_new_fact_once (showing (Some round1))
              (showing (Some round1)) (mkPlayerAnswered "u-alice" true)
              round1 round1 q1 eq_refl eq_refl eq_refl eq_refl eq_refl)
    as [after [H1 [H2 _]]].
  exists after. split; assumption.
Defined.

(** X4: whenever a player-answered event schedules a round summary, the
    closure had none, the delay is 500 ms, the summary names the current
    question, and its yes and no counts add up to the number of players,
    which is the number of answers then counted for the round. *)
Theorem push_summary_adds_up (cap st : State) (push : option PlayerAnswered)
    (prev : Room) (s : RoundResults) (delay : Z) :
  room st = Some prev ->
  In (SetTimeout (ShowRoundResults s) delay)
     (effectsOf (on_player_answered cap push) st) ->
  delay = 500
  /\ roundResults cap = None
  /\ (yesCount s + noCount s = List.length (players prev))%nat
  /\ (0 < List.length (players prev))%nat
  /\ (exists q, currentQuestion prev = Some q
                /\ question s = Some (Question.text q))
  /\ exists after,
       room (stateAfter (on_player_answered cap push) st) = Some after
       /\ answerCount after = List.length (players after)
       /\ yesCount s
          = yesCountFor (answerList after)
              (match currentQuestion after with
               | Some q => Question._id q
               | None => ""
               end)
              (currentRound after).
Proof.
  intros Hprev Hin.
  unfold on_player_answered, effectsOf, stateAfter in *.
  destruct (room cap), push as [data|]; cbn in Hin; try contradiction.
  unfold when in *. destruct (truthy (userId data)); cbn in Hin;
    [|contradiction].
  unfold setRoomWith in *. rewrite Hprev in *.
  unfold recordPlayerAnswer in *.
  destruct (currentQuestion prev) as [q|] eqn:Hq; cbn in Hin;
    [|contradiction].
  destruct (match answers prev with
            | Some l =>
                existsb (sameFact (userId data) (Question._id q)
                                  (currentRound prev)) l
            | None => false
            end); cbn in Hin; [contradiction|].
  cbn [fst snd].
  set (updated := (match answers prev with Some l => l | None => [] end)
                  ++ [Answer.mk (userId data) (Question._id q)
                                (currentRound prev) (pa_answer data) None])
    in *.
  destruct (Nat.eqb_spec
              (countFor updated (Question._id q) (currentRound prev))
              (List.length (players prev))) as [Hcount|];
    cbn in Hin; [|contradiction].
  assert (Hpos : (0 < List.length (players prev))%nat).
  { destruct (List.length (players prev)); [contradiction | lia]. }
  destruct (List.length (players prev)) as [|n] eqn:Hlen; [lia|].
  destruct (roundResults cap); cbn in Hin; [contradiction|].
  destruct Hin as [Heq | []]. injection Heq as <- <-.
  cbn [yesCount noCount question].
  pose proof (yesCountFor_le_countFor updated (Question._id q)
                (currentRound prev)) as Hle.
  split; [reflexivity|]. split; [reflexivity|].
  split; [lia|]. split; [exact Hpos|].
  split; [exists q; split; reflexivity|].
  eexists. split; [reflexivity|].
  unfold answerCount, answerList.
  cbn [answers currentQuestion currentRound players withAnswers].
  rewrite Hq, Hlen. fold updated. split; [exact Hcount | reflexivity].
Qed.

Lemma push_summary_adds_up_witness :
  (yesCount (mkRoundResults 1 1 (Some "sung in public"))
   + noCount (mkRoundResults 1 1 (Some "sung in public"))
   = List.length (players (withAnswers (Some [aliceYes]) round1)))%nat.
Proof.
  refine (proj1 (proj2 (proj2
    (push_summary_adds_up
       (showing (Some (withAnswers (Some [aliceYes]) round1)))
       (showing (Some (withAnswers (Some [aliceYes]) round1)))
       (Some (mkPlayerAnswered "u-bob" false))
       (withAnswers (Some [aliceYes]) round1)
       (mkRoundResults 1 1 (Some "sung in public")) 500 _ _)))).
  - reflexivity.
  - vm_compute. left. reflexivity.
Defined.

(** What holds of the room when a player-answered event schedules a
    summary. *)
Lemma push_summary_facts (cap st : State) (push : option PlayerAnswered)
    (prev : Room) (s : RoundResults) (delay : Z) :
  room st = Some prev ->
  In (SetTimeout (ShowRoundResults s) delay)
     (effectsOf (on_player_answered cap push) st) ->
  exists after q,
    room (stateAfter (on_player_answered cap push) st) = Some after
    /\ currentQuestion after = Some q
    /\ status after = status prev
    /\ answerCount after = List.length (players after)
    /\ (0 < List.length (players after))%nat
    /\ roundResults (stateAfter (on_player_answered cap push) st)
       = roundResults st.
Proof.
  intros Hprev Hin.
  unfold on_player_answered, effectsOf, stateAfter in *.
  destruct (room cap), push as [data|]; cbn in Hin; try contradiction.
  unfold when in *. destruct (truthy (userId data)); cbn in Hin;
    [|contradiction].
  unfold setRoomWith in *. rewrite Hprev in *.
  unfold recordPlayerAnswer in *.
  destruct (currentQuestion prev) as [q|] eqn:Hq; cbn in Hin;
    [|contradiction].
  destruct (match answers prev with
            | Some l =>
                existsb (sameFact (userId data) (Question._id q)
                                  (currentRound prev)) l
            | None => false
            end); cbn in Hin; [contradiction|].
  cbn [fst snd].
  set (updated := (match answers prev with Some l => l | None => [] end)
                  ++ [Answer.mk (userId data) (Question._id q)
                                (currentRound prev) (pa_answer data) None])
    in *.
  destruct (Nat.eqb_spec
              (countFor updated (Question._id q) (currentRound prev))
              (List.length (players prev))) as [Hcount|Hncount];
    cbn in Hin; [|contradiction].
  assert (Hpos : (0 < List.length (players prev))%nat).
  { destruct (List.length (players prev)); [contradiction | lia]. }
  eexists. exists q. split; [reflexivity|].
  cbn [currentQuestion players status withAnswers].
  split; [exact Hq|]. split; [reflexivity|]. split.
  - unfold answerCount.
    cbn [answers currentQuestion currentRound withAnswers].
    rewrite Hq. fold updated. exact Hcount.
  - split; [exact Hpos|]. destruct st; reflexivity.
Qed.

(** ** What a resolved fetch does besides merging the room *)

Ltac run_resolved :=
  unfold fetchRoomDetails_resolved, applyRoomData, fetchRoomDetails_finally;
  unfold_monad; cbn.

(** X5: a resolved fetch puts a round summary on a screen that had none
    only for a playing room whose answers for the current question and
    round are as many as its players (and at least one), and only when the
    closure had no summary and was not in a transition; the yes and no
    counts of that summary add up to the number of players. *)
Theorem poll_summary_only_when_complete (currentUser : User.t)
    (cap st : State) (data : RoomData) (now : Z) (s : RoundResults) :
  roundResults st = None ->
  roundResults
    (stateAfter (fetchRoomDetails_resolved currentUser cap (Some data) now)
                st)
  = Some s ->
  status data = playing
  /\ (exists q,
        currentQuestion data = Some q
        /\ question s = Some (Question.text q)
        /\ countFor (answerList data) (Question._id q) (currentRound data)
           = List.length (players data)
        /\ yesCount s
           = yesCountFor (answerList data) (Question._id q)
                         (currentRound data))
  /\ (0 < List.length (players data))%nat
  /\ (yesCount s + noCount s = List.length (players data))%nat
  /\ roundResults cap = None
  /\ isTransitioning cap = false.
Proof.
  intros Hnone. run_resolved. unfold answerList.
  destruct (status data) eqn:Hs, (currentQuestion data) as [q|] eqn:Hq;
    cbn; try (intros H; congruence).
  destruct (isTransitioning cap) eqn:Ht; cbn.
  { rewrite andb_false_r. cbn. intros H; congruence. }
  rewrite andb_true_r.
  set (l := match answers data with Some l => l | None => [] end).
  destruct (Nat.eqb_spec (countFor l (Question._id q) (currentRound data))
                         (List.length (players data))) as [Hcount|Hncount];
    cbn; [|destruct (questionChanged (room cap) q data); cbn;
           intros H; congruence].
  destruct (List.length (players data)) as [|n] eqn:Hlen; cbn;
    [destruct (questionChanged (room cap) q data); cbn;
     intros H; congruence|].
  destruct (roundResults cap) eqn:Hcap; cbn;
    [destruct (questionChanged (room cap) q data); cbn;
     intros H; congruence|].
  pose proof (yesCountFor_le_countFor l (Question._id q) (currentRound data))
    as Hle.
  destruct (questionChanged (room cap) q data); cbn;
    intros [= <-]; cbn [yesCount noCount question];
    (split; [reflexivity|]);
    (split; [exists q; repeat split; assumption|]);
    (split; [lia|]); (split; [lia|]); split; reflexivity.
Qed.

Lemma poll_summary_only_when_complete_witness :
  status (fullResponse (withAnswers (Some [aliceYes; bobYes]) round1))
  = playing.
Proof.
  refine (proj1
    (poll_summary_only_when_complete bob (showing (Some round1))
       (showing (Some round1))
       (fullResponse (withAnswers (Some [aliceYes; bobYes]) round1)) 5000
       (mkRoundResults 2 0 (Some "sung in public")) _ _));
    reflexivity.
Defined.

(** X6: a resolved fetch never issues a request; the only effect it can
    have is the 3-second timer that re-enables answering.  Outside a
    transition, a playing response re-arms the reading lock exactly when
    its question or round differs from the closure's room: answering is
    disabled, the question clock restarts at [now] and one timer is set;
    with the same question and round the lock and the clock are left
    alone and no timer is set. *)
Theorem poll_relocks_on_new_question (currentUser : User.t) (cap st : State)
    (data : RoomData) (now : Z) (q : Question.t) :
  let resolved :=
    fetchRoomDetails_resolved currentUser cap (Some data) now in
  (forall e, In e (effectsOf resolved st) -> e = SetTimeout EnableAnswer 3000)
  /\ (status data = playing -> currentQuestion data = Some q ->
      isTransitioning cap = false ->
      (questionChanged (room cap) q data = true ->
       canAnswer (stateAfter resolved st) = false
       /\ questionStartTime (stateAfter resolved st) = Some now
       /\ effectsOf resolved st = [SetTimeout EnableAnswer 3000])
      /\ (questionChanged (room cap) q data = false ->
          canAnswer (stateAfter resolved st) = canAnswer st
          /\ questionStartTime (stateAfter resolved st)
             = questionStartTime st
          /\ effectsOf resolved st = [])).
Proof.
  intros resolved. subst resolved. split.
  - run_resolved.
    destruct (status data), (currentQuestion data) as [q'|]; cbn;
      try contradiction.
    destruct (questionChanged (room cap) q' data), (isTransitioning cap);
      cbn; repeat (case_scrutinee; cbn); intros e He;
      repeat (destruct He as [He | He]; try (symmetry; exact He));
      contradiction.
  - intros Hs Hq Ht. run_resolved. rewrite Hs, Hq, Ht. cbn.
    split; intros Hch; rewrite Hch; cbn;
      repeat (case_scrutinee; cbn); repeat split.
Qed.

Lemma poll_relocks_on_new_question_witness :
  canAnswer
    (stateAfter
       (fetchRoomDetails_resolved bob (showing (Some round1))
          (Some (fullResponse round2)) 9000)
       (showing (Some round1)))
  = false.
Proof.
  refine (proj1 (proj1 (proj2
    (poll_relocks_on_new_question bob (showing (Some round1))
       (showing (Some round1)) (fullResponse round2) 9000 q2) _ _ _) _));
    reflexivity.
Defined.

(** X7: for a playing response with a question, [hasAnswered] becomes
    whether the response lists a fact of the current user for that
    question and round, whatever it was before; any other response leaves
    it alone.  So a response without the user's fact, arriving after the
    user submitted, sets the flag back to false. *)
Theorem poll_overwrites_hasAnswered (roomId : Id) (currentUser : User.t)
    (cap st : State) (data : RoomData) (now : Z) :
  let resolved :=
    fetchRoomDetails_resolved currentUser cap (Some data) now in
  (forall q,
      status data = playing -> currentQuestion data = Some q ->
      hasAnswered (stateAfter resolved st)
      = existsb (sameFact (User._id currentUser) (Question._id q)
                          (currentRound data))
                (answerList data))
  /\ (status data <> playing \/ currentQuestion data = None ->
      hasAnswered (stateAfter resolved st) = hasAnswered st)
  /\ (forall q answer submittedAt,
      status data = playing -> currentQuestion data = Some q ->
      existsb (sameFact (User._id currentUser) (Question._id q)
                        (currentRound data))
              (answerList data) = false ->
      hasAnswered
        (stateAfter (handleAnswer roomId currentUser cap answer submittedAt)
                    st) = true
      /\ hasAnswered
           (stateAfter resolved
              (stateAfter
                 (handleAnswer roomId currentUser cap answer submittedAt) st))
         = false).
Proof.
  intros resolved. subst resolved.
  assert (Hgen : forall s q,
             status data = playing -> currentQuestion data = Some q ->
             hasAnswered
               (stateAfter
                  (fetchRoomDetails_resolved currentUser cap (Some data) now)
                  s)
             = existsb (sameFact (User._id currentUser) (Question._id q)
                                 (currentRound data))
                       (answerList data)).
  { intros s q Hs Hq. run_resolved. rewrite Hs, Hq. unfold answerList. cbn.
    repeat (case_scrutinee; cbn); reflexivity. }
  split; [intros q; apply Hgen|]. split.
  - intros Hother. run_resolved.
    destruct (status data) eqn:Hs, (currentQuestion data) eqn:Hq; cbn;
      try reflexivity.
    destruct Hother; congruence.
  - intros q answer submittedAt Hs Hq Hex. split; [reflexivity|].
    rewrite (Hgen _ q Hs Hq). exact Hex.
Qed.

Lemma poll_overwrites_hasAnswered_witness :
  hasAnswered
    (stateAfter
       (fetchRoomDetails_resolved bob (showing (Some round1))
          (Some (fullResponse round1)) 5000)
       (stateAfter (handleAnswer "r-1" bob (showing (Some round1)) true 4000)
                   (showing (Some round1))))
  = false.
Proof.
  refine (proj2 (proj2 (proj2
    (poll_overwrites_hasAnswered "r-1" bob (showing (Some round1))
       (showing (Some round1)) (fullResponse round1) 5000))
    q1 true 4000 _ _ _));
    reflexivity.
Defined.

(** ** The life of a fetch *)

Lemma run_bind {A B} (m : M A) (k : A -> M B) (s s1 : State) (a : A)
    (es1 : list Effect) :
  m s = (Returned a, s1, es1) ->
  bind m k s = (fst (fst (k a s1)), snd (fst (k a s1)), es1 ++ snd (k a s1)).
Proof.
  intros H. unfold bind. rewrite H. destruct (k a s1) as [[o s2] es2].
  reflexivity.
Qed.

Lemma countGets_app (es1 es2 : list Effect) :
  countGets (es1 ++ es2) = (countGets es1 + countGets es2)%nat.
Proof. unfold countGets. now rewrite filter_app, length_app. Qed.

Lemma forced_fetch_effects (roomId : Id) (cap st : State) (now : Z) :
  countGets (effectsOf (fetchRoomDetails roomId cap true now) st) = 1%nat.
Proof.
  unfold effectsOf.
  rewrite (fetchRoomDetails_run roomId cap st true now (or_introl eq_refl)).
  cbn [snd]. rewrite countGets_app. destruct (fetchTimeoutRef st); reflexivity.
Qed.

Lemma skipped_fetch_effects (roomId : Id) (cap st : State) (now : Z) :
  fetchInProgressRef st = true \/ isTransitioning cap = true
  \/ now - lastUpdated cap < 3000 ->
  countGets (effectsOf (fetchRoomDetails roomId cap false now) st) = 0%nat.
Proof.
  intros H. unfold effectsOf. rewrite fetchRoomDetails_skips by exact H.
  cbn [snd]. destruct (fetchTimeoutRef st); reflexivity.
Qed.

(** The [finally] block as seen after a resolved fetch. *)
Lemma resolved_settles (currentUser : User.t) (cap st : State)
    (response_data : option RoomData) (now : Z) :
  let settled :=
    stateAfter (fetchRoomDetails_resolved currentUser cap response_data now)
               st in
  fetchInProgressRef settled = false
  /\ isRefreshing settled = false
  /\ isLoading settled = false
  /\ lastUpdated settled = now
  /\ lastPollingUpdate settled = now
  /\ isTransitioning settled = isTransitioning st
  /\ fetchTimeoutRef settled = fetchTimeoutRef st.
Proof.
  run_resolved. destruct response_data as [data|]; cbn; [|repeat split].
  destruct (status data), (currentQuestion data); cbn;
    repeat (case_scrutinee; cbn); repeat split.
Qed.

(** X8: every fetch that finishes, resolved with any body or rejected,
    releases the in-flight guard, ends the refreshing and loading flags and
    stamps [lastUpdated] and [lastPollingUpdate] with the finishing time;
    as the code is written a rejected fetch is stamped too.  The debounce
    of a later non-forced call reads the [lastUpdated] its own callback
    closed over, which is not among the dependencies of the callback: a
    callback built from a render that shows the stamp sends nothing within
    3 seconds of it and exactly one GET from 3 seconds on, outside a
    transition; a callback kept from an earlier render, as after a rejected
    fetch, which changes none of the dependencies, still decides by the
    older value and sends its GET even within 3 seconds of the stamp. *)
Theorem finished_fetch_debounces (roomId : Id) (currentUser : User.t)
    (cap st : State) (response_data : option RoomData) (now : Z) :
  let settled :=
    stateAfter (fetchRoomDetails_resolved currentUser cap response_data now)
               st in
  let failed := stateAfter (fetchRoomDetails_rejected cap now) st in
  (fetchInProgressRef settled = false /\ isRefreshing settled = false
   /\ isLoading settled = false /\ lastUpdated settled = now
   /\ lastPollingUpdate settled = now)
  /\ (fetchInProgressRef failed = false /\ isRefreshing failed = false
      /\ isLoading failed = false /\ lastUpdated failed = now
      /\ lastPollingUpdate failed = now)
  /\ (forall rebuilt later,
      lastUpdated rebuilt = now ->
      (later - now < 3000 ->
       countGets (effectsOf (fetchRoomDetails roomId rebuilt false later)
                            settled) = 0%nat
       /\ countGets (effectsOf (fetchRoomDetails roomId rebuilt false later)
                               failed) = 0%nat)
      /\ (3000 <= later - now -> isTransitioning rebuilt = false ->
          countGets (effectsOf (fetchRoomDetails roomId rebuilt false later)
                               settled) = 1%nat
          /\ countGets (effectsOf (fetchRoomDetails roomId rebuilt false later)
                                  failed) = 1%nat))
  /\ (forall kept later,
      isTransitioning kept = false ->
      3000 <= later - lastUpdated kept ->
      countGets (effectsOf (fetchRoomDetails roomId kept false later) settled)
      = 1%nat
      /\ countGets (effectsOf (fetchRoomDetails roomId kept false later)
                              failed) = 1%nat).
Proof.
  intros settled failed.
  destruct (resolved_settles currentUser cap st response_data now)
    as (S1 & S2 & S3 & S4 & S5 & S6 & S7).
  fold settled in S1, S2, S3, S4, S5, S6, S7.
  assert (F : fetchInProgressRef failed = false /\ isRefreshing failed = false
              /\ isLoading failed = false /\ lastUpdated failed = now
              /\ lastPollingUpdate failed = now).
  { subst failed. unfold stateAfter.
    rewrite fetchRoomDetails_rejected_run. cbn [fst snd].
    destruct (room cap); repeat split. }
  destruct F as (F1 & F2 & F3 & F4 & F5).
  assert (Hsend : forall closure live later,
            fetchInProgressRef live = false ->
            isTransitioning closure = false ->
            3000 <= later - lastUpdated closure ->
            countGets (effectsOf (fetchRoomDetails roomId closure false later)
                                 live) = 1%nat).
  { intros closure live later Hin Ht Hlate. unfold effectsOf.
    rewrite (fetchRoomDetails_run roomId closure live false later)
      by (right; repeat split; assumption).
    cbn [snd]. rewrite countGets_app.
    destruct (fetchTimeoutRef live); reflexivity. }
  split; [repeat split; assumption|].
  split; [repeat split; assumption|].
  split.
  - intros rebuilt later Hstamp. split.
    + intros Hsoon.
      split; apply skipped_fetch_effects; right; right; lia.
    + intros Hlate Ht. split; apply Hsend; auto; lia.
  - intros kept later Ht Hlate. split; apply Hsend; auto.
Qed.

Lemma finished_fetch_debounces_witness :
  countGets
    (effectsOf
       (fetchRoomDetails "r-1"
          (stateAfter (fetchRoomDetails_rejected (showing (Some round1)) 9000)
                      (showing (Some round1)))
          false 11000)
       (stateAfter (fetchRoomDetails_rejected (showing (Some round1)) 9000)
                   (showing (Some round1))))
  = 0%nat
  /\ countGets
       (effectsOf
          (fetchRoomDetails "r-1" (showing (Some round1)) false 11000)
          (stateAfter (fetchRoomDetails_rejected (showing (Some round1)) 9000)
                      (showing (Some round1))))
     = 1%nat.
Proof.
  split.
  - refine (proj2 (proj1 (proj1 (proj2 (proj2
      (finished_fetch_debounces "r-1" bob (showing (Some round1))
         (showing (Some round1)) None 9000)))
      (stateAfter (fetchRoomDetails_rejected (showing (Some round1)) 9000)
                  (showing (Some round1)))
      11000 _) _)); reflexivity.
  - refine (proj2 (proj2 (proj2 (proj2
      (finished_fetch_debounces "r-1" bob (showing (Some round1))
         (showing (Some round1)) None 9000)))
      (showing (Some round1)) 11000 _ _)); [reflexivity | discriminate].
Defined.

(** X9: the in-flight guard is one flag.  While it is set every
    non-forced call, from any closure and at any time, returns without a
    request and without changing the state, and a forced call still sends
    its GET, so two requests can be pending.  When that forced fetch
    settles, resolved or rejected, its [finally] clears the flag although
    the earlier poll is still pending, and the next non-forced call that
    passes the other two guards sends a further GET. *)
Theorem in_flight_guard_is_one_flag (roomId : Id) (currentUser : User.t)
    (cap forcedCap st : State) (response_data : option RoomData)
    (now forcedAt settledAt : Z) :
  fetchInProgressRef st = false -> isTransitioning cap = false ->
  3000 <= now - lastUpdated cap ->
  let polling := stateAfter (fetchRoomDetails roomId cap false now) st in
  let both :=
    stateAfter (fetchRoomDetails roomId forcedCap true forcedAt) polling in
  let settled :=
    stateAfter
      (fetchRoomDetails_resolved currentUser forcedCap response_data settledAt)
      both in
  let failed :=
    stateAfter (fetchRoomDetails_rejected forcedCap settledAt) both in
  countGets (effectsOf (fetchRoomDetails roomId cap false now) st) = 1%nat
  /\ fetchInProgressRef polling = true
  /\ (forall cap' later,
      fetchRoomDetails roomId cap' false later polling
      = (Returned tt, polling, []))
  /\ countGets
       (effectsOf (fetchRoomDetails roomId forcedCap true forcedAt) polling)
     = 1%nat
  /\ fetchInProgressRef both = true
  /\ fetchInProgressRef settled = false
  /\ fetchInProgressRef failed = false
  /\ (forall cap' later,
      isTransitioning cap' = false -> 3000 <= later - lastUpdated cap' ->
      countGets (effectsOf (fetchRoomDetails roomId cap' false later) settled)
      = 1%nat
      /\ countGets (effectsOf (fetchRoomDetails roomId cap' false later)
                              failed) = 1%nat).
Proof.
  intros Hfree Ht Hold polling both settled failed.
  assert (Hrun := fetchRoomDetails_run roomId cap st false now
                    (or_intror (conj Hfree (conj Ht Hold)))).
  assert (Hflag : fetchInProgressRef polling = true
                  /\ fetchTimeoutRef polling = false).
  { subst polling. unfold stateAfter. rewrite Hrun. cbn [fst snd].
    destruct st, (room cap); split; reflexivity. }
  destruct Hflag as [Hin Hpend].
  assert (Hboth : fetchInProgressRef both = true).
  { subst both. unfold stateAfter.
    rewrite (fetchRoomDetails_run roomId forcedCap polling true forcedAt
               (or_introl eq_refl)).
    cbn [fst snd]. destruct polling, (room forcedCap); reflexivity. }
  assert (Hsettled : fetchInProgressRef settled = false)
    by exact (proj1 (resolved_settles currentUser forcedCap both
                       response_data settledAt)).
  assert (Hfailed : fetchInProgressRef failed = false).
  { subst failed. unfold stateAfter.
    rewrite fetchRoomDetails_rejected_run. cbn [fst snd].
    destruct (room forcedCap); reflexivity. }
  assert (Hsend : forall closure live later,
            fetchInProgressRef live = false ->
            isTransitioning closure = false ->
            3000 <= later - lastUpdated closure ->
            countGets (effectsOf (fetchRoomDetails roomId closure false later)
                                 live) = 1%nat).
  { intros closure live later Hl Hc Hlate. unfold effectsOf.
    rewrite (fetchRoomDetails_run roomId closure live false later)
      by (right; repeat split; assumption).
    cbn [snd]. rewrite countGets_app.
    destruct (fetchTimeoutRef live); reflexivity. }
  split; [apply Hsend; assumption|].
  split; [exact Hin|].
  split.
  { intros cap' later.
    rewrite fetchRoomDetails_skips by (left; exact Hin).
    rewrite Hpend. destruct polling; cbn in *; subst; reflexivity. }
  split; [apply forced_fetch_effects|].
  split; [exact Hboth|].
  split; [exact Hsettled|].
  split; [exact Hfailed|].
  intros cap' later Hc Hlate. split; apply Hsend; assumption.
Qed.

Lemma in_flight_guard_is_one_flag_witness :
  let view := showing (Some round1) in
  let polling := stateAfter (fetchRoomDetails "r-1" view false 5000) view in
  let both := stateAfter (fetchRoomDetails "r-1" view true 6000) polling in
  let settled :=
    stateAfter
      (fetchRoomDetails_resolved bob view (Some (fullResponse round1)) 6500)
      both in
  fetchRoomDetails "r-1" view false 5500 polling = (Returned tt, polling, [])
  /\ countGets (effectsOf (fetchRoomDetails "r-1" view false 9000) settled)
     = 1%nat.
Proof.
  cbv zeta.
  pose proof (in_flight_guard_is_one_flag "r-1" bob (showing (Some round1))
                (showing (Some round1)) (showing (Some round1))
                (Some (fullResponse round1)) 5000 6000 6500
                eq_refl eq_refl ltac:(cbn; lia)) as H.
  cbv zeta in H.
  destruct H as (_ & _ & Hskip & _ & _ & _ & _ & Hsend).
  split.
  - exact (Hskip (showing (Some round1)) 5500).
  - exact (proj1 (Hsend (showing (Some round1)) 9000 eq_refl
                    ltac:(cbn; lia))).
Defined.

(** ** Events that force a refresh *)

Lemma effectsOf_emit_then {A} (e : Effect) (m : M A) (s : State) :
  effectsOf (emit e ;; m) s = e :: effectsOf m s.
Proof.
  unfold effectsOf, bind, emit. destruct (m s) as [[o s2] es2]. reflexivity.
Qed.

Lemma effectsOf_then_modify (m : M unit) (f : State -> State) (s : State) :
  outcomeOf m s = Returned tt ->
  effectsOf (m ;; modify f) s = effectsOf m s.
Proof.
  unfold effectsOf, outcomeOf, bind, modify.
  destruct (m s) as [[o s2] es2]. cbn. intros ->. cbn. apply app_nil_r.
Qed.

Lemma effectsOf_then_when_emit (m : M unit) (b : bool) (e : Effect)
    (s : State) :
  outcomeOf m s = Returned tt ->
  effectsOf (m ;; when b (emit e)) s
  = effectsOf m s ++ if b then [e] else [].
Proof.
  unfold effectsOf, outcomeOf, bind, when, emit, ret.
  destruct (m s) as [[o s2] es2]. cbn. intros ->. destruct b; reflexivity.
Qed.

Lemma effectsOf_ret_then {A} (m : M A) (s : State) :
  effectsOf (ret tt ;; m) s = effectsOf m s.
Proof.
  unfold effectsOf, bind, ret. destruct (m s) as [[o s2] es2]. reflexivity.
Qed.

Lemma effectsOf_when_emit_then {A} (b : bool) (e : Effect) (m : M A)
    (s : State) :
  effectsOf (when b (emit e) ;; m) s
  = (if b then [e] else []) ++ effectsOf m s.
Proof.
  destruct b; cbn [when]; [apply effectsOf_emit_then | apply effectsOf_ret_then].
Qed.

Lemma forced_fetch_returns (roomId : Id) (cap st : State) (now : Z) :
  outcomeOf (fetchRoomDetails roomId cap true now) st = Returned tt.
Proof.
  unfold outcomeOf.
  now rewrite (fetchRoomDetails_run roomId cap st true now
                 (or_introl eq_refl)).
Qed.

(** X10: mounting the component, a player joining or leaving, a change of
    host, a successful join and the end of a push-driven transition each
    send exactly one GET for the room, in every state: the in-flight guard,
    the transition flag and the 3-second debounce do not apply to them. *)
Theorem refresh_events_always_fetch (roomId : Id) (currentUser : User.t)
    (cap fetchCap st : State) (now : Z) :
  (forall socket,
      countGets (effectsOf (mountEffect roomId currentUser fetchCap socket now)
                           st) = 1%nat)
  /\ (forall user,
      countGets (effectsOf (on_player_joined roomId fetchCap user now) st)
      = 1%nat)
  /\ (forall user,
      countGets (effectsOf (on_player_left roomId fetchCap user now) st)
      = 1%nat)
  /\ (forall data,
      countGets (effectsOf (on_host_changed roomId currentUser fetchCap data
                              now) st) = 1%nat)
  /\ countGets (effectsOf (handleJoinRoom_resolved roomId currentUser fetchCap
                             now) st) = 1%nat
  /\ countGets (effectsOf (runTimer roomId cap fetchCap
                             FinishTransitionAndFetch now) st) = 1%nat.
Proof.
  split; [|split; [|split; [|split; [|split]]]].
  - intros socket. unfold mountEffect.
    rewrite effectsOf_then_when_emit by apply forced_fetch_returns.
    rewrite countGets_app, forced_fetch_effects.
    destruct (socket && truthy roomId); reflexivity.
  - intros user. unfold on_player_joined.
    rewrite effectsOf_emit_then.
    change (countGets (?e :: ?l)) with (countGets ([e] ++ l)).
    rewrite countGets_app, forced_fetch_effects. reflexivity.
  - intros [u|]; unfold on_player_left.
    + rewrite effectsOf_emit_then.
      change (countGets (?e :: ?l)) with (countGets ([e] ++ l)).
      rewrite countGets_app, forced_fetch_effects. reflexivity.
    + rewrite effectsOf_ret_then. apply forced_fetch_effects.
  - intros data. unfold on_host_changed.
    destruct (String.eqb (newHostId data) (User._id currentUser)).
    + rewrite effectsOf_emit_then.
      change (countGets (?e :: ?l)) with (countGets ([e] ++ l)).
      rewrite countGets_app, forced_fetch_effects. reflexivity.
    + destruct (newHost data) as [h|].
      * rewrite effectsOf_when_emit_then, countGets_app, forced_fetch_effects.
        destruct (truthy (User.name h)); reflexivity.
      * rewrite effectsOf_ret_then. apply forced_fetch_effects.
  - unfold handleJoinRoom_resolved, setIsJoining.
    rewrite !effectsOf_emit_then.
    rewrite effectsOf_then_modify by apply forced_fetch_returns.
    change (countGets (?e1 :: ?e2 :: ?l)) with (countGets ([e1; e2] ++ l)).
    rewrite countGets_app, forced_fetch_effects. reflexivity.
  - unfold runTimer, effectsOf. unfold_monad. cbn -[fetchRoomDetails].
    pose proof (forced_fetch_effects roomId fetchCap
                  (withIsTransitioning false (withCanAnswer true st)) now)
      as H.
    unfold effectsOf in H.
    destruct (fetchRoomDetails roomId fetchCap true now
                (withIsTransitioning false (withCanAnswer true st)))
      as [[o s2] es].
    exact H.
Qed.

(** ** Merging responses *)

(** X11: merging the same response twice is the same as merging it once,
    and a response that carries an answers array and a [currentQuestion]
    key replaces the room wholesale, whatever the room was. *)
Theorem mergeRoom_idempotent_and_total (prev other : Room) (data : RoomData) :
  mergeRoom (mergeRoom prev data) data = mergeRoom prev data
  /\ (answers data <> None ->
      currentQuestion data <> None \/ omitsCurrentQuestion data = false ->
      mergeRoom prev data = fields data
      /\ mergeRoom prev data = mergeRoom other data).
Proof.
  split.
  - unfold mergeRoom. cbn.
    destruct (currentQuestion data), (omitsCurrentQuestion data),
      (answers data); reflexivity.
  - intros Ha Hq. unfold mergeRoom.
    destruct data as [[n s t h p mp mr cr cq a] omits]; cbn in *.
    destruct a; [|contradiction].
    destruct cq; [split; reflexivity|].
    destruct Hq as [Hq | ->]; [contradiction | split; reflexivity].
Qed.

Lemma mergeRoom_idempotent_and_total_witness :
  mergeRoom round1 (fullResponse round2) = round2.
Proof.
  refine (proj1 (proj2
    (mergeRoom_idempotent_and_total round1 lobby (fullResponse round2)) _ _)).
  - discriminate.
  - left. discriminate.
Defined.

(** X12: once a fetch has resolved with a body, the room view is on
    screen, showing the merged room, and it stays there through any number
    of later failed fetches: the skeleton, the error screen and the
    not-found screen need a missing room, even if a stale closure sets the
    error text. *)
Theorem loaded_room_stays_on_screen (currentUser : User.t)
    (cap st : State) (data : RoomData) (now : Z)
    (failures : list (State * Z)) :
  let loaded :=
    stateAfter (fetchRoomDetails_resolved currentUser cap (Some data) now)
               st in
  let later :=
    fold_left (fun s failure =>
                 stateAfter
                   (fetchRoomDetails_rejected (fst failure) (snd failure)) s)
              failures loaded in
  exists r,
    room loaded = Some r
    /\ screen loaded = RoomView r
    /\ screen later = RoomView r.
Proof.
  intros loaded later.
  assert (Hroom : exists r, room loaded = Some r).
  { subst loaded. rewrite room_after_resolved. eexists. reflexivity. }
  destruct Hroom as [r Hr]. exists r. split; [exact Hr|].
  split; [unfold screen; now rewrite Hr|].
  assert (Hkeep : forall fs s, room s = Some r ->
            room (fold_left
                    (fun s failure =>
                       stateAfter
                         (fetchRoomDetails_rejected (fst failure)
                                                    (snd failure)) s)
                    fs s) = Some r).
  { induction fs as [|f fs IH]; intros s Hs; cbn; [exact Hs|].
    apply IH. unfold stateAfter. rewrite fetchRoomDetails_rejected_run.
    cbn [fst snd]. destruct (room (fst f)); exact Hs. }
  unfold screen. subst later. now rewrite (Hkeep failures loaded Hr).
Qed.

(** ** Round transitions *)

Lemma question_disabled_in_transition (viewer : User.t) (s : State) :
  isTransitioning s = true -> question_disabled viewer s = true.
Proof.
  intros H. unfold question_disabled. rewrite H. apply orb_true_r.
Qed.

Lemma on_round_started_run (data : RoundStarted) (now : Z) (st : State)
    (r : Room) :
  room st = Some r ->
  on_round_started data now st
  = (Returned tt,
     withQuestionStartTime (Some now)
       (withRoom
          (Some (withCurrentQuestion (rs_currentQuestion data)
                   (withCurrentRound (rs_currentRound data) r)))
          (withCanAnswer false
             (withHasAnswered false
                (withRoundResults None (withIsTransitioning true st))))),
     [ToastInfo
        ("Round " ++ showZ (rs_currentRound data) ++ " started!")%string;
      SetTimeout FinishTransitionAndFetch 3000]).
Proof.
  intros Hr. unfold on_round_started, setRoomWith. unfold_monad.
  cbn. rewrite Hr. reflexivity.
Qed.

Lemma on_game_started_run (q : option Question.t) (now : Z) (st : State)
    (r : Room) :
  room st = Some r ->
  on_game_started q now st
  = (Returned tt,
     withRoom
       (Some (withCurrentQuestion q
                (withCurrentRound 1 (withStatus playing r))))
       (withQuestionStartTime (Some now)
          (withCanAnswer false
             (withRoundResults None
                (withHasAnswered false (withIsTransitioning true st))))),
     [ToastInfo "Game started!"; SetTimeout FinishTransitionAndFetch 3000]).
Proof.
  intros Hr. unfold on_game_started, setRoomWith. unfold_monad.
  cbn. rewrite Hr. reflexivity.
Qed.

(** X13: a game-started or round-started event on a loaded room installs
    the announced round and question, clears [hasAnswered] and the round
    summary, restarts the question clock, and disables the answer buttons
    for every viewer; exactly one 3-second timer is set, and when it fires
    the buttons are enabled again for the players in the room who have not
    answered. *)
Theorem push_transition_locks_answering (roomId : Id) (viewer : User.t)
    (st fetchCap : State) (r : Room) (now fired : Z) :
  room st = Some r ->
  (forall data,
      let started := stateAfter (on_round_started data now) st in
      let settled :=
        stateAfter (runTimer roomId started fetchCap FinishTransitionAndFetch
                             fired) started in
      room started
      = Some (withCurrentQuestion (rs_currentQuestion data)
                (withCurrentRound (rs_currentRound data) r))
      /\ (hasAnswered started, roundResults started, questionStartTime started)
         = (false, None, Some now)
      /\ question_disabled viewer started = true
      /\ showsReadingHint (hasAnswered started) (canAnswer started) = true
      /\ filter (fun e => match e with SetTimeout _ _ => true | _ => false end)
                (effectsOf (on_round_started data now) st)
         = [SetTimeout FinishTransitionAndFetch 3000]
      /\ question_disabled viewer settled = negb (isUserInRoom viewer started)
      /\ showsReadingHint (hasAnswered settled) (canAnswer settled) = false)
  /\ (forall q,
      let started := stateAfter (on_game_started q now) st in
      let settled :=
        stateAfter (runTimer roomId started fetchCap FinishTransitionAndFetch
                             fired) started in
      room started
      = Some (withCurrentQuestion q
                (withCurrentRound 1 (withStatus playing r)))
      /\ (hasAnswered started, roundResults started, questionStartTime started)
         = (false, None, Some now)
      /\ question_disabled viewer started = true
      /\ showsReadingHint (hasAnswered started) (canAnswer started) = true
      /\ filter (fun e => match e with SetTimeout _ _ => true | _ => false end)
                (effectsOf (on_game_started q now) st)
         = [SetTimeout FinishTransitionAndFetch 3000]
      /\ question_disabled viewer settled = negb (isUserInRoom viewer started)
      /\ showsReadingHint (hasAnswered settled) (canAnswer settled) = false).
Proof.
  intros Hr.
  assert (Hsettle : forall started,
    hasAnswered started = false ->
    let settled :=
      stateAfter (runTimer roomId started fetchCap FinishTransitionAndFetch
                           fired) started in
    question_disabled viewer settled = negb (isUserInRoom viewer started)
    /\ showsReadingHint (hasAnswered settled) (canAnswer settled) = false).
  { intros started Hha settled. subst settled.
    unfold runTimer, stateAfter. unfold_monad. cbn -[fetchRoomDetails].
    rewrite (fetchRoomDetails_run roomId fetchCap
               (withIsTransitioning false (withCanAnswer true started)) true
               fired (or_introl eq_refl)).
    cbn [fst snd].
    unfold question_disabled, isUserInRoom, showsReadingHint.
    destruct started, (room fetchCap); cbn in *; subst;
      rewrite ?orb_false_r; split; reflexivity. }
  split.
  - intros data started settled.
    assert (Hst : started
                  = withQuestionStartTime (Some now)
                      (withRoom
                         (Some (withCurrentQuestion (rs_currentQuestion data)
                                  (withCurrentRound (rs_currentRound data)
                                                    r)))
                         (withCanAnswer false
                            (withHasAnswered false
                               (withRoundResults None
                                  (withIsTransitioning true st)))))).
    { subst started. unfold stateAfter.
      now rewrite (on_round_started_run _ _ _ _ Hr). }
    split; [rewrite Hst; reflexivity|].
    split; [rewrite Hst; reflexivity|].
    split; [apply question_disabled_in_transition; rewrite Hst; reflexivity|].
    split; [rewrite Hst; reflexivity|].
    split.
    { unfold effectsOf. now rewrite (on_round_started_run _ _ _ _ Hr). }
    apply (Hsettle started). rewrite Hst. reflexivity.
  - intros q started settled.
    assert (Hst : started
                  = withRoom
                      (Some (withCurrentQuestion q
                               (withCurrentRound 1 (withStatus playing r))))
                      (withQuestionStartTime (Some now)
                         (withCanAnswer false
                            (withRoundResults None
                               (withHasAnswered false
                                  (withIsTransitioning true st)))))).
    { subst started. unfold stateAfter.
      now rewrite (on_game_started_run _ _ _ _ Hr). }
    split; [rewrite Hst; reflexivity|].
    split; [rewrite Hst; reflexivity|].
    split; [apply question_disabled_in_transition; rewrite Hst; reflexivity|].
    split; [rewrite Hst; reflexivity|].
    split.
    { unfold effectsOf. now rewrite (on_game_started_run _ _ _ _ Hr). }
    apply (Hsettle started). rewrite Hst. reflexivity.
Qed.

Lemma push_transition_locks_answering_witness :
  question_disabled bob
    (stateAfter (on_round_started (mkRoundStarted 2 (Some q2)) 9000)
                (showing (Some round1)))
  = true.
Proof.
  refine (proj1 (proj2 (proj2 (proj1
    (push_transition_locks_answering "r-1" bob (showing (Some round1))
       (showing (Some round1)) round1 9000 12000 _)
    (mkRoundStarted 2 (Some q2)))))).
  reflexivity.
Defined.

(** X14: the host's own start and the game-started event agree on the
    room they produce, so the echo of the host's start changes nothing in
    the room; unlike the event, the host's path does not touch
    [canAnswer], and it keeps the answer buttons disabled through the
    transition flag that [handleStartGame] raised. *)
Theorem start_paths_agree (roomId : Id) (host' : User.t) (st : State)
    (r : Room) (q : option Question.t) (now echoed : Z) :
  room st = Some r ->
  let started := withCurrentQuestion q
                   (withCurrentRound 1 (withStatus playing r)) in
  let byHost := stateAfter (handleStartGame_resolved roomId q now) st in
  let byEvent := stateAfter (on_game_started q now) st in
  room byHost = Some started
  /\ room byEvent = Some started
  /\ room (stateAfter (on_game_started q echoed) byHost) = Some started
  /\ canAnswer byHost = canAnswer st
  /\ canAnswer byEvent = false
  /\ (isUserHost host' st = true ->
      question_disabled host'
        (stateAfter (handleStartGame_resolved roomId q now)
           (stateAfter (handleStartGame roomId host' st) st)) = true).
Proof.
  intros Hr started byHost byEvent. subst started byHost byEvent.
  assert (Hhost : handleStartGame_resolved roomId q now st
                  = (Returned tt,
                     withQuestionStartTime (Some now)
                       (withRoundResults None
                          (withHasAnswered false
                             (withRoom
                                (Some (withCurrentQuestion q
                                         (withCurrentRound 1
                                            (withStatus playing r))))
                                st))),
                     [Socket (startGame roomId);
                      SetTimeout FinishTransition 3000])).
  { unfold handleStartGame_resolved, setRoomWith. unfold_monad. cbn.
    rewrite Hr. reflexivity. }
  unfold stateAfter. rewrite Hhost, (on_game_started_run _ _ _ _ Hr).
  cbn [fst snd].
  split; [reflexivity|]. split; [reflexivity|].
  split.
  { erewrite on_game_started_run by reflexivity. cbn [fst snd].
    destruct r; reflexivity. }
  split; [reflexivity|]. split; [reflexivity|].
  intros Hh. apply question_disabled_in_transition.
  unfold handleStartGame, handleStartGame_resolved, setRoomWith.
  rewrite Hh. unfold_monad. cbn. rewrite Hr. reflexivity.
Qed.

Lemma start_paths_agree_witness :
  room (stateAfter (on_game_started (Some q1) 1000) (showing (Some ready)))
  = Some (withCurrentQuestion (Some q1)
            (withCurrentRound 1 (withStatus playing ready))).
Proof.
  refine (proj1 (proj2
    (start_paths_agree "r-1" alice (showing (Some ready)) ready (Some q1)
       1000 1200 _))).
  reflexivity.
Defined.

(** ** Host actions *)

(** X15: the host-only actions and leaving are checked before anything is
    sent.  A user who is not the host cannot start the game or advance the
    round: both handlers show an error toast, send nothing and leave every
    state variable as it was; such a user leaves the room without being
    asked.  The host is asked to confirm: declining sends nothing, and
    confirming sends the one leave request.  None of the leave paths
    touches the component state. *)
Theorem actions_guarded_before_sending (roomId : Id) (user : User.t)
    (cap st : State) :
  (isUserHost user cap = false ->
   handleStartGame roomId user cap st
   = (Returned tt, st, [ToastError "Only the host can start the game"])
   /\ handleNextRound roomId user cap st
      = (Returned tt, st,
         [ToastError "Only the host can advance to the next round"])
   /\ (forall confirmLeave,
       handleLeaveRoom roomId user cap confirmLeave st
       = (Returned tt, st,
          [ApiPost (roomPath roomId "/leave") (UserBody (User._id user))])))
  /\ (isUserHost user cap = true ->
      handleLeaveRoom roomId user cap false st = (Returned tt, st, [])
      /\ handleLeaveRoom roomId user cap true st
         = (Returned tt, st,
            [ApiPost (roomPath roomId "/leave") (UserBody (User._id user))])
      /\ handleStartGame roomId user cap st
         = (Returned tt, withIsTransitioning true st,
            [ApiPost (roomPath roomId "/start") (UserBody (User._id user))])).
Proof.
  split; intros H.
  - unfold handleStartGame, handleNextRound, handleLeaveRoom. rewrite H.
    repeat split.
  - unfold handleStartGame, handleLeaveRoom. rewrite H. repeat split.
Qed.

Lemma handleNextRound_run (roomId : Id) (host' : User.t) (st : State)
    (r : Room) :
  isUserHost host' st = true ->
  room st = Some r ->
  handleNextRound roomId host' st st
  = (Returned tt,
     withRoom
       (Some (withCurrentRound
                (if maxRounds r <=? currentRound r then maxRounds r
                 else currentRound r + 1) r))
       (withHasAnswered false
          (withRoundResults None (withIsTransitioning true st))),
     [ApiPost (roomPath roomId "/next-round") (UserBody (User._id host'))]).
Proof.
  intros Hh Hr. unfold handleNextRound, setRoomWith. rewrite Hh, Hr.
  unfold_monad. cbn. rewrite Hr. reflexivity.
Qed.

(** X16: when the host advances, the room's round is bumped at once to
    [min (currentRound + 1) maxRounds], so never past the last round, and
    one request is sent.  If that request fails, only the transition flag
    is taken back: the bumped round stays in the room, and the summary and
    [hasAnswered] stay cleared. *)
Theorem next_round_bump_is_bounded_and_kept (roomId : Id) (host' : User.t)
    (st : State) (r : Room) (message : option string) :
  isUserHost host' st = true ->
  room st = Some r ->
  let advancing := stateAfter (handleNextRound roomId host' st) st in
  let failed := stateAfter (handleNextRound_rejected message) advancing in
  let bumped := Z.min (currentRound r + 1) (maxRounds r) in
  room advancing = Some (withCurrentRound bumped r)
  /\ bumped <= maxRounds r
  /\ (currentRound r < maxRounds r -> bumped = currentRound r + 1)
  /\ isTransitioning advancing = true
  /\ effectsOf (handleNextRound roomId host' st) st
     = [ApiPost (roomPath roomId "/next-round") (UserBody (User._id host'))]
  /\ isTransitioning failed = false
  /\ room failed = Some (withCurrentRound bumped r)
  /\ roundResults failed = None
  /\ hasAnswered failed = false.
Proof.
  intros Hh Hr advancing failed bumped. subst advancing failed.
  unfold stateAfter, effectsOf.
  rewrite (handleNextRound_run roomId host' st r Hh Hr). cbn [fst snd].
  assert (Hb : (if maxRounds r <=? currentRound r then maxRounds r
                else currentRound r + 1) = bumped).
  { subst bumped. destruct (Z.leb_spec (maxRounds r) (currentRound r)); lia. }
  rewrite Hb.
  split; [reflexivity|]. split; [subst bumped; lia|].
  split; [subst bumped; lia|]. repeat split.
Qed.

Lemma next_round_bump_is_bounded_and_kept_witness :
  room (stateAfter (handleNextRound_rejected None)
          (stateAfter
             (handleNextRound "r-1" alice (showing (Some round1)))
             (showing (Some round1))))
  = Some (withCurrentRound (Z.min (currentRound round1 + 1)
                                  (maxRounds round1)) round1).
Proof.
  refine (proj1 (proj2 (proj2 (proj2 (proj2 (proj2 (proj2
    (next_round_bump_is_bounded_and_kept "r-1" alice (showing (Some round1))
       round1 None _ _)))))))); reflexivity.
Defined.

Lemma countFor_filter_round (l : list Answer.t) (dropped : Z) (q : Id)
    (r : Z) :
  countFor (filter (fun a => negb (Z.eqb (Answer.round a) dropped)) l) q r
  = if Z.eqb r dropped then 0%nat else countFor l q r.
Proof.
  unfold countFor. induction l as [|a l IH]; cbn.
  - destruct (r =? dropped); reflexivity.
  - unfold forQuestion at 2.
    destruct (Z.eqb_spec (Answer.round a) dropped) as [Ha|Ha]; cbn.
    + rewrite IH. destruct (Z.eqb_spec r dropped) as [Hr|Hr]; [reflexivity|].
      destruct (Z.eqb_spec (Answer.round a) r); [lia|].
      now rewrite andb_false_r.
    + unfold forQuestion at 1.
      destruct (Answer.question a =? q)%string; cbn; [|exact IH].
      destruct (Z.eqb_spec (Answer.round a) r) as [Har|Har]; cbn;
        [|exact IH].
      rewrite IH. destruct (Z.eqb_spec r dropped); [lia | reflexivity].
Qed.

(** X17: when the next-round request resolves with a game that goes on,
    the room takes the round, question and status of the response, and the
    answers kept are exactly those of other rounds: nothing is counted for
    the new round, whatever the question, so the progress bar restarts at
    zero, while the counts of every other round are unchanged.  When the
    response says the game is completed, the room is not touched and the
    leaderboard is scheduled. *)
Theorem next_round_starts_uncounted (roomId : Id) (st : State) (r : Room)
    (data : NextRoundData) (now : Z) :
  room st = Some r ->
  let resolved := handleNextRound_resolved roomId (Some data) now in
  (nr_status data <> completed ->
   exists next,
     room (stateAfter resolved st) = Some next
     /\ currentRound next = nr_currentRound data
     /\ currentQuestion next = nr_currentQuestion data
     /\ status next = nr_status data
     /\ players next = players r
     /\ answerCount next = 0%nat
     /\ (forall q, countFor (answerList next) q (nr_currentRound data)
                   = 0%nat)
     /\ (forall q round,
         round <> nr_currentRound data ->
         countFor (answerList next) q round = countFor (answerList r) q round)
     /\ questionStartTime (stateAfter resolved st) = Some now)
  /\ (nr_status data = completed ->
      stateAfter resolved st = st
      /\ effectsOf resolved st
         = [Socket (nextRound roomId); ToastSuccess "Game completed!";
            SetTimeout GoToLeaderboard 1000]).
Proof.
  intros Hr resolved. subst resolved. split.
  - intros Hgo.
    assert (Hs : Status_eqb (nr_status data) completed = false).
    { destruct (nr_status data); try reflexivity. contradiction. }
    eexists. split.
    { unfold handleNextRound_resolved, stateAfter, setRoomWith.
      rewrite Hs. unfold_monad. cbn. rewrite Hr. cbn. reflexivity. }
    cbn [currentRound currentQuestion status players withAnswers withStatus
         withCurrentQuestion withCurrentRound].
    split; [reflexivity|]. split; [reflexivity|]. split; [reflexivity|].
    split; [reflexivity|].
    assert (Hl : forall q round,
              countFor
                (match answers r with
                 | Some l =>
                     filter (fun a => negb (Answer.round a
                                            =? nr_currentRound data)) l
                 | None => []
                 end) q round
              = if round =? nr_currentRound data then 0%nat
                else countFor (answerList r) q round).
    { intros q round. unfold answerList. destruct (answers r) as [l|].
      - apply countFor_filter_round.
      - cbn. destruct (round =? nr_currentRound data); reflexivity. }
    split.
    { unfold answerCount.
      cbn [answers currentQuestion currentRound withAnswers withStatus
           withCurrentQuestion withCurrentRound].
      destruct (nr_currentQuestion data); [|reflexivity].
      rewrite Hl, Z.eqb_refl. reflexivity. }
    split.
    { intros q. unfold answerList at 1. cbn [answers withAnswers].
      rewrite Hl, Z.eqb_refl. reflexivity. }
    split.
    { intros q round Hne. unfold answerList at 1. cbn [answers withAnswers].
      rewrite Hl. destruct (Z.eqb_spec round (nr_currentRound data));
        [contradiction | reflexivity]. }
    unfold handleNextRound_resolved, stateAfter, setRoomWith.
    rewrite Hs. unfold_monad. cbn. rewrite Hr. reflexivity.
  - intros Hdone. unfold handleNextRound_resolved, stateAfter, effectsOf.
    rewrite Hdone. cbn. split; reflexivity.
Qed.

Lemma next_round_starts_uncounted_witness :
  exists next,
    room (stateAfter
            (handleNextRound_resolved "r-1"
               (Some (mkNextRoundData playing 2 (Some q2))) 9000)
            (showing (Some (withAnswers (Some [aliceYes; bobYes]) round1))))
    = Some next
    /\ answerCount next = 0%nat.
Proof.
  destruct (proj1
    (next_round_starts_uncounted "r-1"
       (showing (Some (withAnswers (Some [aliceYes; bobYes]) round1)))
       (withAnswers (Some [aliceYes; bobYes]) round1)
       (mkNextRoundData playing 2 (Some q2)) 9000 eq_refl))
    as [next (H1 & _ & _ & _ & _ & H2 & _)].
  - discriminate.
  - exists next. split; assumption.
Defined.

(** ** Submitting an answer, continued *)

Lemma elapsedSeconds_lt (now : Z) (startTime : option Z) (seconds : Z) :
  (elapsedSeconds now startTime < inject_Z seconds)%Q
  <-> now - match startTime with Some t => t | None => 0 end
      < 1000 * seconds.
Proof.
  unfold elapsedSeconds, Qlt, inject_Z. cbn [Qnum Qden].
  destruct startTime; lia.
Qed.

Lemma elapsedSeconds_le (now : Z) (startTime : option Z) (seconds : Z) :
  (elapsedSeconds now startTime <= inject_Z seconds)%Q
  <-> now - match startTime with Some t => t | None => 0 end
      <= 1000 * seconds.
Proof.
  unfold elapsedSeconds, Qle, inject_Z. cbn [Qnum Qden].
  destruct startTime; lia.
Qed.

(** The cascade of [handleAnswer] on the millisecond clock it reads. *)
Lemma tier_by_milliseconds (now : Z) (startTime : option Z) :
  let ms := now - match startTime with Some t => t | None => 0 end in
  tier (elapsedSeconds now startTime)
  = if ms <? 3000 then TooQuickly
    else if ms <=? 5000 then SpeedBonus3
    else if ms <=? 15000 then SpeedBonus1
    else TooSlowly.
Proof.
  intros ms.
  pose proof (elapsedSeconds_lt now startTime 3) as L3.
  pose proof (elapsedSeconds_le now startTime 5) as L5.
  pose proof (elapsedSeconds_le now startTime 15) as L15.
  fold ms in L3, L5, L15.
  change (inject_Z 3) with (3#1) in L3.
  change (inject_Z 5) with (5#1) in L5.
  change (inject_Z 15) with (15#1) in L15.
  destruct (tier_cases (elapsedSeconds now startTime))
    as [[-> H] | [[-> [H1 H2]] | [[-> [H1 H2]] | [-> H]]]].
  - apply L3 in H.
    destruct (Z.ltb_spec ms 3000); [reflexivity | lia].
  - apply Qle_not_lt in H1. apply L5 in H2.
    destruct (Z.ltb_spec ms 3000) as [Hlt|_];
      [exfalso; apply H1, L3; lia|].
    destruct (Z.leb_spec ms 5000); [reflexivity | lia].
  - apply Qlt_not_le in H1. apply L15 in H2.
    destruct (Z.ltb_spec ms 3000) as [Hlt|_]; [exfalso; apply H1, L5; lia|].
    destruct (Z.leb_spec ms 5000) as [Hle|_]; [exfalso; apply H1, L5; lia|].
    destruct (Z.leb_spec ms 15000); [reflexivity | lia].
  - apply Qlt_not_le in H.
    destruct (Z.ltb_spec ms 3000) as [Hlt|_]; [exfalso; apply H, L15; lia|].
    destruct (Z.leb_spec ms 5000) as [Hle|_]; [exfalso; apply H, L15; lia|].
    destruct (Z.leb_spec ms 15000) as [Hle|_]; [exfalso; apply H, L15; lia|].
    reflexivity.
Qed.

(** The four feedback toasts of [handleAnswer], by elapsed seconds. *)
Lemma tierToast_cases (e : Q) :
  ((e < 3)%Q
   /\ tierToast (tier e) = ToastInfo "Base points only - answered too quickly!")
  \/ ((3 <= e)%Q /\ (e <= 5)%Q
      /\ tierToast (tier e) = ToastSuccess "Speed bonus: +3 points!")
  \/ ((5 < e)%Q /\ (e <= 15)%Q
      /\ tierToast (tier e) = ToastSuccess "Speed bonus: +1 point!")
  \/ ((15 < e)%Q
      /\ tierToast (tier e)
         = ToastInfo "Base points only - answered too slowly").
Proof.
  destruct (tier_cases e)
    as [[-> H] | [[-> [H1 H2]] | [[-> [H1 H2]] | [-> H]]]]; cbn [tierToast];
    auto 10.
Qed.

(** X18: the time computed on submission is the one value that goes into
    the POST body, the socket message and the fact appended to the room on
    success, keyed by the current user and the live room's question and
    round.  The toast that follows the socket message is read off the
    millisecond clock: "Base points only - answered too quickly!" below
    3000 ms since the question clock started, "Speed bonus: +3 points!"
    from 3000 to 5000 ms, "Speed bonus: +1 point!" above 5000 and up to
    15000 ms, "Base points only - answered too slowly" after that; so the
    too-quickly toast is shown exactly when fewer than 3000 ms passed. *)
Theorem own_answer_time_is_consistent (roomId : Id) (user : User.t)
    (cap st live : State) (shown r : Room) (q : Question.t) (answer : bool)
    (now : Z) :
  room cap = Some shown ->
  room live = Some r ->
  currentQuestion r = Some q ->
  let timeToAnswer := elapsedSeconds now (questionStartTime cap) in
  let started :=
    match questionStartTime cap with Some t => t | None => 0 end in
  let sent := Socket (submitAnswer roomId (User._id user) answer timeToAnswer) in
  let feedback :=
    effectsOf (handleAnswer_resolved roomId user cap answer now) live in
  effectsOf (handleAnswer roomId user cap answer now) st
  = [ApiPost (roomPath roomId "/answers")
       (AnswerBody (User._id user) answer timeToAnswer)]
  /\ room (stateAfter (handleAnswer_resolved roomId user cap answer now) live)
     = Some (withAnswers
               (Some (answerList r
                      ++ [Answer.mk (User._id user) (Question._id q)
                                    (currentRound r) answer
                                    (Some timeToAnswer)]))
               r)
  /\ (timeToAnswer * 1000 == inject_Z (now - started))%Q
  /\ (now - started < 3000 ->
      feedback
      = [sent; ToastInfo "Base points only - answered too quickly!"])
  /\ (3000 <= now - started <= 5000 ->
      feedback = [sent; ToastSuccess "Speed bonus: +3 points!"])
  /\ (5000 < now - started <= 15000 ->
      feedback = [sent; ToastSuccess "Speed bonus: +1 point!"])
  /\ (15000 < now - started ->
      feedback = [sent; ToastInfo "Base points only - answered too slowly"])
  /\ (In (ToastInfo "Base points only - answered too quickly!") feedback
      <-> now - started < 3000).
Proof.
  intros Hcap Hlive Hq timeToAnswer started sent feedback.
  assert (Hfb : feedback
                = [sent;
                   tierToast
                     (if now - started <? 3000 then TooQuickly
                      else if now - started <=? 5000 then SpeedBonus3
                      else if now - started <=? 15000 then SpeedBonus1
                      else TooSlowly)]).
  { subst feedback sent timeToAnswer started.
    rewrite <- tier_by_milliseconds.
    exact (handleAnswer_feedback roomId user cap live answer now r q
             Hlive Hq). }
  split; [reflexivity|].
  split.
  { unfold handleAnswer_resolved, stateAfter, bind, emit, when.
    rewrite Hcap. cbn. unfold setRoomWith, recordOwnAnswer.
    rewrite Hlive, Hq. cbn. unfold answerList. reflexivity. }
  split.
  { subst timeToAnswer started. unfold elapsedSeconds, Qeq, inject_Z. cbn.
    lia. }
  rewrite Hfb.
  destruct (Z.ltb_spec (now - started) 3000) as [L3|L3];
    [|destruct (Z.leb_spec (now - started) 5000) as [L5|L5];
      [|destruct (Z.leb_spec (now - started) 15000) as [L15|L15]]];
    cbn [tierToast];
    (repeat split; try (intros; first [reflexivity | lia]));
    try (left + (right; left); reflexivity);
    intros [Hin | [Hin | []]]; discriminate Hin.
Qed.

Lemma own_answer_time_is_consistent_witness :
  effectsOf (handleAnswer_resolved "r-1" bob (showing (Some round1)) true 4000)
            (showing (Some round1))
  = [Socket (submitAnswer "r-1" "u-bob" true
               (elapsedSeconds 4000 (Some 0)));
     ToastSuccess "Speed bonus: +3 points!"].
Proof.
  refine (proj1 (proj2 (proj2 (proj2 (proj2
    (own_answer_time_is_consistent "r-1" bob (showing (Some round1))
       (showing (Some round1)) (showing (Some round1)) round1 round1 q1 true
       4000 _ _ _))))) _); [reflexivity | reflexivity | reflexivity | ].
  cbn. lia.
Defined.

(** X19: from 3 seconds on the submission feedback is one of three toasts,
    "Speed bonus: +3 points!", "Speed bonus: +1 point!" or "Base points
    only - answered too slowly", announcing 3, 1 and 0 points, and what it
    announces never improves with the elapsed time: a later submission
    gets the +3 toast only if the earlier one did, and after the
    too-slowly toast there is only the too-slowly toast. *)
Theorem bonus_never_grows_with_time (earlier later : Q) :
  (3 <= earlier)%Q -> (earlier <= later)%Q ->
  let first := tierToast (tier earlier) in
  let second := tierToast (tier later) in
  ((second = ToastSuccess "Speed bonus: +3 points!"
    /\ bonus (tier later) = 3)
   \/ (second = ToastSuccess "Speed bonus: +1 point!"
       /\ bonus (tier later) = 1)
   \/ (second = ToastInfo "Base points only - answered too slowly"
       /\ bonus (tier later) = 0))
  /\ (second = ToastSuccess "Speed bonus: +3 points!" ->
      first = ToastSuccess "Speed bonus: +3 points!")
  /\ (first = ToastSuccess "Speed bonus: +1 point!" ->
      second = ToastSuccess "Speed bonus: +1 point!"
      \/ second = ToastInfo "Base points only - answered too slowly")
  /\ (first = ToastInfo "Base points only - answered too slowly" ->
      second = ToastInfo "Base points only - answered too slowly")
  /\ bonus (tier later) <= bonus (tier earlier).
Proof.
  intros H3 Hle first second. subst first second.
  destruct (tier_cases earlier)
    as [[-> ?] | [[-> [? ?]] | [[-> [? ?]] | [-> ?]]]];
    destruct (tier_cases later)
      as [[-> ?] | [[-> [? ?]] | [[-> [? ?]] | [-> ?]]]];
    try (exfalso; lra); cbn [tierToast bonus];
    (split; [auto 10|]);
    (split; [intros E; first [reflexivity | discriminate E]|]);
    (split; [intros E; first [discriminate E | auto]|]);
    (split; [intros E; first [reflexivity | discriminate E]|]);
    lia.
Qed.

Lemma bonus_never_grows_with_time_witness :
  tierToast (tier (4#1)) = ToastSuccess "Speed bonus: +3 points!".
Proof.
  refine (proj1 (proj2 (bonus_never_grows_with_time (4#1) (5#1) _ _)) _);
    [discriminate | discriminate | reflexivity].
Defined.

(** ** The polling schedule, continued *)

Lemma fetch_at_most_one_get (roomId : Id) (cap st : State) (force : bool)
    (now : Z) :
  (countGets (effectsOf (fetchRoomDetails roomId cap force now) st) <= 1)%nat.
Proof.
  destruct force.
  - rewrite forced_fetch_effects. lia.
  - destruct (fetchInProgressRef st) eqn:Hin.
    { rewrite skipped_fetch_effects by auto. lia. }
    destruct (isTransitioning cap) eqn:Ht.
    { rewrite skipped_fetch_effects by auto. lia. }
    destruct (Z.lt_ge_cases (now - lastUpdated cap) 3000).
    { rewrite skipped_fetch_effects by auto. lia. }
    unfold effectsOf.
    rewrite (fetchRoomDetails_run roomId cap st false now) by auto.
    cbn [snd]. rewrite countGets_app.
    destruct (fetchTimeoutRef st); cbn; lia.
Qed.

(** X20: a tick of the polling interval sends at most one GET; it sends
    none while the closure is refreshing or in a transition, and none
    until the time since the last finished fetch exceeds 0.8 of the base
    interval, that is 12 s for a playing room and 24 s otherwise. *)
Theorem polling_tick_is_quiet_early (roomId : Id) (cap fetchCap live : State)
    (now : Z) (random : Q) :
  (0 <= random)%Q -> (random < 1)%Q ->
  (countGets (effectsOf (pollingTick roomId cap fetchCap now random) live)
   <= 1)%nat
  /\ (isRefreshing cap = true \/ isTransitioning cap = true ->
      pollingTick roomId cap fetchCap now random live = (Returned tt, live, []))
  /\ (0 <= now - lastPollingUpdate cap ->
      10 * (now - lastPollingUpdate cap) <= 8 * baseInterval (room cap) ->
      pollingTick roomId cap fetchCap now random live = (Returned tt, live, []))
  /\ (baseInterval (room cap) = 15000
      <-> exists r, room cap = Some r /\ status r = playing).
Proof.
  intros H0 H1. split; [|split; [|split]].
  - unfold pollingTick.
    destruct (negb (isRefreshing cap) && negb (isTransitioning cap));
      cbn [when]; [|cbn; lia].
    destruct (Qltb _ _); cbn [when]; [|cbn; lia].
    rewrite effectsOf_emit_then.
    change (countGets (?e :: ?l)) with (countGets ([e] ++ l)).
    rewrite countGets_app.
    pose proof (fetch_at_most_one_get roomId fetchCap live false now).
    cbn. lia.
  - intros Hbusy. unfold pollingTick.
    destruct Hbusy as [-> | ->]; cbn; [reflexivity|].
    rewrite andb_false_r. reflexivity.
  - intros Hpos Hsoon. unfold pollingTick.
    assert (Hq : Qltb (nextInterval (room cap) (now - lastPollingUpdate cap)
                         random)
                      (inject_Z (now - lastPollingUpdate cap)) = false).
    { apply Qltb_ge.
      apply Qle_trans
        with (y := ((8#10) * inject_Z (baseInterval (room cap)))%Q).
      - destruct (baseInterval_cases (room cap)) as [Hb | Hb];
          rewrite Hb in *.
        + apply Qle_trans with (y := inject_Z 12000);
            [rewrite <- Zle_Qle; lia | discriminate].
        + apply Qle_trans with (y := inject_Z 24000);
            [rewrite <- Zle_Qle; lia | discriminate].
      - apply nextInterval_lower; assumption. }
    rewrite Hq. unfold when, ret.
    destruct (negb (isRefreshing cap) && negb (isTransitioning cap));
      reflexivity.
  - unfold baseInterval. split.
    + destruct (room cap) as [r|]; [|discriminate].
      destruct (Status_eqb (status r) playing) eqn:E; [|discriminate].
      intros _. exists r. split; [reflexivity|]. now apply Status_eqb_eq.
    + intros [r [-> Hs]]. rewrite Hs. reflexivity.
Qed.

Lemma polling_tick_is_quiet_early_witness :
  pollingTick "r-1" (showing (Some lobby)) (showing (Some lobby)) 24000
    (1#2) (showing (Some lobby))
  = (Returned tt, showing (Some lobby), []).
Proof.
  refine (proj1 (proj2 (proj2
    (polling_tick_is_quiet_early "r-1" (showing (Some lobby))
       (showing (Some lobby)) (showing (Some lobby)) 24000 (1#2) _ _))) _ _);
    first [reflexivity | vm_compute; discriminate].
Defined.

(** X21: there is never more than one scheduled fetch: scheduling again
    clears the pending timer first, and any call of [fetchRoomDetails],
    forced or not, sent or skipped, clears the pending timer and forgets
    it, so a skipped call still cancels the scheduled fetch. *)
Theorem scheduled_fetch_is_unique_and_cancelled (roomId : Id) (st : State)
    (delay : Z) :
  let scheduled := stateAfter (scheduleNextFetch delay) st in
  fetchTimeoutRef scheduled = true
  /\ effectsOf (scheduleNextFetch delay) st
     = (if fetchTimeoutRef st then [ClearTimeout] else [])
       ++ [SetTimeout ScheduledFetch delay]
  /\ (forall again,
      effectsOf (scheduleNextFetch again) scheduled
      = [ClearTimeout; SetTimeout ScheduledFetch again])
  /\ (forall cap force now,
      fetchTimeoutRef
        (stateAfter (fetchRoomDetails roomId cap force now) scheduled)
      = false
      /\ exists rest,
           effectsOf (fetchRoomDetails roomId cap force now) scheduled
           = ClearTimeout :: rest).
Proof.
  intros scheduled.
  assert (Hs : scheduled = withFetchTimeoutRef true st).
  { subst scheduled. unfold scheduleNextFetch, stateAfter. unfold_monad.
    destruct st as [a b c d e f g h i j k l m n pending o'].
    destruct pending; reflexivity. }
  split; [rewrite Hs; destruct st; reflexivity|].
  split.
  { unfold scheduleNextFetch, effectsOf. unfold_monad.
    destruct st as [a b c d e f g h i j k l m n pending o'].
    destruct pending; reflexivity. }
  split.
  { intros again. rewrite Hs. unfold scheduleNextFetch, effectsOf.
    unfold_monad. destruct st; reflexivity. }
  intros cap force now. rewrite Hs.
  unfold fetchRoomDetails, stateAfter, effectsOf. unfold_monad.
  destruct st as [a b c d e f g h i j k l m n pending inProgress]. cbn.
  destruct inProgress, force, (isTransitioning cap),
    (now - lastUpdated cap <? 3000), (room cap); cbn;
    (split; [reflexivity | eexists; reflexivity]).
Qed.

(** ** The player list *)

Section PlayerOrder.

Variable host : User.t.
Variable currentUser : option User.t.

Let cmp := comparePlayers host currentUser.
Let key := sortKey host currentUser.

Lemma comparePlayers_key (a b : Row) :
  cmp a b <= 0 <-> keyLe (key a) (key b).
Proof.
  unfold cmp, key, comparePlayers, sortKey, keyLe.
  destruct (String.eqb (rowId a) (User._id host)),
    (String.eqb (rowId b) (User._id host)),
    (isCurrentUser currentUser a), (isCurrentUser currentUser b);
    cbn; lia.
Qed.

Lemma keyLe_total (k1 k2 : Z * Z) : keyLe k1 k2 \/ keyLe k2 k1.
Proof. unfold keyLe. lia. Qed.

Lemma keyLe_trans (k1 k2 k3 : Z * Z) :
  keyLe k1 k2 -> keyLe k2 k3 -> keyLe k1 k3.
Proof. unfold keyLe. lia. Qed.

Lemma insertRow_perm (x : Row) (l : list Row) :
  Permutation (insertRow cmp x l) (x :: l).
Proof.
  induction l as [|y rest IH]; cbn; [reflexivity|].
  destruct (cmp x y <=? 0); [reflexivity|].
  rewrite IH. apply perm_swap.
Qed.

Lemma sortRows_perm (l : list Row) : Permutation (sortRows cmp l) l.
Proof.
  induction l as [|x rest IH]; cbn; [reflexivity|].
  rewrite insertRow_perm. now constructor.
Qed.

Lemma insertRow_sorted (x : Row) (l : list Row) :
  StronglySorted (fun a b => cmp a b <= 0) l ->
  StronglySorted (fun a b => cmp a b <= 0) (insertRow cmp x l).
Proof.
  induction l as [|y rest IH]; intros Hs; cbn.
  - constructor; constructor.
  - inversion Hs as [|? ? Hrest Hy]; subst.
    destruct (Z.leb_spec (cmp x y) 0) as [Hxy|Hxy].
    + constructor; [exact Hs|]. constructor; [exact Hxy|].
      eapply Forall_impl; [|exact Hy]. intros z Hyz.
      apply comparePlayers_key. apply comparePlayers_key in Hxy, Hyz.
      eapply keyLe_trans; eassumption.
    + constructor; [now apply IH|].
      eapply Permutation_Forall; [symmetry; apply insertRow_perm|].
      constructor; [|exact Hy].
      apply comparePlayers_key.
      destruct (keyLe_total (key y) (key x)) as [H|H]; [exact H|].
      apply comparePlayers_key in H. fold cmp in H. lia.
Qed.

Lemma sortRows_sorted (l : list Row) :
  StronglySorted (fun a b => cmp a b <= 0) (sortRows cmp l).
Proof.
  induction l as [|x rest IH]; cbn; [constructor|].
  now apply insertRow_sorted.
Qed.

(** With distinct ids the comparator is consistent: swapping the arguments
    flips the sign. *)
Lemma comparePlayers_antisymmetric (a b : Row) :
  rowId a <> rowId b ->
  (cmp a b < 0 <-> 0 < cmp b a) /\ (cmp a b = 0 <-> cmp b a = 0).
Proof.
  intros Hne. unfold cmp, comparePlayers, isCurrentUser.
  destruct (String.eqb_spec (rowId a) (User._id host)) as [Ha|Ha],
    (String.eqb_spec (rowId b) (User._id host)) as [Hb|Hb];
    try (exfalso; congruence); try lia.
  destruct currentUser as [u|]; [|lia].
  destruct (String.eqb_spec (rowId a) (User._id u)) as [Ca|Ca],
    (String.eqb_spec (rowId b) (User._id u)) as [Cb|Cb];
    try (exfalso; congruence); lia.
Qed.

End PlayerOrder.

(** X22: for players with distinct ids, the comparator of PlayerList is
    consistent (swapping two different rows flips the sign of the result),
    and the list that is shown is a rearrangement of the rows it was given
    in which every row compares as not-after every later row: the host's
    row, then the current user's, then the others by points from high to
    low.  Every player of the room appears in it exactly once. *)
Theorem sortedPlayers_is_ordered_rearrangement (host : User.t)
    (currentUser : option User.t) (rows : list Row) (r : Room) :
  NoDup (map rowId rows) ->
  (forall a b, In a rows -> In b rows -> a <> b ->
      (comparePlayers host currentUser a b < 0
       <-> 0 < comparePlayers host currentUser b a)
      /\ (comparePlayers host currentUser a b = 0
          <-> comparePlayers host currentUser b a = 0))
  /\ Permutation (sortedPlayers host currentUser rows) rows
  /\ StronglySorted (fun a b => comparePlayers host currentUser a b <= 0)
                    (sortedPlayers host currentUser rows)
  /\ StronglySorted (fun a b => keyLe (sortKey host currentUser a)
                                      (sortKey host currentUser b))
                    (sortedPlayers host currentUser rows)
  /\ List.length (sortedPlayers host currentUser rows) = List.length rows
  /\ (rows = playerRows r ->
      Permutation (map fst (sortedPlayers host currentUser rows))
                  (players r)).
Proof.
  intros Hnd. unfold sortedPlayers.
  pose proof (sortRows_perm host currentUser rows) as Hp.
  pose proof (sortRows_sorted host currentUser rows) as Hs.
  split.
  { intros a b Ha Hb Hab. apply comparePlayers_antisymmetric.
    intros Hid. apply Hab. clear - Hnd Ha Hb Hid.
    induction rows as [|x rest IH]; [contradiction|].
    cbn in Hnd. inversion Hnd as [|? ? Hx Hrest]; subst.
    destruct Ha as [-> | Ha], Hb as [-> | Hb]; [reflexivity | | |now apply IH].
    - exfalso. apply Hx. rewrite Hid. now apply in_map.
    - exfalso. apply Hx. rewrite <- Hid. now apply in_map. }
  split; [exact Hp|]. split; [exact Hs|]. split.
  - eapply StronglySorted_ind
      with (P := StronglySorted
                   (fun a b => keyLe (sortKey host currentUser a)
                                     (sortKey host currentUser b)));
      [constructor | | exact Hs].
    intros a l _ IH Hall. constructor; [exact IH|].
    eapply Forall_impl; [|exact Hall].
    intros b Hab. now apply comparePlayers_key.
  - split; [now apply Permutation_length|].
    intros ->. rewrite Hp. unfold playerRows. rewrite map_map. cbn.
    now rewrite map_id.
Qed.

Lemma sortedPlayers_is_ordered_rearrangement_witness :
  Permutation
    (sortedPlayers alice (Some bob) (playerRows round1))
    (playerRows round1).
Proof.
  refine (proj1 (proj2
    (sortedPlayers_is_ordered_rearrangement alice (Some bob)
       (playerRows round1) round1 _))).
  repeat constructor; cbn; intuition discriminate.
Defined.

Lemma sorted_head_is_host (host : User.t) (currentUser : option User.t)
    (out : list Row) (h : Row) :
  StronglySorted (fun a b => comparePlayers host currentUser a b <= 0) out ->
  In h out -> rowId h = User._id host ->
  exists first rest, out = first :: rest /\ rowId first = User._id host.
Proof.
  intros Hs Hin Hh. destruct out as [|x rest]; [contradiction|].
  exists x, rest. split; [reflexivity|].
  destruct (String.eqb_spec (rowId x) (User._id host)) as [Hx|Hx];
    [exact Hx|].
  destruct Hin as [-> | Hin]; [contradiction|].
  inversion Hs as [|? ? _ Hall]; subst.
  rewrite Forall_forall in Hall. specialize (Hall h Hin).
  unfold comparePlayers in Hall.
  destruct (String.eqb_spec (rowId x) (User._id host)); [contradiction|].
  destruct (String.eqb_spec (rowId h) (User._id host)); [lia|contradiction].
Qed.

(** X23: for players with distinct ids, if the host is among them the
    host's row comes first, and the current user's row, when the current
    user is listed and is not the host, comes right after it; without a
    host row the current user's row comes first. *)
Theorem host_then_current_user_lead (host : User.t) (me : User.t)
    (rows : list Row) (mine : Row) :
  NoDup (map rowId rows) ->
  In mine rows -> rowId mine = User._id me ->
  User._id me <> User._id host ->
  let out := sortedPlayers host (Some me) rows in
  (forall h, In h rows -> rowId h = User._id host ->
             exists rest, out = h :: mine :: rest)
  /\ ((forall h, In h rows -> rowId h <> User._id host) ->
      exists rest, out = mine :: rest).
Proof.
  intros Hnd Hmine Hid Hne out.
  pose proof (sortRows_perm host (Some me) rows) as Hp.
  pose proof (sortRows_sorted host (Some me) rows) as Hs.
  fold (sortedPlayers host (Some me) rows) in Hp, Hs. fold out in Hp, Hs.
  assert (Hndo : NoDup (map rowId out)).
  { eapply Permutation_NoDup; [|exact Hnd].
    apply Permutation_map. now symmetry. }
  assert (Huniq : forall a b, In a out -> In b out -> rowId a = rowId b ->
                              a = b).
  { intros a b Ha Hb Hab.
    apply (Permutation_in _ Hp) in Ha. apply (Permutation_in _ Hp) in Hb.
    clear - Hnd Ha Hb Hab. induction rows as [|x rest IH]; [contradiction|].
    cbn in Hnd. inversion Hnd as [|? ? Hx Hrest]; subst.
    destruct Ha as [-> | Ha], Hb as [-> | Hb]; [reflexivity | | |now apply IH].
    - exfalso. apply Hx. rewrite Hab. now apply in_map.
    - exfalso. apply Hx. rewrite <- Hab. now apply in_map. }
  assert (Hmo : In mine out) by (eapply Permutation_in; [symmetry|]; eassumption).
  assert (Hsecond : forall l,
            StronglySorted
              (fun a b => comparePlayers host (Some me) a b <= 0) l ->
            In mine l ->
            (forall x, In x l -> rowId x <> User._id host) ->
            (forall x, In x l -> rowId x = rowId mine -> x = mine) ->
            exists rest, l = mine :: rest).
  { intros l Hl Hin Hnohost Hu. destruct l as [|y rest]; [contradiction|].
    exists rest. f_equal.
    destruct (String.eqb_spec (rowId y) (User._id me)) as [Hy|Hy].
    { apply Hu; [now left | congruence]. }
    destruct Hin as [-> | Hin]; [congruence|].
    inversion Hl as [|? ? _ Hall]; subst.
    rewrite Forall_forall in Hall. specialize (Hall mine Hin).
    unfold comparePlayers, isCurrentUser in Hall.
    destruct (String.eqb_spec (rowId y) (User._id host)) as [E|_];
      [exfalso; exact (Hnohost y (or_introl eq_refl) E)|].
    destruct (String.eqb_spec (rowId mine) (User._id host)) as [E|_];
      [congruence|].
    destruct (String.eqb_spec (rowId y) (User._id me)); [contradiction|].
    destruct (String.eqb_spec (rowId mine) (User._id me)); [lia|congruence]. }
  split.
  - intros h Hh Hhid.
    assert (Hho : In h out)
      by (eapply Permutation_in; [symmetry|]; eassumption).
    destruct (sorted_head_is_host host (Some me) out h Hs Hho Hhid)
      as (first & rest & Hout & Hfirst).
    assert (first = h).
    { apply Huniq; [rewrite Hout; now left | exact Hho | congruence]. }
    subst first.
    assert (Hrest : exists rest', rest = mine :: rest').
    { apply Hsecond.
      - rewrite Hout in Hs. now inversion Hs.
      - rewrite Hout in Hmo. destruct Hmo as [E | Hin]; [|exact Hin].
        exfalso. subst h. congruence.
      - intros x Hx Hxid. rewrite Hout in Hndo. cbn in Hndo.
        inversion Hndo as [|? ? Hnotin _]; subst.
        apply Hnotin. rewrite Hhid, <- Hxid. now apply in_map.
      - intros x Hx Hxid. apply Huniq; [rewrite Hout; now right | exact Hmo
                                         | exact Hxid]. }
    destruct Hrest as [rest' ->]. exists rest'. exact Hout.
  - intros Hnohost. apply Hsecond; [exact Hs | exact Hmo | |].
    + intros x Hx. apply Hnohost. eapply Permutation_in; eassumption.
    + intros x Hx Hxid. now apply Huniq.
Qed.

Lemma host_then_current_user_lead_witness :
  exists rest,
    sortedPlayers alice (Some bob)
      [(Player.mk (User.mk "u-cy" "Cy") 9, false); (Player.mk bob 2, true);
       (Player.mk alice 0, false)]
    = (Player.mk alice 0, false) :: (Player.mk bob 2, true) :: rest.
Proof.
  refine (proj1
    (host_then_current_user_lead alice bob
       [(Player.mk (User.mk "u-cy" "Cy") 9, false); (Player.mk bob 2, true);
        (Player.mk alice 0, false)]
       (Player.mk bob 2, true) _ _ _ _)
    (Player.mk alice 0, false) _ _).
  - repeat constructor; cbn; intuition discriminate.
  - cbn. auto.
  - reflexivity.
  - discriminate.
  - cbn. auto.
  - reflexivity.
Defined.

(** ** The room cards of the list *)

Lemma Status_eqb_neq (a b : Status) : Status_eqb a b = false <-> a <> b.
Proof. destruct a, b; cbn; split; congruence. Qed.

(** X24: on a card of the room list, the join button is offered exactly to
    a visitor who is not the host and not yet listed in a waiting room with
    a free seat; "Room Full" appears only on a waiting room that really is
    full, to somebody who is neither host nor member; and a listed member
    is only ever offered to manage or to rejoin. *)
Theorem card_offers_join_only_when_possible (r : Room)
    (currentUserId : option Id) :
  let action := listedCardAction r currentUserId in
  ((exists label, action = JoinButton label)
   <-> card_isHost r currentUserId = false
       /\ status r = waiting
       /\ (List.length (players r) < maxPlayers r)%nat
       /\ listedInRoom r currentUserId = false)
  /\ (action = RoomFullButton
      <-> card_isHost r currentUserId = false
          /\ status r = waiting
          /\ (maxPlayers r <= List.length (players r))%nat
          /\ listedInRoom r currentUserId = false)
  /\ (listedInRoom r currentUserId = true ->
      action = ManageLink \/ action = RejoinLink)
  /\ (action = ViewGameLink -> status r <> waiting).
Proof.
  intros action. subst action.
  unfold listedCardAction, cardAction, card_canJoin.
  destruct (card_isHost r currentUserId) eqn:Hh;
    destruct (Status_eqb (status r) waiting) eqn:Hw;
    [apply Status_eqb_eq in Hw | apply Status_eqb_neq in Hw
     | apply Status_eqb_eq in Hw | apply Status_eqb_neq in Hw];
    destruct (Nat.ltb_spec (List.length (players r)) (maxPlayers r))
      as [Hfree|Hfull];
    destruct (Nat.leb_spec (maxPlayers r) (List.length (players r)))
      as [Hfull'|Hfree'];
    try lia;
    destruct (listedInRoom r currentUserId) eqn:Hin; cbn;
    (split; [split|split; [split|split]]);
    intros;
    repeat match goal with
           | H : exists _, _ |- _ => destruct H
           | H : _ /\ _ |- _ => destruct H
           end;
    try discriminate; try congruence; try lia;
    try (repeat split; solve [assumption | reflexivity | lia]);
    try (eexists; reflexivity);
    try (left; reflexivity); try (right; reflexivity).
Qed.

(** X25: the join handler of a card never sends a request for a private
    room, where it only opens the passcode page, nor for a visitor who is
    not logged in, who is sent to the login page; for a logged-in visitor
    and a public room it sends exactly one join request, for that room and
    user and without a passcode, and nothing else. *)
Theorem card_join_posts_only_for_public_rooms (room_id : Id) (r : Room)
    (currentUserId : option Id) :
  let effects := card_handleJoinRoom room_id r currentUserId in
  (type r = private \/ currentUserId = None \/ currentUserId = Some "" ->
   forall path body, ~ In (ApiPost path body) effects)
  /\ (type r = private ->
      forall uid, currentUserId = Some uid -> truthy uid = true ->
                  effects = [Navigate "/rooms/join"])
  /\ (currentUserId = None \/ currentUserId = Some "" ->
      effects = [ToastError "You must be logged in to join a room";
                 Navigate "/login"])
  /\ (type r = public ->
      forall uid, currentUserId = Some uid -> truthy uid = true ->
                  effects
                  = [ApiPost ("/rooms/" ++ room_id ++ "/join")%string
                       (JoinBody uid None)]).
Proof.
  intros effects. subst effects. unfold card_handleJoinRoom.
  split; [|split; [|split]].
  - intros H path body.
    destruct currentUserId as [uid|]; [|cbn; intuition discriminate].
    destruct (truthy uid) eqn:Ht; [|cbn; intuition discriminate].
    destruct H as [-> | [H | H]]; [cbn; intuition discriminate | discriminate|].
    injection H as ->. discriminate Ht.
  - intros -> uid -> ->. reflexivity.
  - intros [-> | ->]; reflexivity.
  - intros -> uid -> ->. reflexivity.
Qed.

Lemma card_join_posts_only_for_public_rooms_witness :
  card_handleJoinRoom "r-1" lobby (Some "u-bob") = [Navigate "/rooms/join"].
Proof.
  refine (proj1 (proj2
    (card_join_posts_only_for_public_rooms "r-1" lobby (Some "u-bob")))
    _ "u-bob" _ _); reflexivity.
Defined.

(** ** Answered badges and the answer count *)

Lemma timesRecorded_count_occ (l : list Answer.t) (u q : Id) (r : Z) :
  timesRecorded l u q r
  = count_occ string_dec
      (map Answer.user (filter (forQuestion q r) l)) u.
Proof.
  unfold timesRecorded. induction l as [|a l IH]; cbn; [reflexivity|].
  rewrite sameFact_forQuestion.
  destruct (forQuestion q r a); cbn.
  - rewrite andb_true_r.
    destruct (string_dec (Answer.user a) u) as [E|E].
    + apply String.eqb_eq in E. rewrite E. cbn. now rewrite IH.
    + apply String.eqb_neq in E. rewrite E. exact IH.
  - rewrite andb_false_r. exact IH.
Qed.

Lemma existsb_sameFact_In (l : list Answer.t) (u q : Id) (r : Z) :
  existsb (sameFact u q r) l = true
  <-> In u (map Answer.user (filter (forQuestion q r) l)).
Proof.
  rewrite existsb_exists, in_map_iff. split.
  - intros [a [Ha Hs]]. rewrite sameFact_forQuestion in Hs.
    apply andb_prop in Hs. destruct Hs as [Hu Hq].
    exists a. split; [now apply String.eqb_eq|].
    apply filter_In. now split.
  - intros [a [Hu Ha]]. apply filter_In in Ha. destruct Ha as [Ha Hq].
    exists a. split; [exact Ha|]. rewrite sameFact_forQuestion, Hq.
    subst u. now rewrite String.eqb_refl.
Qed.

Lemma filter_length_map {A B} (f : B -> bool) (g : A -> B) (l : list A) :
  List.length (filter (fun x => f (g x)) l)
  = List.length (filter f (map g l)).
Proof.
  induction l as [|a l IH]; cbn; [reflexivity|].
  destruct (f (g a)); cbn; now rewrite IH.
Qed.

Lemma filter_all_length {A} (f : A -> bool) (l : list A) :
  List.length (filter f l) = List.length l -> forallb f l = true.
Proof.
  induction l as [|a l IH]; cbn; [reflexivity|].
  pose proof (filter_length_le f l) as Hle.
  destruct (f a); cbn; intros H; [apply IH; lia | lia].
Qed.

(** X26: in a room whose players have distinct ids, whose answers hold no
    duplicate fact for the current question and round, and where every
    such fact belongs to a player, the number of players shown with the
    "Answered" badge equals the answer count of the progress bar; so when
    the room reads as fully answered, every player carries the badge. *)
Theorem badges_match_answer_count (r : Room) (q : Question.t) :
  currentQuestion r = Some q ->
  NoDup (map (fun p => User._id (Player.user p)) (players r)) ->
  noDuplicateFacts (answerList r) (Question._id q) (currentRound r) ->
  (forall a, In a (answerList r) ->
             forQuestion (Question._id q) (currentRound r) a = true ->
             In (Answer.user a)
                (map (fun p => User._id (Player.user p)) (players r))) ->
  List.length (filter (playerHasAnswered r) (players r)) = answerCount r
  /\ (allPlayersAnswered r = true ->
      forallb (playerHasAnswered r) (players r) = true).
Proof.
  intros Hq Hids Hfacts Hmembers.
  set (ids := map (fun p => User._id (Player.user p)) (players r)) in *.
  set (users := map Answer.user
                    (filter (forQuestion (Question._id q) (currentRound r))
                            (answerList r))).
  assert (Hcount : answerCount r = List.length users).
  { unfold answerCount, users, answerList, countFor. rewrite Hq.
    destruct (answers r); [now rewrite length_map | reflexivity]. }
  assert (Hflag : forall p,
            playerHasAnswered r p
            = if in_dec string_dec (User._id (Player.user p)) users
              then true else false).
  { intros p. unfold playerHasAnswered. rewrite Hq.
    destruct (in_dec string_dec (User._id (Player.user p)) users) as [Hin|Hn].
    - unfold users, answerList in Hin.
      destruct (answers r) as [l|]; [|contradiction].
      now apply existsb_sameFact_In.
    - destruct (answers r) as [l|] eqn:Ha; [|reflexivity].
      destruct (existsb _ l) eqn:E; [|reflexivity].
      exfalso. apply Hn. unfold users, answerList. rewrite Ha.
      now apply existsb_sameFact_In. }
  assert (Hnd : NoDup users).
  { apply (NoDup_count_occ string_dec). intros u. unfold users.
    rewrite <- timesRecorded_count_occ. apply Hfacts. }
  assert (Hincl : forall u, In u users -> In u ids).
  { intros u Hu. unfold users in Hu. apply in_map_iff in Hu.
    destruct Hu as [a [<- Ha]]. apply filter_In in Ha.
    destruct Ha as [Ha Hfa]. now apply Hmembers. }
  assert (Hlen : List.length (filter (playerHasAnswered r) (players r))
                 = List.length users).
  { rewrite (filter_ext _ _ Hflag).
    rewrite (filter_length_map
               (fun u => if in_dec string_dec u users then true else false)
               (fun p => User._id (Player.user p)) (players r)).
    fold ids. apply Permutation_length. apply NoDup_Permutation.
    - now apply NoDup_filter.
    - exact Hnd.
    - intros u. rewrite filter_In. split.
      + intros [_ Hu]. destruct (in_dec string_dec u users);
          [assumption | discriminate].
      + intros Hu. split; [now apply Hincl|].
        destruct (in_dec string_dec u users); [reflexivity | contradiction]. }
  split; [now rewrite Hcount|].
  intros Hall. apply filter_all_length. rewrite Hlen, <- Hcount.
  unfold allPlayersAnswered in Hall. apply andb_prop in Hall.
  destruct Hall as [Heq _]. now apply Nat.eqb_eq in Heq.
Qed.

Lemma badges_match_answer_count_witness :
  List.length
    (filter (playerHasAnswered (withAnswers (Some [aliceYes]) round1))
            (players (withAnswers (Some [aliceYes]) round1)))
  = answerCount (withAnswers (Some [aliceYes]) round1).
Proof.
  refine (proj1
    (badges_match_answer_count (withAnswers (Some [aliceYes]) round1) q1
       _ _ _ _)).
  - reflexivity.
  - repeat constructor; cbn; intuition discriminate.
  - intros u. unfold timesRecorded. cbn.
    destruct (sameFact u "q-1" 1 aliceYes); cbn; auto.
  - intros a [<- | []] _. cbn. auto.
Defined.

(** ** Joining, and what the panel shows when a round completes *)

(** X27: while a join request of the room page is pending, both join
    buttons are disabled, so it cannot be sent twice; the request carries
    the typed passcode for a private room and none for a public one,
    whatever was typed; it settles by clearing the joining flag, and a
    rejected join shows the server's message if it has one, sends no fetch
    and leaves the room as it was. *)
Theorem join_is_single_and_scoped (roomId : Id) (user : User.t)
    (cap st fetchCap : State) (r : Room) (now : Z)
    (message : option string) :
  room cap = Some r ->
  let joining := stateAfter (handleJoinRoom roomId user cap) st in
  isJoining joining = true
  /\ (forall shown, joinButton_disabled joining shown = true)
  /\ enterRoomButton_disabled joining = true
  /\ (type r = private ->
      effectsOf (handleJoinRoom roomId user cap) st
      = [ApiPost (roomPath roomId "/join")
           (JoinBody (User._id user) (Some (passcode cap)))])
  /\ (type r = public ->
      effectsOf (handleJoinRoom roomId user cap) st
      = [ApiPost (roomPath roomId "/join") (JoinBody (User._id user) None)])
  /\ isJoining
       (stateAfter (handleJoinRoom_resolved roomId user fetchCap now) joining)
     = false
  /\ handleJoinRoom_rejected message joining
     = (Returned tt, withIsJoining false joining,
        [ConsoleError "Error joining room:";
         ToastError (orDefault message "Failed to join room")])
  /\ room (stateAfter (handleJoinRoom_rejected message) joining) = room st
  /\ orDefault None "Failed to join room" = "Failed to join room"
  /\ (forall m, truthy m = true ->
                orDefault (Some m) "Failed to join room" = m).
Proof.
  intros Hr joining.
  assert (Hj : joining = withIsJoining true st).
  { subst joining. unfold handleJoinRoom, stateAfter. rewrite Hr.
    reflexivity. }
  split; [rewrite Hj; reflexivity|].
  split; [intros shown; unfold joinButton_disabled; rewrite Hj; reflexivity|].
  split; [unfold enterRoomButton_disabled; rewrite Hj; reflexivity|].
  split.
  { intros Ht. rewrite (handleJoinRoom_posts_once roomId user cap st r Hr).
    now rewrite Ht. }
  split.
  { intros Ht. rewrite (handleJoinRoom_posts_once roomId user cap st r Hr).
    now rewrite Ht. }
  split.
  { unfold handleJoinRoom_resolved, stateAfter. unfold_monad.
    cbn -[fetchRoomDetails].
    rewrite (fetchRoomDetails_run roomId fetchCap joining true now
               (or_introl eq_refl)).
    destruct (room fetchCap); reflexivity. }
  split; [reflexivity|].
  split; [rewrite Hj; destruct st; reflexivity|].
  split; [reflexivity|].
  intros m Hm. unfold orDefault. now rewrite Hm.
Qed.

Lemma join_is_single_and_scoped_witness :
  isJoining (stateAfter (handleJoinRoom "r-1" bob (showing (Some lobby)))
                        (showing (Some lobby)))
  = true.
Proof.
  refine (proj1
    (join_is_single_and_scoped "r-1" bob (showing (Some lobby))
       (showing (Some lobby)) (showing (Some lobby)) lobby 100 None _)).
  reflexivity.
Defined.

(** X28: when a player-answered event completes the round of a playing
    room on a screen without a summary, the room is still playing, the
    panel keeps the question card and shows the
    "All players have answered!" banner; once the timer the event set has
    fired, the results card with that summary replaces the question card,
    and the banner and the clock are gone. *)
Theorem completed_round_shows_banner_then_results (roomId : Id)
    (cap st fetchCap : State) (push : option PlayerAnswered) (prev : Room)
    (s : RoundResults) (delay fired : Z) :
  room st = Some prev ->
  status prev = playing ->
  roundResults st = None ->
  In (SetTimeout (ShowRoundResults s) delay)
     (effectsOf (on_player_answered cap push) st) ->
  let answered := stateAfter (on_player_answered cap push) st in
  let summarised :=
    stateAfter (runTimer roomId answered fetchCap (ShowRoundResults s) fired)
               answered in
  exists after q,
    room answered = Some after
    /\ room summarised = Some after
    /\ status after = playing
    /\ playPanel answered after = QuestionCard q
    /\ showsAllAnsweredBanner answered after = true
    /\ playPanel summarised after = ResultsCard s
    /\ showsAllAnsweredBanner summarised after = false
    /\ showsTimer summarised after = false.
Proof.
  intros Hprev Hplaying Hnone Hin answered summarised.
  destruct (push_summary_facts cap st push prev s delay Hprev Hin)
    as (after & q & Hroom & Hq & Hstatus & Hcount & Hpos & Hrr).
  fold answered in Hroom, Hrr.
  exists after, q.
  assert (Hs : summarised = withRoundResults (Some s) answered).
  { subst summarised. reflexivity. }
  assert (Hnone' : roundResults answered = None) by congruence.
  split; [exact Hroom|].
  split; [rewrite Hs; destruct answered; exact Hroom|].
  split; [congruence|].
  split; [unfold playPanel; now rewrite Hq, Hnone'|].
  split.
  { unfold showsAllAnsweredBanner, allPlayersAnswered.
    rewrite Hnone', Hcount, Nat.eqb_refl.
    destruct (Nat.ltb_spec 0 (List.length (players after))); [reflexivity|lia].
  }
  split; [unfold playPanel; rewrite Hs, Hq; destruct answered; reflexivity|].
  split.
  { unfold showsAllAnsweredBanner. rewrite Hs.
    destruct answered; cbn. apply andb_false_r. }
  unfold showsTimer. rewrite Hs. destruct answered; reflexivity.
Qed.

Lemma completed_round_shows_banner_then_results_witness :
  exists after q,
    room (stateAfter
            (on_player_answered
               (showing (Some (withAnswers (Some [aliceYes]) round1)))
               (Some (mkPlayerAnswered "u-bob" false)))
            (showing (Some (withAnswers (Some [aliceYes]) round1))))
    = Some after
    /\ playPanel
         (stateAfter
            (on_player_answered
               (showing (Some (withAnswers (Some [aliceYes]) round1)))
               (Some (mkPlayerAnswered "u-bob" false)))
            (showing (Some (withAnswers (Some [aliceYes]) round1))))
         after
       = QuestionCard q.
Proof.
  destruct (completed_round_shows_banner_then_results "r-1"
              (showing (Some (withAnswers (Some [aliceYes]) round1)))
              (showing (Some (withAnswers (Some [aliceYes]) round1)))
              (showing (Some (withAnswers (Some [aliceYes]) round1)))
              (Some (mkPlayerAnswered "u-bob" false))
              (withAnswers (Some [aliceYes]) round1)
              (mkRoundResults 1 1 (Some "sung in public")) 500 1200
              eq_refl eq_refl eq_refl)
    as (after & q & H1 & _ & _ & H2 & _).
  - vm_compute. left. reflexivity.
  - exists after, q. split; assumption.
Defined.

(** * Timing tiers, failures, transitions and the polling interval *)

(** ** The feedback toast and the badge of the clock *)

(** C5, as the specification words it, fails for the badge of Timer.js,
    which is not a function of the elapsed seconds alone.  The host of a
    settled round 1, where answering is open, advances the round: the
    question clock restarts and [canAnswer] is left as it was, so 2.999
    seconds into round 2 the clock is orange and the badge reads
    "+3 bonus", where a submission at that time gets the too-quickly
    toast; with [canAnswer] off the badge at the same time reads "Reading
    period". *)
Lemma timer_badge_shows_bonus_in_reading_period :
  let view := showing (Some round1) in
  let advancing := stateAfter (handleNextRound "r-1" alice view) view in
  let advanced :=
    stateAfter
      (handleNextRound_resolved "r-1"
         (Some (mkNextRoundData playing 2 (Some q2))) 20000)
      advancing in
  let elapsed := elapsedSeconds 22999 (questionStartTime advanced) in
  canAnswer view = true
  /\ room advanced = Some round2
  /\ showsTimer advanced round2 = true
  /\ canAnswer advanced = true
  /\ (elapsed == 2999 # 1000)%Q
  /\ bonusText (canAnswer advanced) elapsed = "+3 bonus"
  /\ bonusText false elapsed = "Reading period"
  /\ timerColor elapsed = "text-orange-500"
  /\ tierToast (tier elapsed)
     = ToastInfo "Base points only - answered too quickly!"
  /\ bonus (tier elapsed) = 0.
Proof. cbv zeta. repeat split. Qed.

(** C5, amended: the toast that closes a submission depends on the elapsed
    seconds alone, with inclusive bounds: "Base points only - answered too
    quickly!" below 3, "Speed bonus: +3 points!" on [3, 5], "Speed bonus:
    +1 point!" on (5, 15], "Base points only - answered too slowly" above
    15; so 3.0 and 5.0 announce 3 points, 5.001 and 15.0 announce 1, 2.999
    and 15.001 none.  The badge of the clock depends on [canAnswer] and
    the elapsed seconds: "Reading period" while [canAnswer] is off,
    otherwise "+3 bonus" up to 5, "+1 bonus" on (5, 15] and "No time
    bonus" above 15. *)
Theorem tier_bonus_boundaries (elapsed : Q) (canAnswerNow : bool) :
  let toast := tierToast (tier elapsed) in
  let badge := bonusText canAnswerNow elapsed in
  ((elapsed < 3)%Q ->
   toast = ToastInfo "Base points only - answered too quickly!"
   /\ bonus (tier elapsed) = 0)
  /\ ((3 <= elapsed)%Q -> (elapsed <= 5)%Q ->
      toast = ToastSuccess "Speed bonus: +3 points!"
      /\ bonus (tier elapsed) = 3)
  /\ ((5 < elapsed)%Q -> (elapsed <= 15)%Q ->
      toast = ToastSuccess "Speed bonus: +1 point!"
      /\ bonus (tier elapsed) = 1)
  /\ ((15 < elapsed)%Q ->
      toast = ToastInfo "Base points only - answered too slowly"
      /\ bonus (tier elapsed) = 0)
  /\ tierToast (tier (2999#1000))
     = ToastInfo "Base points only - answered too quickly!"
  /\ tierToast (tier (3#1)) = ToastSuccess "Speed bonus: +3 points!"
  /\ tierToast (tier (5#1)) = ToastSuccess "Speed bonus: +3 points!"
  /\ tierToast (tier (5001#1000)) = ToastSuccess "Speed bonus: +1 point!"
  /\ tierToast (tier (15#1)) = ToastSuccess "Speed bonus: +1 point!"
  /\ tierToast (tier (15001#1000))
     = ToastInfo "Base points only - answered too slowly"
  /\ (forall roomId currentUser cap live answer now r q,
      room live = Some r -> currentQuestion r = Some q ->
      effectsOf (handleAnswer_resolved roomId currentUser cap answer now) live
      = [Socket (submitAnswer roomId (User._id currentUser) answer
                   (elapsedSeconds now (questionStartTime cap)));
         tierToast (tier (elapsedSeconds now (questionStartTime cap)))])
  /\ (canAnswerNow = false -> badge = "Reading period")
  /\ (canAnswerNow = true ->
      ((elapsed <= 5)%Q -> badge = "+3 bonus")
      /\ ((5 < elapsed)%Q -> (elapsed <= 15)%Q -> badge = "+1 bonus")
      /\ ((15 < elapsed)%Q -> badge = "No time bonus")).
Proof.
  intros toast badge. subst toast badge.
  assert (Hbonus : forall e,
            (tierToast (tier e)
             = ToastInfo "Base points only - answered too quickly!" ->
             bonus (tier e) = 0)
            /\ (tierToast (tier e) = ToastSuccess "Speed bonus: +3 points!" ->
                bonus (tier e) = 3)
            /\ (tierToast (tier e) = ToastSuccess "Speed bonus: +1 point!" ->
                bonus (tier e) = 1)
            /\ (tierToast (tier e)
                = ToastInfo "Base points only - answered too slowly" ->
                bonus (tier e) = 0)).
  { intros e. destruct (tier e); cbn; repeat split; congruence. }
  destruct (Hbonus elapsed) as (B0 & B3 & B1 & B0').
  split.
  { intros H. destruct (tierToast_cases elapsed)
      as [[? E] | [[? [? E]] | [[? [? E]] | [? E]]]];
      try (exfalso; lra). split; [exact E | exact (B0 E)]. }
  split.
  { intros H1 H2. destruct (tierToast_cases elapsed)
      as [[? E] | [[? [? E]] | [[? [? E]] | [? E]]]];
      try (exfalso; lra). split; [exact E | exact (B3 E)]. }
  split.
  { intros H1 H2. destruct (tierToast_cases elapsed)
      as [[? E] | [[? [? E]] | [[? [? E]] | [? E]]]];
      try (exfalso; lra). split; [exact E | exact (B1 E)]. }
  split.
  { intros H. destruct (tierToast_cases elapsed)
      as [[? E] | [[? [? E]] | [[? [? E]] | [? E]]]];
      try (exfalso; lra). split; [exact E | exact (B0' E)]. }
  do 6 (split; [reflexivity|]).
  split.
  { intros roomId currentUser cap live answer now r q Hr Hq.
    exact (handleAnswer_feedback roomId currentUser cap live answer now r q
             Hr Hq). }
  split; [intros ->; reflexivity|].
  intros ->. unfold bonusText. cbn [negb].
  split; [|split].
  - intros H. apply Qle_bool_iff in H. now rewrite H.
  - intros H1 H2.
    destruct (Qle_bool elapsed 5) eqn:E5;
      [apply Qle_bool_iff in E5; exfalso; lra|].
    apply Qle_bool_iff in H2. now rewrite H2.
  - intros H.
    destruct (Qle_bool elapsed 5) eqn:E5;
      [apply Qle_bool_iff in E5; exfalso; lra|].
    destruct (Qle_bool elapsed 15) eqn:E15;
      [apply Qle_bool_iff in E15; exfalso; lra|].
    reflexivity.
Qed.

Lemma tier_bonus_boundaries_witness :
  tierToast (tier (4#1)) = ToastSuccess "Speed bonus: +3 points!"
  /\ bonusText false (4#1) = "Reading period"
  /\ bonusText true (10#1) = "+1 bonus".
Proof.
  pose proof (tier_bonus_boundaries (4#1) false) as H4.
  pose proof (tier_bonus_boundaries (10#1) true) as H10.
  cbv zeta in H4, H10.
  destruct H4 as (_ & Htoast & _ & _ & _ & _ & _ & _ & _ & _ & _ & Hoff & _).
  destruct H10 as (_ & _ & _ & _ & _ & _ & _ & _ & _ & _ & _ & _ & Hon).
  split; [|split].
  - apply Htoast; discriminate.
  - apply Hoff. reflexivity.
  - apply (proj1 (proj2 (Hon eq_refl))); [reflexivity | discriminate].
Defined.

(** ** Failed fetches and the screen *)

(** C6, as the specification words it, fails twice.  A refresh sent from a
    render in a round transition that fails with a room on screen shows
    nothing at all; and after a poll sent by the interval has failed, the
    next two ticks of the interval, 5 and 10 seconds later, send nothing
    whatever the jitter. *)
Lemma failed_fetch_silent_or_not_retried_next_tick :
  let view := showing (Some round1) in
  let changing := withIsTransitioning true view in
  let refreshing :=
    stateAfter (fetchRoomDetails "r-1" changing true 9000) changing in
  let polling :=
    stateAfter (pollingTick "r-1" view view 40000 (1#2)) view in
  let failedPoll :=
    stateAfter (fetchRoomDetails_rejected view 41000) polling in
  In (ApiGet "/rooms/r-1")
     (effectsOf (fetchRoomDetails "r-1" changing true 9000) changing)
  /\ effectsOf (fetchRoomDetails_rejected changing 9500) refreshing
     = [ConsoleError "Error fetching room details:"]
  /\ In (ApiGet "/rooms/r-1")
        (effectsOf (pollingTick "r-1" view view 40000 (1#2)) view)
  /\ In refreshWarning
        (effectsOf (fetchRoomDetails_rejected view 41000) polling)
  /\ (forall fetchCap random,
      (0 <= random)%Q -> (random < 1)%Q ->
      pollingTick "r-1" failedPoll fetchCap 46000 random failedPoll
      = (Returned tt, failedPoll, [])
      /\ pollingTick "r-1" failedPoll fetchCap 51000 random failedPoll
         = (Returned tt, failedPoll, [])).
Proof.
  cbv zeta.
  split; [vm_compute; left; reflexivity|].
  split; [reflexivity|].
  split; [vm_compute; right; left; reflexivity|].
  split; [vm_compute; right; left; reflexivity|].
  intros fetchCap random H0 H1.
  split; apply pollingTick_waits; try assumption; vm_compute;
    split; discriminate.
Qed.

(** C6, amended: a fetch that fails when its render had no room sets the
    error state to the load error and ends the loading flag, so that, the
    room still missing, the error screen with that message is rendered.
    A fetch that fails when its render had a room leaves the room and the
    error state as they are, the room view stays on screen, and the only
    thing shown is the "Failed to refresh" toast; a poll always shows it,
    a refresh sent from a render in a round transition shows nothing.
    Either way the failure releases the in-flight guard and the refreshing
    flag, so a later forced fetch, or a non-forced one that passes the
    transition and debounce guards, sends its request. *)
Theorem poll_failure_hard_then_soft (roomId : Id) (cap st : State) (now : Z) :
  let failed := fetchRoomDetails_rejected cap now in
  let st' := stateAfter failed st in
  outcomeOf failed st = Returned tt
  /\ room st' = room st
  /\ (room cap = None ->
      error st' = Some "Failed to load room details"
      /\ effectsOf failed st = [ConsoleError "Error fetching room details:"]
      /\ (room st = None ->
          screen st' = ErrorScreen "Failed to load room details"))
  /\ (forall r, room cap = Some r ->
      error st' = error st
      /\ effectsOf failed st
         = ConsoleError "Error fetching room details:"
           :: (if isTransitioning cap then [] else [refreshWarning])
      /\ (forall st0 t0 path,
          In (ApiGet path)
             (effectsOf (fetchRoomDetails roomId cap false t0) st0) ->
          effectsOf failed st
          = [ConsoleError "Error fetching room details:"; refreshWarning])
      /\ (forall shown, room st = Some shown -> screen st' = RoomView shown))
  /\ fetchInProgressRef st' = false
  /\ isRefreshing st' = false
  /\ isLoading st' = false
  /\ (forall cap' later,
      countGets (effectsOf (fetchRoomDetails roomId cap' true later) st')
      = 1%nat
      /\ (isTransitioning cap' = false -> 3000 <= later - lastUpdated cap' ->
          countGets (effectsOf (fetchRoomDetails roomId cap' false later) st')
          = 1%nat)).
Proof.
  intros failed st'. subst failed st'.
  unfold outcomeOf, stateAfter, effectsOf.
  rewrite fetchRoomDetails_rejected_run. cbn [fst snd].
  split; [reflexivity|].
  split; [destruct (room cap); reflexivity|].
  split.
  { intros ->. split; [reflexivity|]. split; [reflexivity|].
    intros Hnone. unfold screen. cbn. rewrite Hnone. reflexivity. }
  split.
  { intros r Hr. rewrite Hr. split; [reflexivity|].
    split; [reflexivity|]. split.
    - intros st0 t0 path Hin.
      rewrite (scheduled_fetch_outside_transition _ _ _ _ _ Hin).
      reflexivity.
    - intros shown Hshown. unfold screen. cbn. rewrite Hshown.
      reflexivity. }
  split; [reflexivity|]. split; [reflexivity|]. split; [reflexivity|].
  intros cap' later. split; [apply forced_fetch_effects|].
  intros Ht Hlate.
  fold (effectsOf (fetchRoomDetails roomId cap' false later)
          (withLastPollingUpdate now
             (withLastUpdated now
                (withFetchInProgressRef false
                   (withIsRefreshing false
                      (withIsLoading false
                         match room cap with
                         | Some _ => st
                         | None =>
                             withError (Some "Failed to load room details") st
                         end)))))).
  unfold effectsOf.
  rewrite fetchRoomDetails_run by (right; repeat split; assumption).
  cbn [snd]. rewrite countGets_app.
  match goal with |- context [if ?b then _ else _] => destruct b end;
    reflexivity.
Qed.

Lemma poll_failure_hard_then_soft_witness :
  screen (stateAfter (fetchRoomDetails_rejected
                        (withIsLoading true (showing None)) 10)
                     (withIsLoading true (showing None)))
  = ErrorScreen "Failed to load room details"
  /\ effectsOf (fetchRoomDetails_rejected (showing (Some round1)) 9000)
               (showing (Some round1))
     = [ConsoleError "Error fetching room details:"; refreshWarning]
  /\ screen (stateAfter (fetchRoomDetails_rejected (showing (Some round1)) 9000)
                        (showing (Some round1)))
     = RoomView round1.
Proof.
  split; [|split].
  - apply (proj1 (proj2 (proj2
      (poll_failure_hard_then_soft "r-1" (withIsLoading true (showing None))
         (withIsLoading true (showing None)) 10))));
      reflexivity.
  - destruct (proj1 (proj2 (proj2 (proj2
      (poll_failure_hard_then_soft "r-1" (showing (Some round1))
         (showing (Some round1)) 9000)))) round1 eq_refl) as (_ & _ & H & _).
    apply (H (showing (Some round1)) 9000 (roomPath "r-1" "")).
    vm_compute. left. reflexivity.
  - destruct (proj1 (proj2 (proj2 (proj2
      (poll_failure_hard_then_soft "r-1" (showing (Some round1))
         (showing (Some round1)) 9000)))) round1 eq_refl) as (_ & _ & _ & H).
    apply H. reflexivity.
Defined.

(** ** Polls and round transitions, continued *)

(** The timer set by [scheduleNextFetch] reads the transition flag of the
    render that set it, and the polling effect sets it only outside a
    transition: once set, it sends its GET when it fires, whatever the
    flag has become since. *)
Lemma scheduled_fetch_ignores_later_transition (roomId : Id)
    (cap fetchCap live : State) (now : Z) :
  isTransitioning cap = false -> isTransitioning fetchCap = false ->
  fetchInProgressRef live = false -> 3000 <= now - lastUpdated fetchCap ->
  effectsOf (runTimer roomId cap fetchCap ScheduledFetch now) live
  = (if fetchTimeoutRef live then [ClearTimeout] else [])
    ++ [ApiGet (roomPath roomId "")].
Proof.
  intros Ht Hft Hin Hlate. unfold runTimer, effectsOf, bind, readRef.
  rewrite Ht, Hin. cbn [negb andb when fst snd].
  rewrite fetchRoomDetails_run by (right; repeat split; assumption).
  reflexivity.
Qed.

Example scheduled_fetch_fires_inside_transition :
  let view := showing (Some round1) in
  let scheduled := stateAfter (pollingEffect view 31000) view in
  let transitioning :=
    stateAfter (on_round_started (mkRoundStarted 2 (Some q2)) 34000)
               scheduled in
  effectsOf (pollingEffect view 31000) view = [SetTimeout ScheduledFetch 5000]
  /\ isTransitioning transitioning = true
  /\ effectsOf (runTimer "r-1" view view ScheduledFetch 36000) transitioning
     = [ClearTimeout; ApiGet "/rooms/r-1"].
Proof. cbv zeta. repeat split. Qed.

(** C2, amended: nothing is queued or deferred.  A non-forced fetch called
    from a render that is in a transition returns without a request and
    without touching the room, and the polling interval and the polling
    effect of such a render send and schedule nothing.  A response that
    does arrive is merged immediately whatever the transition flag says,
    its round always and its question when it carries one; and the timer
    that ends a push-driven transition clears the flag and issues a fresh
    forced GET. *)
Theorem polls_skipped_not_deferred (roomId : Id) (currentUser : User.t)
    (cap fetchCap st : State) (now : Z) (random : Q) :
  let poll := fetchRoomDetails roomId cap false now in
  let finish := runTimer roomId cap fetchCap FinishTransitionAndFetch now in
  (isTransitioning cap = true ->
   poll st
   = (Returned tt, withFetchTimeoutRef false st,
      if fetchTimeoutRef st then [ClearTimeout] else [])
   /\ room (stateAfter poll st) = room st
   /\ pollingTick roomId cap fetchCap now random st = (Returned tt, st, [])
   /\ pollingEffect cap now st = (Returned tt, st, []))
  /\ (forall data prev,
      room st = Some prev ->
      room (stateAfter
              (fetchRoomDetails_resolved currentUser cap (Some data) now) st)
      = Some (mergeRoom prev data)
      /\ currentRound (mergeRoom prev data) = currentRound data
      /\ (forall q, currentQuestion data = Some q ->
          currentQuestion (mergeRoom prev data) = Some q))
  /\ isTransitioning (stateAfter finish st) = false
  /\ effectsOf finish st
     = (if fetchTimeoutRef st then [ClearTimeout] else [])
       ++ [ApiGet (roomPath roomId "")].
Proof.
  intros poll finish. subst poll finish.
  split.
  { intros Ht.
    assert (Hskip := fetchRoomDetails_skips roomId cap st now
                       (or_intror (or_introl Ht))).
    split; [exact Hskip|].
    split; [unfold stateAfter; rewrite Hskip; destruct st; reflexivity|].
    split.
    - unfold pollingTick. rewrite Ht. cbn [negb]. rewrite andb_false_r.
      reflexivity.
    - unfold pollingEffect. rewrite Ht. cbn [negb].
      rewrite andb_false_r. reflexivity. }
  split.
  { intros data prev Hprev. rewrite room_after_resolved, Hprev.
    split; [reflexivity|]. split; [reflexivity|].
    intros q Hq. unfold mergeRoom. cbn. now rewrite Hq. }
  unfold runTimer, stateAfter, effectsOf. unfold_monad.
  cbn -[fetchRoomDetails].
  rewrite (fetchRoomDetails_run roomId fetchCap
             (withIsTransitioning false (withCanAnswer true st)) true now
             (or_introl eq_refl)).
  destruct st, (room fetchCap); split; reflexivity.
Qed.

Lemma polls_skipped_not_deferred_witness :
  room (stateAfter
          (fetchRoomDetails "r-1"
             (withIsTransitioning true (showing (Some round2))) false 9000)
          (withIsTransitioning true (showing (Some round2))))
  = Some round2
  /\ pollingEffect (withIsTransitioning true (showing (Some round2))) 40000
       (withIsTransitioning true (showing (Some round2)))
     = (Returned tt, withIsTransitioning true (showing (Some round2)), []).
Proof.
  pose proof (proj1
    (polls_skipped_not_deferred "r-1" bob
       (withIsTransitioning true (showing (Some round2)))
       (showing (Some round2))
       (withIsTransitioning true (showing (Some round2))) 9000 (1#2))
    eq_refl) as (_ & Hroom & _ & _).
  pose proof (proj1
    (polls_skipped_not_deferred "r-1" bob
       (withIsTransitioning true (showing (Some round2)))
       (showing (Some round2))
       (withIsTransitioning true (showing (Some round2))) 40000 (1#2))
    eq_refl) as (_ & _ & _ & Heffect).
  split; [exact Hroom | exact Heffect].
Defined.

(** ** The polling interval, continued *)


